(** * Cookie consent widget: persistence, validation, broadcast

    A shallow embedding of the consent logic of [src/script.js] (the
    function that starts at "Cookie Consent System"): the [CookieUtils]
    adapter over [document.cookie] and [localStorage], [getConsent],
    [saveConsent], [hasConsent], [isCategoryAllowed], [loadScripts],
    [showBanner], [hideBanner], [hideModal], the three save handlers with
    their retry closures, and the public [reset].

    The browser is an explicit state ([Browser]); JavaScript code runs in
    a state-and-exception monad [JS], so that "never throws" is a statement
    about the outcome of a run and not an artefact of the types.  The
    builtins [JSON.stringify], [JSON.parse], [encodeURIComponent] and
    [decodeURIComponent] are parameters ([Platform]); [Reference.platform]
    implements them, to run the widget on concrete browsers. *)

From Stdlib Require Import ZArith Ascii String DecimalString.
From stdpp Require Import base option list strings gmap.

Local Open Scope string_scope.
Set Warnings "-register-all".

(** ** JavaScript values *)

(** The values the widget handles are JSON values: what [JSON.parse]
    returns and what [saveConsent] builds.  [undefined] is not a JSON
    value; an expression that may be [undefined] has type [option value]
    with [None] for [undefined].  Objects keep their properties in
    insertion order; a property name occurs once. *)
Inductive value : Type :=
| VNull
| VBool (b : bool)
| VNum (n : Z)
| VStr (s : string)
| VArr (items : list value)
| VObj (props : list (string * value)).

(** [o[k]] on the property list of an object. *)
Fixpoint lookup_prop (k : string) (props : list (string * value)) : option value :=
  match props with
  | [] => None
  | (k', v) :: rest => if String.eqb k k' then Some v else lookup_prop k rest
  end.

(** ToBoolean. *)
Definition truthy (v : value) : bool :=
  match v with
  | VNull => false
  | VBool b => b
  | VNum n => negb (Z.eqb n 0)
  | VStr s => negb (String.eqb s EmptyString)
  | VArr _ | VObj _ => true
  end.

Definition truthy_opt (o : option value) : bool :=
  match o with
  | Some v => truthy v
  | None => false
  end.

(** [typeof v === 'object'] ([typeof null] is ['object'] too). *)
Definition typeof_object (v : value) : bool :=
  match v with
  | VNull | VArr _ | VObj _ => true
  | _ => false
  end.

(** [typeof x !== 'undefined'] for a property read. *)
Definition defined (o : option value) : bool :=
  match o with
  | Some _ => true
  | None => false
  end.

(** [x === s] for a string constant [s]. *)
Definition strict_eq_str (o : option value) (s : string) : bool :=
  match o with
  | Some (VStr t) => String.eqb t s
  | _ => false
  end.

(** [x === true]. *)
Definition strict_eq_true (o : option value) : bool :=
  match o with
  | Some (VBool true) => true
  | _ => false
  end.

(** [x || false]: [x] when it is truthy, the boolean [false] otherwise. *)
Definition or_false (o : option value) : value :=
  match o with
  | Some v => if truthy v then v else VBool false
  | None => VBool false
  end.

(** Property read [v.k] on a value that is not [null]: arrays and
    primitives have none of the properties the widget reads. *)
Definition prop (v : value) (k : string) : option value :=
  match v with
  | VObj props => lookup_prop k props
  | _ => None
  end.

(** ** String primitives used by [CookieUtils.get] *)

(** [s.split(c)] for a one-character separator. *)
Fixpoint split_on (c : ascii) (s : string) : list string :=
  match s with
  | EmptyString => [EmptyString]
  | String a rest =>
      if Ascii.eqb a c then EmptyString :: split_on c rest
      else match split_on c rest with
           | [] => [String a EmptyString]
           | seg :: segs => String a seg :: segs
           end
  end.

(** [while (c.charAt(0) === ' ') c = c.substring(1, c.length)]. *)
Fixpoint strip_leading_spaces (c : string) : string :=
  match c with
  | String " " rest => strip_leading_spaces rest
  | _ => c
  end.

(** [c.indexOf(p) === 0]. *)
Fixpoint starts_with (p c : string) : bool :=
  match p, c with
  | EmptyString, _ => true
  | String _ _, EmptyString => false
  | String a p', String a' c' => Ascii.eqb a a' && starts_with p' c'
  end.

(** [c.substring(n, c.length)]. *)
Definition substring_from (n : nat) (c : string) : string :=
  String.substring n (String.length c - n) c.

(** Does the character occur in the string? *)
Fixpoint occurs (c : ascii) (s : string) : bool :=
  match s with
  | EmptyString => false
  | String a rest => Ascii.eqb a c || occurs c rest
  end.

(** [parts.join(sep)]. *)
Fixpoint join (sep : string) (parts : list string) : string :=
  match parts with
  | [] => EmptyString
  | [p] => p
  | p :: rest => p ++ sep ++ join sep rest
  end.

(** ** The browser

    The state the widget reads and writes: the cookies of the page,
    [localStorage], the clock, and what the widget leaves behind (console
    lines, dispatched events, queued timers, the elements it appended to
    the body).  Each store answers according to a policy, which is how
    the failures enter that the source guards with [try]/[catch], and the
    one it does not guard: reading [document.cookie].  Logging,
    dispatching and [setTimeout] do not throw. *)

Inductive exn : Type :=
| SecurityError
| QuotaExceededError
| SyntaxError
| URIError
| TypeError.

(** How the page's cookie store answers an assignment to
    [document.cookie]: it takes it, drops it silently, or throws. *)
Inductive cookie_policy : Type :=
| CookiesAccepted
| CookiesIgnored
| CookiesThrow.

(** How [localStorage] answers: every call works, [setItem] throws
    (quota), or every access throws (storage denied). *)
Inductive storage_policy : Type :=
| StorageAvailable
| StorageFull
| StorageDenied.

Inductive level : Type := Warn | Error.

Inductive node_kind : Type := BannerNode | ModalNode.

(** An element the widget appended to [document.body]; [node_visible]
    stands for its visibility class (and [aria-hidden] of the modal). *)
Record node : Type := mkNode {
  node_id : nat;
  node_kind_of : node_kind;
  node_visible : bool
}.

(** The closures the widget passes to [setTimeout]. *)
Inductive task : Type :=
| TaskShowNode (id : nat)
| TaskRemoveNode (id : nat)
| TaskRetryAcceptAll
| TaskRetryReject
| TaskRetrySave (analytics marketing : bool).

(** A cookie as the browser keeps it: beside its name and the text of
    its value, the domain and the path it was set for.  The three of name, domain and
    path tell cookies apart: an assignment to [document.cookie] replaces
    or deletes the cookie that agrees with it on all three, and no
    other. *)
Record cookie : Type := mkCookie {
  cookie_name : string;
  cookie_text : string;
  cookie_domain : string;
  cookie_path : string
}.

(** [host] is the host of the page.  [origin_cookies] are the cookies
    kept for the page, in the order [document.cookie] lists them: longer
    paths first and, among paths of equal length, the cookie created
    first. *)
Record Browser : Type := mkBrowser {
  host : string;
  origin_cookies : list cookie;
  cookie_writes : cookie_policy;
  local_storage : gmap string string;
  storage_access : storage_policy;
  clock : string;
  console : list (level * string);
  dispatched : list (string * value);
  timers : list (nat * task);
  body : list node;
  next_node : nat
}.

Definition with_cookie_jar (j : list cookie) (b : Browser) : Browser :=
  mkBrowser (host b) j (cookie_writes b) (local_storage b) (storage_access b) (clock b)
            (console b) (dispatched b) (timers b) (body b) (next_node b).

Definition with_local_storage (m : gmap string string) (b : Browser) : Browser :=
  mkBrowser (host b) (origin_cookies b) (cookie_writes b) m (storage_access b) (clock b)
            (console b) (dispatched b) (timers b) (body b) (next_node b).

Definition with_console (c : list (level * string)) (b : Browser) : Browser :=
  mkBrowser (host b) (origin_cookies b) (cookie_writes b) (local_storage b)
            (storage_access b) (clock b) c (dispatched b) (timers b) (body b) (next_node b).

Definition with_dispatched (d : list (string * value)) (b : Browser) : Browser :=
  mkBrowser (host b) (origin_cookies b) (cookie_writes b) (local_storage b)
            (storage_access b) (clock b) (console b) d (timers b) (body b) (next_node b).

Definition with_timers (t : list (nat * task)) (b : Browser) : Browser :=
  mkBrowser (host b) (origin_cookies b) (cookie_writes b) (local_storage b)
            (storage_access b) (clock b) (console b) (dispatched b) t (body b) (next_node b).

Definition with_body (n : list node) (next : nat) (b : Browser) : Browser :=
  mkBrowser (host b) (origin_cookies b) (cookie_writes b) (local_storage b)
            (storage_access b) (clock b) (console b) (dispatched b) (timers b) n next.

(** A document of an opaque origin (a framed document without
    same-origin access, a [data:] document): there every assignment to
    [document.cookie] and every access to [localStorage] throws
    [SecurityError], and so does reading [document.cookie].  The two
    policies tell it.  A cookie store that throws on assignments beside a
    [localStorage] that answers is the scenario of the specification,
    "primary store write throws but fallback store write succeeds": there
    the origin of the document is not opaque, and the page reads its
    cookies. *)
Definition opaque_origin (b : Browser) : bool :=
  match cookie_writes b, storage_access b with
  | CookiesThrow, StorageDenied => true
  | _, _ => false
  end.

(** The cookies the page sees: none in a document of an opaque origin. *)
Definition cookie_jar (b : Browser) : list cookie :=
  if opaque_origin b then [] else origin_cookies b.

(** ** Running JavaScript: state and exceptions *)

Inductive outcome (A : Type) : Type :=
| Returned (a : A)
| Thrown (e : exn).
Arguments Returned {A} a.
Arguments Thrown {A} e.

Definition JS (A : Type) : Type := Browser -> outcome A * Browser.

Definition ret {A} (a : A) : JS A := fun b => (Returned a, b).

Definition throw {A} (e : exn) : JS A := fun b => (Thrown e, b).

Definition bind {A B} (m : JS A) (k : A -> JS B) : JS B :=
  fun b =>
    match m b with
    | (Returned a, b') => k a b'
    | (Thrown e, b') => (Thrown e, b')
    end.

(** [try { body } catch (e) { handler }]: effects of the body up to the
    throw are kept. *)
Definition try_catch {A} (body : JS A) (handler : exn -> JS A) : JS A :=
  fun b =>
    match body b with
    | (Returned a, b') => (Returned a, b')
    | (Thrown e, b') => handler e b'
    end.

Declare Scope js_scope.
Delimit Scope js_scope with js.
Notation "'let!' x ':=' m 'in' k" := (bind m (fun x => k))
  (at level 10, x binder, k at level 200) : js_scope.
Local Open Scope js_scope.

Definition returns {A} (m : JS A) (b : Browser) : Prop :=
  exists a b', m b = (Returned a, b').

(** Platform operations. *)

Definition console_log (l : level) (msg : string) : JS unit :=
  fun b => (Returned tt, with_console (console b ++ [(l, msg)]) b).

(** [new Date().toISOString()]. *)
Definition Date_now_toISOString : JS string :=
  fun b => (Returned (clock b), b).

(** The getter of [document.cookie]: the cookies the page sees,
    ["name=value"] joined by ["; "]; it throws in a document of an opaque
    origin. *)
Definition cookie_pair (c : cookie) : string := cookie_name c ++ "=" ++ cookie_text c.

Definition document_cookie (b : Browser) : string :=
  join "; " (map cookie_pair (cookie_jar b)).

Definition document_cookie_get : JS string :=
  fun b =>
    if opaque_origin b then (Thrown SecurityError, b)
    else (Returned (document_cookie b), b).

(** A jar without the cookies of a name, whatever their domain and path. *)
Definition drop_cookie (name : string) (jar : list cookie) : list cookie :=
  List.filter (fun c => negb (String.eqb (cookie_name c) name)) jar.

(** Is [c] the cookie that an assignment [name=...;path=/] made by a page
    of host [page] addresses?  The assignment gives no [Domain], so this
    is the cookie of that name whose domain is the host of the page and
    whose path is [/]. *)
Definition addressed (name page : string) (c : cookie) : bool :=
  String.eqb (cookie_name c) name && String.eqb (cookie_domain c) page
  && String.eqb (cookie_path c) "/".

(** The assignment with a date in the past: the cookie addressed is
    deleted, every other cookie stays, a cookie of the same name under
    another path or domain included. *)
Definition delete_cookie (name page : string) (jar : list cookie) : list cookie :=
  List.filter (fun c => negb (addressed name page c)) jar.

(** The assignment with a date in the future.  The cookie addressed gets
    the new value and keeps its place in the listing (it keeps its
    creation time); when there is none the new cookie is listed last: no
    path is shorter than [/], and no cookie is younger. *)
Definition store_cookie (name val page : string) (jar : list cookie) : list cookie :=
  if existsb (addressed name page) jar then
    map (fun c => if addressed name page c then mkCookie name val page "/" else c) jar
  else jar ++ [mkCookie name val page "/"].

(** The setter of [document.cookie], for an assignment of
    [name=value;expires=...;path=/;SameSite=Lax]. *)
Definition document_cookie_set (name val : string) (expired : bool) : JS unit :=
  fun b =>
    match cookie_writes b with
    | CookiesThrow => (Thrown SecurityError, b)
    | CookiesIgnored => (Returned tt, b)
    | CookiesAccepted =>
        (Returned tt,
         with_cookie_jar (if expired then delete_cookie name (host b) (cookie_jar b)
                          else store_cookie name val (host b) (cookie_jar b)) b)
    end.

Definition localStorage_setItem (k v : string) : JS unit :=
  fun b =>
    match storage_access b with
    | StorageAvailable => (Returned tt, with_local_storage (<[k:=v]> (local_storage b)) b)
    | StorageFull => (Thrown QuotaExceededError, b)
    | StorageDenied => (Thrown SecurityError, b)
    end.

Definition localStorage_getItem (k : string) : JS (option string) :=
  fun b =>
    match storage_access b with
    | StorageDenied => (Thrown SecurityError, b)
    | _ => (Returned (local_storage b !! k), b)
    end.

Definition localStorage_removeItem (k : string) : JS unit :=
  fun b =>
    match storage_access b with
    | StorageDenied => (Thrown SecurityError, b)
    | _ => (Returned tt, with_local_storage (delete k (local_storage b)) b)
    end.

(** [window.dispatchEvent(new CustomEvent(name, { detail: payload }))]. *)
Definition dispatch_CustomEvent (name : string) (payload : value) : JS unit :=
  fun b => (Returned tt, with_dispatched (dispatched b ++ [(name, payload)]) b).

Definition setTimeout (t : task) (delay : nat) : JS unit :=
  fun b => (Returned tt, with_timers (timers b ++ [(delay, t)]) b).

(** The serialisation builtins of the platform.  [None] stands for the
    exception the builtin throws ([SyntaxError], [URIError]). *)
Class Platform : Type := {
  JSON_stringify : value -> string;
  JSON_parse : string -> option value;
  encodeURIComponent : string -> string;
  decodeURIComponent : string -> option string
}.

(** ** The widget *)

Section Widget.
Context {P : Platform}.

Definition CONSENT_VERSION : string := "1.0".
Definition CONSENT_COOKIE_NAME : string := "cookie_consent".
Definition CONSENT_EXPIRY_DAYS : Z := 365.

(** [CATEGORIES.NECESSARY]. *)
Definition CATEGORIES_NECESSARY : string := "necessary".

Definition JSON_parse_js (s : string) : JS value :=
  match JSON_parse s with
  | Some v => ret v
  | None => throw SyntaxError
  end.

Definition decodeURIComponent_js (s : string) : JS string :=
  match decodeURIComponent s with
  | Some t => ret t
  | None => throw URIError
  end.

(** [CookieUtils.set]: the expiry date is now plus [days] days, so the
    assignment deletes the cookie only when [days] is not positive. *)
Definition CookieUtils_set (name : string) (v : value) (days : Z) : JS unit :=
  let cookieValue := encodeURIComponent (JSON_stringify v) in
  let! _ := try_catch (document_cookie_set name cookieValue (days <=? 0)%Z)
                      (fun _ => console_log Warn "Error setting cookie:") in
  try_catch (localStorage_setItem name (JSON_stringify v))
            (fun _ => console_log Warn "Error setting localStorage:").

(** The [for] loop of [CookieUtils.get] over [ca]; [Some parsed] is the
    [return parsed] inside the loop, [None] is falling out of it. *)
Fixpoint scan_cookies (name nameEQ : string) (ca : list string) : JS (option value) :=
  match ca with
  | [] => ret None
  | c0 :: rest =>
      let c := strip_leading_spaces c0 in
      if starts_with nameEQ c then
        let! found :=
          try_catch
            (let cookieValue := substring_from (String.length nameEQ) c in
             let! decoded := decodeURIComponent_js cookieValue in
             let! parsed := JSON_parse_js decoded in
             let! _ := try_catch (localStorage_setItem name (JSON_stringify parsed))
                                 (fun _ => ret tt) in
             ret (Some parsed))
            (fun _ => let! _ := console_log Warn "Error parsing cookie:" in ret None) in
        match found with
        | Some parsed => ret (Some parsed)
        | None => scan_cookies name nameEQ rest
        end
      else scan_cookies name nameEQ rest
  end.

(** The [localStorage] fallback of [CookieUtils.get]; the empty string
    is falsy in [if (stored)]. *)
Definition read_fallback (name : string) : JS value :=
  try_catch
    (let! stored := localStorage_getItem name in
     match stored with
     | Some text => if String.eqb text EmptyString then ret VNull else JSON_parse_js text
     | None => ret VNull
     end)
    (fun _ => let! _ := console_log Warn "Error reading localStorage:" in ret VNull).

Definition CookieUtils_get (name : string) : JS value :=
  let nameEQ := name ++ "=" in
  let! cookie := document_cookie_get in
  let ca := split_on ";" cookie in
  let! found := scan_cookies name nameEQ ca in
  match found with
  | Some parsed => ret parsed
  | None => read_fallback name
  end.

Definition CookieUtils_remove (name : string) : JS unit :=
  let! _ := try_catch (document_cookie_set name EmptyString true) (fun _ => ret tt) in
  try_catch (localStorage_removeItem name) (fun _ => ret tt).

Definition getConsent : JS value :=
  try_catch
    (let! stored := CookieUtils_get CONSENT_COOKIE_NAME in
     if truthy stored && typeof_object stored then
       if strict_eq_str (prop stored "version") CONSENT_VERSION
          || negb (truthy_opt (prop stored "version")) then
         if defined (prop stored "necessary")
            && defined (prop stored "analytics")
            && defined (prop stored "marketing") then
           ret stored
         else ret VNull
       else ret VNull
     else ret VNull)
    (fun _ => let! _ := console_log Warn "Error getting consent:" in ret VNull).

(** [consent.k] in [saveConsent]: reading a property of [null] throws. *)
Definition member (consent : value) (k : string) : JS (option value) :=
  match consent with
  | VNull => throw TypeError
  | _ => ret (prop consent k)
  end.

Definition consentData (now : string) (analytics marketing : option value) : value :=
  VObj [("version", VStr CONSENT_VERSION);
        ("timestamp", VStr now);
        ("necessary", VBool true);
        ("analytics", or_false analytics);
        ("marketing", or_false marketing)].

Definition saveConsent (consent : value) : JS value :=
  let! now := Date_now_toISOString in
  let! analytics := member consent "analytics" in
  let! marketing := member consent "marketing" in
  let data := consentData now analytics marketing in
  let! _ := CookieUtils_set CONSENT_COOKIE_NAME data CONSENT_EXPIRY_DAYS in
  let! saved := CookieUtils_get CONSENT_COOKIE_NAME in
  let! _ :=
    (if negb (truthy saved) || negb (strict_eq_str (prop saved "version") CONSENT_VERSION)
     then console_log Warn "Cookie consent may not have been saved correctly"
     else ret tt) in
  ret data.

(** [consent !== null && typeof consent === 'object' && consent.timestamp]:
    the value of the conjunction, [false] or the timestamp. *)
Definition hasConsent : JS (option value) :=
  let! consent := getConsent in
  match consent with
  | VNull => ret (Some (VBool false))
  | _ => if typeof_object consent then ret (prop consent "timestamp")
         else ret (Some (VBool false))
  end.

Definition isCategoryAllowed (category : string) : JS bool :=
  let! consent := getConsent in
  if negb (truthy consent) then ret false
  else if String.eqb category CATEGORIES_NECESSARY then ret true
  else ret (strict_eq_true (prop consent category)).

Definition loadScripts : JS unit :=
  let! consent := getConsent in
  if negb (truthy consent) then ret tt
  else
    let! _ := (if truthy_opt (prop consent "analytics")
               then dispatch_CustomEvent "cookieConsent:analytics" consent
               else ret tt) in
    let! _ := (if truthy_opt (prop consent "marketing")
               then dispatch_CustomEvent "cookieConsent:marketing" consent
               else ret tt) in
    dispatch_CustomEvent "cookieConsent:necessary" consent.

(** *** Banner and modal, as far as the save handlers touch them *)

Definition node_kind_eqb (k1 k2 : node_kind) : bool :=
  match k1, k2 with
  | BannerNode, BannerNode | ModalNode, ModalNode => true
  | _, _ => false
  end.

(** [document.body.appendChild] of a freshly created element. *)
Definition appendChild_new (k : node_kind) : JS nat :=
  fun b =>
    let id := next_node b in
    (Returned id, with_body (body b ++ [mkNode id k false]) (S id) b).

(** [document.getElementById] for the banner or the modal id. *)
Definition getElementById (k : node_kind) : JS (option nat) :=
  fun b =>
    (Returned (node_id <$> List.find (fun n => node_kind_eqb (node_kind_of n) k) (body b)), b).

Definition set_visible (id : nat) (vis : bool) : JS unit :=
  fun b =>
    (Returned tt,
     with_body (map (fun n => if Nat.eqb (node_id n) id
                              then mkNode id (node_kind_of n) vis else n) (body b))
               (next_node b) b).

Definition remove_node (id : nat) : JS unit :=
  fun b =>
    (Returned tt,
     with_body (List.filter (fun n => negb (Nat.eqb (node_id n) id)) (body b)) (next_node b) b).

(** [showBanner]; the click listeners it registers are the handlers
    below, run when the user clicks. *)
Definition showBanner : JS unit :=
  let! consented := hasConsent in
  if truthy_opt consented then ret tt
  else
    let! banner := appendChild_new BannerNode in
    setTimeout (TaskShowNode banner) 100.

(** The common body of [hideBanner] and [hideModal]: look the element
    up, take its visibility away and queue its removal. *)
Definition hide (k : node_kind) : JS unit :=
  let! found := getElementById k in
  match found with
  | Some id =>
      let! _ := set_visible id false in
      setTimeout (TaskRemoveNode id) 300
  | None => ret tt
  end.

Definition hideBanner : JS unit := hide BannerNode.
Definition hideModal : JS unit := hide ModalNode.

(** The object [{ analytics: ..., marketing: ... }] a handler passes to
    [saveConsent]. *)
Definition choice (analytics marketing : bool) : value :=
  VObj [("analytics", VBool analytics); ("marketing", VBool marketing)].

(** The closure [handleAcceptAll] passes to [setTimeout]. *)
Definition retryAcceptAll : JS unit :=
  let! _ := saveConsent (choice true true) in
  let! consented := hasConsent in
  if truthy_opt consented then
    let! _ := hideBanner in
    let! _ := hideModal in
    loadScripts
  else ret tt.

Definition handleAcceptAll : JS unit :=
  let! _ := saveConsent (choice true true) in
  let! consented := hasConsent in
  if truthy_opt consented then
    let! _ := hideBanner in
    let! _ := hideModal in
    loadScripts
  else
    let! _ := console_log Error "Failed to save consent" in
    setTimeout TaskRetryAcceptAll 100.

(** The closure [handleReject] passes to [setTimeout]. *)
Definition retryReject : JS unit :=
  let! _ := saveConsent (choice false false) in
  let! consented := hasConsent in
  if truthy_opt consented then
    let! _ := hideBanner in
    let! _ := hideModal in
    loadScripts
  else ret tt.

Definition handleReject : JS unit :=
  let! _ := saveConsent (choice false false) in
  let! consented := hasConsent in
  if truthy_opt consented then
    let! _ := hideBanner in
    let! _ := hideModal in
    loadScripts
  else
    let! _ := console_log Error "Failed to save consent" in
    setTimeout TaskRetryReject 100.

(** The closure [handleSave] passes to [setTimeout]. *)
Definition retrySave (analytics marketing : bool) : JS unit :=
  let! _ := saveConsent (choice analytics marketing) in
  let! consented := hasConsent in
  if truthy_opt consented then
    let! _ := hideModal in
    loadScripts
  else ret tt.

(** [handleSave]; the two arguments are the [checked] states of the
    analytics and marketing inputs of the modal. *)
Definition handleSave (analytics marketing : bool) : JS unit :=
  let! _ := saveConsent (choice analytics marketing) in
  let! consented := hasConsent in
  if truthy_opt consented then
    let! _ := hideModal in
    loadScripts
  else
    let! _ := console_log Error "Failed to save consent" in
    setTimeout (TaskRetrySave analytics marketing) 100.

(** Running a callback that [setTimeout] queued. *)
Definition run_task (t : task) : JS unit :=
  match t with
  | TaskShowNode id => set_visible id true
  | TaskRemoveNode id => remove_node id
  | TaskRetryAcceptAll => retryAcceptAll
  | TaskRetryReject => retryReject
  | TaskRetrySave analytics marketing => retrySave analytics marketing
  end.

(** [window.CookieConsent.reset]. *)
Definition reset : JS unit :=
  let! _ := CookieUtils_remove CONSENT_COOKIE_NAME in
  showBanner.

End Widget.

(** ** A reference platform

    The four builtins on ASCII text with integer numbers, to run the
    widget on concrete browsers. *)

Module Reference.

Definition quote : ascii := "034"%char.
Definition backslash : ascii := "092"%char.

Fixpoint escape (s : string) : string :=
  match s with
  | EmptyString => EmptyString
  | String c rest =>
      if Ascii.eqb c quote || Ascii.eqb c backslash
      then String backslash (String c (escape rest))
      else String c (escape rest)
  end.

Definition quoted (s : string) : string :=
  String quote (escape s ++ String quote EmptyString).

Fixpoint stringify (v : value) : string :=
  match v with
  | VNull => "null"
  | VBool true => "true"
  | VBool false => "false"
  | VNum n => NilZero.string_of_int (Z.to_int n)
  | VStr s => quoted s
  | VArr items => "[" ++ join "," (map stringify items) ++ "]"
  | VObj props =>
      "{" ++ join "," (map (fun kv => quoted (fst kv) ++ ":" ++ stringify (snd kv)) props) ++ "}"
  end.

Definition is_ws (c : ascii) : bool :=
  Ascii.eqb c " " || Ascii.eqb c "009" || Ascii.eqb c "010" || Ascii.eqb c "013".

Fixpoint skip_ws (s : string) : string :=
  match s with
  | String c rest => if is_ws c then skip_ws rest else s
  | EmptyString => s
  end.

Definition eat (lit s : string) : option string :=
  if starts_with lit s then Some (substring_from (String.length lit) s) else None.

(** The characters of a string literal after its opening quote, and the
    text after its closing quote. *)
Fixpoint string_body (s : string) : option (string * string) :=
  match s with
  | EmptyString => None
  | String c rest =>
      if Ascii.eqb c quote then Some (EmptyString, rest)
      else if Ascii.eqb c backslash then
        match rest with
        | String e rest' =>
            if Ascii.eqb e quote || Ascii.eqb e backslash || Ascii.eqb e "/"
            then '(body, after) ← string_body rest'; Some (String e body, after)
            else None
        | EmptyString => None
        end
      else '(body, after) ← string_body rest; Some (String c body, after)
  end.

Definition digit_of (c : ascii) : option Z :=
  let n := nat_of_ascii c in
  if (48 <=? n)%nat && (n <=? 57)%nat then Some (Z.of_nat (n - 48)) else None.

Fixpoint digits (acc : Z) (s : string) : Z * string :=
  match s with
  | String c rest =>
      match digit_of c with
      | Some d => digits (10 * acc + d) rest
      | None => (acc, s)
      end
  | EmptyString => (acc, s)
  end.

Definition number (s : string) : option (value * string) :=
  match s with
  | String "-" (String c rest) =>
      d ← digit_of c; let '(n, after) := digits d rest in Some (VNum (- n), after)
  | String c rest =>
      d ← digit_of c; let '(n, after) := digits d rest in Some (VNum n, after)
  | EmptyString => None
  end.

(** [JSON.parse] keeps the last of several members with one name. *)
Fixpoint set_prop (k : string) (v : value) (props : list (string * value))
    : list (string * value) :=
  match props with
  | [] => [(k, v)]
  | (k', v') :: rest =>
      if String.eqb k k' then (k, v) :: rest else (k', v') :: set_prop k v rest
  end.

Fixpoint parse_value (fuel : nat) (s : string) : option (value * string) :=
  match fuel with
  | O => None
  | S fuel' =>
      match skip_ws s with
      | String "n" _ => after ← eat "null" (skip_ws s); Some (VNull, after)
      | String "t" _ => after ← eat "true" (skip_ws s); Some (VBool true, after)
      | String "f" _ => after ← eat "false" (skip_ws s); Some (VBool false, after)
      | String "[" rest =>
          match skip_ws rest with
          | String "]" after => Some (VArr [], after)
          | _ => '(items, after) ← parse_items fuel' rest; Some (VArr items, after)
          end
      | String "{" rest =>
          match skip_ws rest with
          | String "}" after => Some (VObj [], after)
          | _ => '(props, after) ← parse_members fuel' [] rest; Some (VObj props, after)
          end
      | String c rest =>
          if Ascii.eqb c quote
          then '(text, after) ← string_body rest; Some (VStr text, after)
          else number (String c rest)
      | EmptyString => None
      end
  end
with parse_items (fuel : nat) (s : string) : option (list value * string) :=
  match fuel with
  | O => None
  | S fuel' =>
      '(v, rest) ← parse_value fuel' s;
      match skip_ws rest with
      | String "," rest' => '(vs, after) ← parse_items fuel' rest'; Some (v :: vs, after)
      | String "]" after => Some ([v], after)
      | _ => None
      end
  end
with parse_members (fuel : nat) (acc : list (string * value)) (s : string)
    : option (list (string * value) * string) :=
  match fuel with
  | O => None
  | S fuel' =>
      match skip_ws s with
      | String c rest =>
          if Ascii.eqb c quote then
            '(k, rest1) ← string_body rest;
            match skip_ws rest1 with
            | String ":" rest2 =>
                '(v, rest3) ← parse_value fuel' rest2;
                match skip_ws rest3 with
                | String "," rest4 => parse_members fuel' (set_prop k v acc) rest4
                | String "}" after => Some (set_prop k v acc, after)
                | _ => None
                end
            | _ => None
            end
          else None
      | EmptyString => None
      end
  end.

Definition parse (s : string) : option value :=
  '(v, after) ← parse_value (2 * String.length s + 2) s;
  match skip_ws after with
  | EmptyString => Some v
  | _ => None
  end.

(** Percent-encoding: every character but [A-Z a-z 0-9 - _ . ! ~ * ' ( )]
    is written [%XX]. *)
Definition unreserved (c : ascii) : bool :=
  let n := nat_of_ascii c in
  ((48 <=? n) && (n <=? 57) || (65 <=? n) && (n <=? 90) || (97 <=? n) && (n <=? 122))%nat
  || occurs c "-_.!~*'()".

Definition hex_digit (n : nat) : ascii :=
  match String.get n "0123456789ABCDEF" with
  | Some c => c
  | None => "0"%char
  end.

Definition hex_value (c : ascii) : option nat :=
  let n := nat_of_ascii c in
  if (48 <=? n)%nat && (n <=? 57)%nat then Some (n - 48)
  else if (65 <=? n)%nat && (n <=? 70)%nat then Some (n - 55)
  else if (97 <=? n)%nat && (n <=? 102)%nat then Some (n - 87)
  else None.

Fixpoint encode (s : string) : string :=
  match s with
  | EmptyString => EmptyString
  | String c rest =>
      if unreserved c then String c (encode rest)
      else
        let n := nat_of_ascii c in
        String "%" (String (hex_digit (n / 16)) (String (hex_digit (n mod 16)) (encode rest)))
  end.

Fixpoint decode (s : string) : option string :=
  match s with
  | EmptyString => Some EmptyString
  | String "%" (String h (String l rest)) =>
      hi ← hex_value h; lo ← hex_value l; text ← decode rest;
      Some (String (ascii_of_nat (16 * hi + lo)) text)
  | String "%" _ => None
  | String c rest => text ← decode rest; Some (String c text)
  end.

Definition platform : Platform :=
  {| JSON_stringify := stringify;
     JSON_parse := parse;
     encodeURIComponent := encode;
     decodeURIComponent := decode |}.

End Reference.

(** ** Browsers to run the widget on *)

Module Scenarios.

Definition midnight : string := "2026-01-01T00:00:00.000Z".

(** The host of the page. *)
Definition site : string := "shop.example".

(** The consent cookie as the widget writes it: for the host of the
    page, under [/]. *)
Definition consent_cookie (r : value) : cookie :=
  mkCookie CONSENT_COOKIE_NAME (Reference.encode (Reference.stringify r)) site "/".

(** A first visit: nothing stored, both stores working. *)
Definition first_visit : Browser :=
  mkBrowser site [] CookiesAccepted ∅ StorageAvailable midnight [] [] [] [] 0.

(** A record with the numeric version [0]. *)
Definition version_zero_record : value :=
  VObj [("version", VNum 0); ("timestamp", VStr "2025-06-01T12:00:00.000Z");
        ("necessary", VBool true); ("analytics", VBool true); ("marketing", VBool false)].

(** A visit that finds the version-0 record in [localStorage]. *)
Definition version_zero_visit : Browser :=
  mkBrowser site [] CookiesAccepted
            {[ CONSENT_COOKIE_NAME := Reference.stringify version_zero_record ]}
            StorageAvailable midnight [] [] [] [] 0.

(** The record of an earlier "accept analytics only". *)
Definition analytics_only_record : value :=
  VObj [("version", VStr CONSENT_VERSION); ("timestamp", VStr "2025-06-01T12:00:00.000Z");
        ("necessary", VBool true); ("analytics", VBool true); ("marketing", VBool false)].

(** A later visit: the record is in the cookie and in [localStorage],
    next to a cookie of another script. *)
Definition returning_visit : Browser :=
  mkBrowser site
            [mkCookie "theme" "dark" site "/"; consent_cookie analytics_only_record]
            CookiesAccepted
            {[ CONSENT_COOKIE_NAME := Reference.stringify analytics_only_record ]}
            StorageAvailable midnight [] [] [] [] 0.

(** The record of a "reject" at [midnight]. *)
Definition rejected_record : value :=
  VObj [("version", VStr CONSENT_VERSION); ("timestamp", VStr midnight);
        ("necessary", VBool true); ("analytics", VBool false); ("marketing", VBool false)].

(** A first visit on a page whose cookie store throws on writes. *)
Definition blocked_cookies_visit : Browser :=
  mkBrowser site [] CookiesThrow ∅ StorageAvailable midnight [] [] [] [] 0.

(** The earlier record is still in the cookie, and the cookie store now
    throws on writes. *)
Definition stale_cookie_visit : Browser :=
  mkBrowser site [consent_cookie analytics_only_record]
            CookiesThrow ∅ StorageAvailable midnight [] [] [] [] 0.

(** A first visit on a page where neither store takes a write; the modal
    is open. *)
Definition refusing_visit : Browser :=
  mkBrowser site [] CookiesThrow ∅ StorageFull midnight [] [] [] [mkNode 0 ModalNode true] 1.

(** A record written before records carried a version. *)
Definition legacy_record : value :=
  VObj [("timestamp", VStr "2024-03-01T09:30:00.000Z");
        ("necessary", VBool true); ("analytics", VBool true); ("marketing", VBool true)].

(** Cookies are disabled (no cookie shows, writes are dropped) and
    [localStorage] is full; it still holds the legacy record.  The modal
    is open. *)
Definition legacy_record_visit : Browser :=
  mkBrowser site [] CookiesIgnored
            {[ CONSENT_COOKIE_NAME := Reference.stringify legacy_record ]}
            StorageFull midnight [] [] [] [mkNode 0 ModalNode true] 1.

(** The record of an earlier "reject". *)
Definition earlier_rejection : value :=
  VObj [("version", VStr CONSENT_VERSION); ("timestamp", VStr "2025-06-01T12:00:00.000Z");
        ("necessary", VBool true); ("analytics", VBool false); ("marketing", VBool false)].

(** A page under [/shop] that sees a consent cookie set for that path,
    with the record of the earlier rejection; both stores take writes. *)
Definition other_path_visit : Browser :=
  mkBrowser site
            [mkCookie CONSENT_COOKIE_NAME
                      (Reference.encode (Reference.stringify earlier_rejection)) site "/shop"]
            CookiesAccepted ∅ StorageAvailable midnight [] [] [] [] 0.

(** The page runs in a framed document without same-origin access: its
    origin is opaque. *)
Definition opaque_origin_visit : Browser :=
  mkBrowser site [] CookiesThrow ∅ StorageDenied midnight [] [] [] [] 0.

(** A record written by other code, with the number 1 for analytics. *)
Definition numeric_record : value :=
  VObj [("version", VStr CONSENT_VERSION); ("timestamp", VStr "2025-06-01T12:00:00.000Z");
        ("necessary", VBool true); ("analytics", VNum 1); ("marketing", VBool false)].

Definition numeric_visit : Browser :=
  mkBrowser site [consent_cookie numeric_record]
            CookiesAccepted ∅ StorageAvailable midnight [] [] [] [] 0.

End Scenarios.

(** ** The adapter's read, store by store

    What [CookieUtils.get] computes, told on the cookie jar and on
    [localStorage] rather than on the text of [document.cookie]; the
    lemmas below relate the two. *)

Section Views.
Context {P : Platform}.

(** A cookie as [document.cookie] can show it: no [;] in its value, and
    no [;], [=] or space in its name. *)
Definition cookie_ok (c : cookie) : bool :=
  negb (occurs ";" (cookie_name c)) && negb (occurs " " (cookie_name c))
  && negb (occurs "=" (cookie_name c)) && negb (occurs ";" (cookie_text c)).

Definition well_formed_jar (jar : list cookie) : bool :=
  forallb cookie_ok jar.

(** [JSON.parse(decodeURIComponent(text))], [None] when either throws. *)
Definition cookie_value (text : string) : option value :=
  match decodeURIComponent text with
  | Some decoded => JSON_parse decoded
  | None => None
  end.

(** The primary record: the value of the first cookie of that name that
    decodes and parses. *)
Fixpoint primary_record (name : string) (jar : list cookie) : option value :=
  match jar with
  | [] => None
  | c :: rest =>
      if String.eqb (cookie_name c) name then
        match cookie_value (cookie_text c) with
        | Some parsed => Some parsed
        | None => primary_record name rest
        end
      else primary_record name rest
  end.

(** The cookies of that name that fail to parse before the scan stops. *)
Fixpoint unreadable_cookies (name : string) (jar : list cookie) : nat :=
  match jar with
  | [] => 0
  | c :: rest =>
      if String.eqb (cookie_name c) name then
        match cookie_value (cookie_text c) with
        | Some _ => 0
        | None => S (unreadable_cookies name rest)
        end
      else unreadable_cookies name rest
  end.

(** The fallback record: what [localStorage] holds under the key, when
    it can be read and parses; [null] otherwise. *)
Definition fallback_record (name : string) (b : Browser) : value :=
  match storage_access b with
  | StorageDenied => VNull
  | _ =>
      match local_storage b !! name with
      | Some text =>
          if String.eqb text EmptyString then VNull
          else match JSON_parse text with
               | Some parsed => parsed
               | None => VNull
               end
      | None => VNull
      end
  end.

(** Does reading the fallback log a warning? *)
Definition fallback_warns (name : string) (b : Browser) : bool :=
  match storage_access b with
  | StorageDenied => true
  | _ =>
      match local_storage b !! name with
      | Some text =>
          if String.eqb text EmptyString then false
          else match JSON_parse text with
               | Some _ => false
               | None => true
               end
      | None => false
      end
  end.

(** Repair-on-read: the parsed primary record written to the fallback. *)
Definition mirrored (name : string) (found : option value) (b : Browser) : Browser :=
  match found, storage_access b with
  | Some parsed, StorageAvailable =>
      with_local_storage (<[name := JSON_stringify parsed]> (local_storage b)) b
  | _, _ => b
  end.

Definition warned (n : nat) (msg : string) (b : Browser) : Browser :=
  with_console (console b ++ replicate n (Warn, msg)) b.

(** The browser after [CookieUtils.get], in a document that can read its
    cookies. *)
Definition after_get (name : string) (b : Browser) : Browser :=
  let found := primary_record name (cookie_jar b) in
  let b1 := mirrored name found
              (warned (unreadable_cookies name (cookie_jar b)) "Error parsing cookie:" b) in
  match found with
  | Some _ => b1
  | None => warned (if fallback_warns name b then 1 else 0) "Error reading localStorage:" b1
  end.

(** The value [CookieUtils.get] returns, in a document that can read
    its cookies. *)
Definition stored_record (name : string) (b : Browser) : value :=
  match primary_record name (cookie_jar b) with
  | Some parsed => parsed
  | None => fallback_record name b
  end.

(** The three nested tests of [getConsent] on what the adapter returned. *)
Definition accepted (stored : value) : bool :=
  truthy stored && typeof_object stored
  && (strict_eq_str (prop stored "version") CONSENT_VERSION
      || negb (truthy_opt (prop stored "version")))
  && (defined (prop stored "necessary")
      && defined (prop stored "analytics")
      && defined (prop stored "marketing")).

(** What [getConsent] makes of the adapter's answer. *)
Definition validated (stored : value) : value :=
  if accepted stored then stored else VNull.

(** Validity as the specification words it: the version is the configured
    one or the field is absent, and the three category fields are
    present. *)
Definition valid_per_spec (r : value) : bool :=
  match prop r "version" with
  | None => true
  | Some v => strict_eq_str (Some v) CONSENT_VERSION
  end
  && defined (prop r "necessary") && defined (prop r "analytics")
  && defined (prop r "marketing").

(** Validity as [getConsent] decides it: an object whose version is the
    configured one, absent or falsy, with the three category fields. *)
Definition valid_record (r : value) : bool :=
  match r with
  | VObj props =>
      match lookup_prop "version" props with
      | None => true
      | Some v => strict_eq_str (Some v) CONSENT_VERSION || negb (truthy v)
      end
      && defined (lookup_prop "necessary" props)
      && defined (lookup_prop "analytics" props)
      && defined (lookup_prop "marketing" props)
  | _ => false
  end.

(** The signals of a broadcast of [r], in the order of dispatch. *)
Definition optional_signals (r : value) : list (string * value) :=
  (if truthy_opt (prop r "analytics") then [("cookieConsent:analytics", r)] else [])
  ++ (if truthy_opt (prop r "marketing") then [("cookieConsent:marketing", r)] else []).

(** The body of the [try] in the loop, on the value of one cookie. *)
Definition read_cookie (name text : string) : JS (option value) :=
  try_catch
    (let! decoded := decodeURIComponent_js text in
     let! parsed := JSON_parse_js decoded in
     let! _ := try_catch (localStorage_setItem name (JSON_stringify parsed))
                         (fun _ => ret tt) in
     ret (Some parsed))
    (fun _ => let! _ := console_log Warn "Error parsing cookie:" in ret None).

(** The loop of [CookieUtils.get] over the cookies of the jar. *)
Fixpoint scan_jar (name : string) (jar : list cookie) : JS (option value) :=
  match jar with
  | [] => ret None
  | c :: rest =>
      if String.eqb (cookie_name c) name then
        let! found := read_cookie name (cookie_text c) in
        match found with
        | Some parsed => ret (Some parsed)
        | None => scan_jar name rest
        end
      else scan_jar name rest
  end.

(** The browser after [getConsent]: on an opaque origin the read
    throws and the [catch] logs it. *)
Definition after_getConsent (b : Browser) : Browser :=
  if opaque_origin b then warned 1 "Error getting consent:" b
  else after_get CONSENT_COOKIE_NAME b.

(** The jar without the cookie the widget writes: the cookies its
    assignments leave alone, those of the same name under another path or
    domain among them. *)
Definition other_cookies (name : string) (b : Browser) : list cookie :=
  delete_cookie name (host b) (cookie_jar b).

(** The widget's own cookie is the only cookie of the name that can read
    as a record: no cookie of the name under another path or domain
    decodes and parses. *)
Definition no_other_record (name : string) (b : Browser) : Prop :=
  primary_record name (other_cookies name b) = None.

(** Nothing to read: no readable cookie of the name, and nothing in the
    fallback. *)
Definition nothing_stored (b : Browser) : Prop :=
  well_formed_jar (cookie_jar b) = true
  /\ primary_record CONSENT_COOKIE_NAME (cookie_jar b) = None
  /\ fallback_record CONSENT_COOKIE_NAME b = VNull.

(** What [saveConsent] checks on the record it reads back. *)
Definition verification_fails (saved : value) : bool :=
  negb (truthy saved) || negb (strict_eq_str (prop saved "version") CONSENT_VERSION).

(** From [b] to [b'] the timer queue only grew by element removals (the
    fade-out of [hideBanner] and [hideModal]): no retry was queued. *)
Definition no_retry_queued (b b' : Browser) : Prop :=
  exists queued : list (nat * task),
    timers b' = (timers b ++ queued)%list
    /\ Forall (fun entry => exists id, entry = (300, TaskRemoveNode id)) queued.

(** The browser after [CookieUtils.set]. *)
Definition after_set (name : string) (v : value) (days : Z) (b : Browser) : Browser :=
  let b1 :=
    match cookie_writes b with
    | CookiesAccepted =>
        with_cookie_jar
          (if (days <=? 0)%Z then delete_cookie name (host b) (cookie_jar b)
           else store_cookie name (encodeURIComponent (JSON_stringify v)) (host b)
                             (cookie_jar b)) b
    | CookiesIgnored => b
    | CookiesThrow => warned 1 "Error setting cookie:" b
    end in
  match storage_access b with
  | StorageAvailable =>
      with_local_storage (<[name := JSON_stringify v]> (local_storage b1)) b1
  | _ => warned 1 "Error setting localStorage:" b1
  end.

(** The browser after [CookieUtils.remove]. *)
Definition after_remove (name : string) (b : Browser) : Browser :=
  let b1 :=
    match cookie_writes b with
    | CookiesAccepted => with_cookie_jar (delete_cookie name (host b) (cookie_jar b)) b
    | _ => b
    end in
  match storage_access b with
  | StorageDenied => b1
  | _ => with_local_storage (delete name (local_storage b1)) b1
  end.

(** The record survives the trip through a cookie: its text has no [;]
    and decodes and parses back to it. *)
Definition cookie_round_trip (v : value) : Prop :=
  occurs ";" (encodeURIComponent (JSON_stringify v)) = false
  /\ cookie_value (encodeURIComponent (JSON_stringify v)) = Some v.

(** The record survives the trip through [localStorage]. *)
Definition storage_round_trip (v : value) : Prop :=
  JSON_stringify v <> EmptyString /\ JSON_parse (JSON_stringify v) = Some v.

(** [m] run from [b] returns, with a result and a browser in [post]. *)
Definition runs {A} (m : JS A) (b : Browser) (post : A -> Browser -> Prop) : Prop :=
  exists a b', m b = (Returned a, b') /\ post a b'.

(** [b'] is [b] up to the contents of the two stores and to lines added
    to the console: nothing dispatched, queued or drawn. *)
Definition page_kept (b b' : Browser) : Prop :=
  cookie_writes b' = cookie_writes b /\ storage_access b' = storage_access b
  /\ clock b' = clock b /\ dispatched b' = dispatched b /\ timers b' = timers b
  /\ body b' = body b /\ next_node b' = next_node b
  /\ exists lines : list (level * string), console b' = (console b ++ lines)%list.

(** A read leaves the page and the cookie jar as they are. *)
Definition read_kept (b b' : Browser) : Prop :=
  page_kept b b' /\ cookie_jar b' = cookie_jar b.

End Views.

(** ** The page around the widget: [init], the modal and its inputs

    [init] and [showModal] need two things the browser above does not
    hold: the closure [init] passes to [setTimeout], and the [checked]
    state of the two inputs of a modal.  [Page] adds them; code of the
    widget runs on the browser inside it. *)

(** The closure of [init]: [function() { if (!hasConsent()) showBanner(); }]. *)
Inductive callback : Type :=
| CallbackInitRecheck.

Record Page : Type := mkPage {
  browser : Browser;
  loaded_at : string;
  later : list (nat * callback);
  modal_inputs : list (nat * (bool * bool))
}.

Definition with_browser (b : Browser) (p : Page) : Page :=
  mkPage b (loaded_at p) (later p) (modal_inputs p).

Definition PageJS (A : Type) : Type := Page -> outcome A * Page.

Definition page_ret {A} (a : A) : PageJS A := fun p => (Returned a, p).

Definition page_bind {A B} (m : PageJS A) (k : A -> PageJS B) : PageJS B :=
  fun p =>
    match m p with
    | (Returned a, p') => k a p'
    | (Thrown e, p') => (Thrown e, p')
    end.

Declare Scope page_scope.
Delimit Scope page_scope with page.
Notation "'do!' x ':=' m 'in' k" := (page_bind m (fun x => k))
  (at level 10, x binder, k at level 200) : page_scope.
Local Open Scope page_scope.

(** Code of the widget, run on the browser of the page. *)
Definition on_browser {A} (m : JS A) : PageJS A :=
  fun p => let (o, b') := m (browser p) in (o, with_browser b' p).

Definition page_setTimeout (c : callback) (delay : nat) : PageJS unit :=
  fun p => (Returned tt,
            mkPage (browser p) (loaded_at p) (later p ++ [(delay, c)]) (modal_inputs p)).

(** The inputs [#cookie-analytics] and [#cookie-marketing] of a new modal. *)
Definition set_inputs (modal : nat) (checks : bool * bool) : PageJS unit :=
  fun p => (Returned tt,
            mkPage (browser p) (loaded_at p) (later p) (modal_inputs p ++ [(modal, checks)])).

Fixpoint inputs_of (modal : nat) (inputs : list (nat * (bool * bool))) : option (bool * bool) :=
  match inputs with
  | [] => None
  | (id, checks) :: rest => if Nat.eqb id modal then Some checks else inputs_of modal rest
  end.

(** [document.getElementById('cookie-analytics').checked] and the same
    for marketing: the inputs found are those of the first modal of the
    body; with no modal the lookup gives [null] and [.checked] throws. *)
Definition checked_inputs : PageJS (bool * bool) :=
  fun p =>
    match List.find (fun n => node_kind_eqb (node_kind_of n) ModalNode) (body (browser p)) with
    | Some n =>
        match inputs_of (node_id n) (modal_inputs p) with
        | Some checks => (Returned checks, p)
        | None => (Thrown TypeError, p)
        end
    | None => (Thrown TypeError, p)
    end.

Section PageWidget.
Context {P : Platform}.

(** [defaultConsent], built when the script loads. *)
Definition defaultConsent (loaded : string) : value :=
  VObj [("version", VStr CONSENT_VERSION);
        ("timestamp", VStr loaded);
        ("necessary", VBool true);
        ("analytics", VBool false);
        ("marketing", VBool false)].

(** [createCookieModal], as far as the stored consent decides its
    content: the [checked] attributes of the analytics and marketing
    inputs, from [getConsent() || defaultConsent]. *)
Definition createCookieModal : PageJS (bool * bool) :=
  do! consent := on_browser getConsent in
  fun p =>
    let currentConsent := if truthy consent then consent else defaultConsent (loaded_at p) in
    (Returned (truthy_opt (prop currentConsent "analytics"),
               truthy_opt (prop currentConsent "marketing")), p).

(** [showModal]: the modal is created and appended, and its reveal
    queued 10 ms later.  The focus trap and the listeners it registers
    are left out; the listeners are the handlers, run on a click. *)
Definition showModal : PageJS unit :=
  do! checks := createCookieModal in
  do! modal := on_browser (appendChild_new ModalNode) in
  do! _ := set_inputs modal checks in
  on_browser (setTimeout (TaskShowNode modal) 10).

Definition handleManage : PageJS unit :=
  do! _ := on_browser hideBanner in
  showModal.

(** [handleSave] as the listener of the Save button: it reads the two
    inputs from the document. *)
Definition handleSave_listener : PageJS unit :=
  do! checks := checked_inputs in
  on_browser (handleSave (fst checks) (snd checks)).

Definition init : PageJS unit :=
  do! consent := on_browser getConsent in
  do! hasValidConsent := on_browser hasConsent in
  if negb (truthy consent) || negb (truthy_opt hasValidConsent) then
    page_setTimeout CallbackInitRecheck 100
  else on_browser loadScripts.

(** Running a closure that [init] queued. *)
Definition run_callback (c : callback) : PageJS unit :=
  match c with
  | CallbackInitRecheck =>
      do! consented := on_browser hasConsent in
      if negb (truthy_opt consented) then on_browser showBanner else page_ret tt
  end.

End PageWidget.

(** ** The dark-mode toggle of the navigation script

    The block under [if (darkModeToggle)] of the [DOMContentLoaded]
    handler and the click listener it registers.  The markup is not part
    of the script: the state of the document before the script runs is
    whatever the [Site] holds. *)

(** The element [#dark-mode-toggle]; [toggle_icon] is the text of its
    [.toggle-icon] child, [None] when it has no such child. *)
Record Toggle : Type := mkToggle {
  toggle_active : bool;
  aria_checked : option string;
  toggle_icon : option string
}.

(** [store] is the browser of the widget above: its [localStorage] is
    the one the theme is saved in.  [dark_mode] is the class [dark-mode]
    of the body, [prefers_dark] the answer of
    [matchMedia('(prefers-color-scheme: dark)')], and [toggle_listens]
    says whether the click listener is registered. *)
Record Site : Type := mkSite {
  store : Browser;
  prefers_dark : bool;
  dark_mode : bool;
  darkModeToggle : option Toggle;
  toggle_listens : bool
}.

Definition with_store (b : Browser) (s : Site) : Site :=
  mkSite b (prefers_dark s) (dark_mode s) (darkModeToggle s) (toggle_listens s).

Definition with_dark_mode (dark : bool) (s : Site) : Site :=
  mkSite (store s) (prefers_dark s) dark (darkModeToggle s) (toggle_listens s).

Definition with_toggle (f : Toggle -> Toggle) (s : Site) : Site :=
  mkSite (store s) (prefers_dark s) (dark_mode s) (f <$> darkModeToggle s) (toggle_listens s).

Definition SiteJS (A : Type) : Type := Site -> outcome A * Site.

Definition site_ret {A} (a : A) : SiteJS A := fun s => (Returned a, s).

Definition site_bind {A B} (m : SiteJS A) (k : A -> SiteJS B) : SiteJS B :=
  fun s =>
    match m s with
    | (Returned a, s') => k a s'
    | (Thrown e, s') => (Thrown e, s')
    end.

Declare Scope site_scope.
Delimit Scope site_scope with site.
Notation "'run!' x ':=' m 'in' k" := (site_bind m (fun x => k))
  (at level 10, x binder, k at level 200) : site_scope.
Local Open Scope site_scope.

Definition on_store {A} (m : JS A) : SiteJS A :=
  fun s => let (o, b') := m (store s) in (o, with_store b' s).

(** The two icons, as the bytes of their UTF-8 encoding: the sun
    (U+2600 U+FE0F) and the crescent moon (U+1F319). *)
Definition SUN : string :=
  String "226" (String "152" (String "128" (String "239" (String "184" (String "143" EmptyString))))).

Definition MOON : string :=
  String "240" (String "159" (String "140" (String "153" EmptyString))).

Definition matchMedia_prefers_dark : SiteJS bool := fun s => (Returned (prefers_dark s), s).

Definition body_classList_add : SiteJS unit := fun s => (Returned tt, with_dark_mode true s).

Definition body_classList_toggle : SiteJS unit :=
  fun s => (Returned tt, with_dark_mode (negb (dark_mode s)) s).

Definition body_classList_contains : SiteJS bool := fun s => (Returned (dark_mode s), s).

Definition toggle_classList_add : SiteJS unit :=
  fun s => (Returned tt,
            with_toggle (fun t => mkToggle true (aria_checked t) (toggle_icon t)) s).

Definition toggle_classList_toggle : SiteJS unit :=
  fun s => (Returned tt,
            with_toggle (fun t => mkToggle (negb (toggle_active t)) (aria_checked t)
                                           (toggle_icon t)) s).

Definition toggle_setAttribute_aria_checked (v : string) : SiteJS unit :=
  fun s => (Returned tt,
            with_toggle (fun t => mkToggle (toggle_active t) (Some v) (toggle_icon t)) s).

(** [darkModeToggle.querySelector('.toggle-icon').textContent = text]:
    with no such child the lookup gives [null] and the assignment
    throws. *)
Definition toggle_icon_set (text : string) : SiteJS unit :=
  fun s =>
    match darkModeToggle s ≫= toggle_icon with
    | Some _ =>
        (Returned tt,
         with_toggle (fun t => mkToggle (toggle_active t) (aria_checked t) (Some text)) s)
    | None => (Thrown TypeError, s)
    end.

Definition toggle_addEventListener_click : SiteJS unit :=
  fun s => (Returned tt,
            mkSite (store s) (prefers_dark s) (dark_mode s) (darkModeToggle s) true).

(** [!savedTheme] for what [getItem] returned. *)
Definition falsy_item (item : option string) : bool :=
  match item with
  | Some text => String.eqb text EmptyString
  | None => true
  end.

(** [savedTheme === 'dark']. *)
Definition item_is (item : option string) (text : string) : bool :=
  match item with
  | Some found => String.eqb found text
  | None => false
  end.

(** The click listener of the toggle. *)
Definition darkModeToggle_click : SiteJS unit :=
  run! _ := body_classList_toggle in
  run! _ := toggle_classList_toggle in
  run! isDark := body_classList_contains in
  run! _ := toggle_setAttribute_aria_checked (if isDark then "true" else "false") in
  if isDark then
    run! _ := on_store (localStorage_setItem "theme" "dark") in
    toggle_icon_set SUN
  else
    run! _ := on_store (localStorage_setItem "theme" "light") in
    toggle_icon_set MOON.

(** The block under [if (darkModeToggle)]. *)
Definition darkMode_setup : SiteJS unit :=
  fun s =>
    match darkModeToggle s with
    | Some _ =>
        (run! savedTheme := on_store (localStorage_getItem "theme") in
         run! prefersDark := matchMedia_prefers_dark in
         run! _ :=
           (if item_is savedTheme "dark" || (falsy_item savedTheme && prefersDark) then
              run! _ := body_classList_add in
              run! _ := toggle_classList_add in
              run! _ := toggle_setAttribute_aria_checked "true" in
              toggle_icon_set SUN
            else toggle_setAttribute_aria_checked "false") in
         toggle_addEventListener_click) s
    | None => (Returned tt, s)
    end.

(** A click on the toggle: the listener runs if it is registered. *)
Definition click_toggle : SiteJS unit :=
  fun s => if toggle_listens s then darkModeToggle_click s else (Returned tt, s).

Fixpoint clicks (n : nat) : SiteJS unit :=
  match n with
  | 0 => site_ret tt
  | S n' => run! _ := click_toggle in clicks n'
  end.

(** The indicators of the theme agree on [dark]: the class of the body,
    the class and [aria-checked] of the toggle. *)
Definition shows_theme (dark : bool) (s : Site) : Prop :=
  dark_mode s = dark
  /\ exists icon,
       darkModeToggle s = Some (mkToggle dark (Some (if dark then "true" else "false")) icon).

(** The theme the next load of the page applies, from what is saved. *)
Definition saved_theme (s : Site) : option string := local_storage (store s) !! "theme".

(** The test of the setup, [savedTheme === 'dark' || (!savedTheme &&
    prefersDark)], on the site it starts from. *)
Definition theme_at_load (s : Site) : bool :=
  item_is (saved_theme s) "dark" || falsy_item (saved_theme s) && prefers_dark s.

(** ** What the further properties speak of *)

Section MoreViews.
Context {P : Platform}.

(** The signals [loadScripts] dispatches for the record [r], in order. *)
Definition broadcast (r : value) : list (string * value) :=
  (optional_signals r ++ [("cookieConsent:necessary", r)])%list.

(** The first element of a kind in the body: what [getElementById]
    finds. *)
Definition first_of_kind (k : node_kind) (b : Browser) : option node :=
  List.find (fun n => node_kind_eqb (node_kind_of n) k) (body b).

(** The element [getElementById] would find for the kind, if any, has
    lost its visibility class. *)
Definition hidden (k : node_kind) (b : Browser) : Prop :=
  forall n, first_of_kind k b = Some n -> node_visible n = false.

(** Both stores, their policies and the clock are the same. *)
Definition stores_kept (b b' : Browser) : Prop :=
  cookie_jar b' = cookie_jar b /\ cookie_writes b' = cookie_writes b
  /\ storage_access b' = storage_access b /\ local_storage b' = local_storage b
  /\ clock b' = clock b.

(** The consent cookie of the jar reads as [r]. *)
Definition consent_stored (r : value) (b : Browser) : Prop :=
  well_formed_jar (cookie_jar b) = true
  /\ primary_record CONSENT_COOKIE_NAME (cookie_jar b) = Some r.

(** The [checked] attributes [createCookieModal] writes for the consent
    [getConsent()] returned: those of [defaultConsent] when it is
    [null]. *)
Definition prefill (consent : value) : bool * bool :=
  if truthy consent then
    (truthy_opt (prop consent "analytics"), truthy_opt (prop consent "marketing"))
  else (false, false).

(** The body once the element [id] has lost its visibility class. *)
Definition faded (id : nat) (nodes : list node) : list node :=
  map (fun n => if Nat.eqb (node_id n) id then mkNode id (node_kind_of n) false else n) nodes.

(** The page [showModal] leaves, when [getConsent] returned [r] and left the browser [b0]. *)
Definition modal_opened (r : value) (b0 : Browser) (p : Page) : Page :=
  mkPage
    (with_timers (timers b0 ++ [(10, TaskShowNode (next_node b0))])
       (with_body (body b0 ++ [mkNode (next_node b0) ModalNode false]) (S (next_node b0)) b0))
    (loaded_at p) (later p) (modal_inputs p ++ [(next_node b0, prefill r)]).

(** The choice a retry closure saves again; [None] for the closures that
    only touch an element. *)
Definition retried_choice (t : task) : option (bool * bool) :=
  match t with
  | TaskRetryAcceptAll => Some (true, true)
  | TaskRetryReject => Some (false, false)
  | TaskRetrySave analytics marketing => Some (analytics, marketing)
  | TaskShowNode _ | TaskRemoveNode _ => None
  end.

End MoreViews.

(** ** Further browsers, pages and sites *)

Module Visits.

Import Scenarios.

(** A record that passes the tests of [getConsent] and has no timestamp. *)
Definition undated_record : value :=
  VObj [("version", VStr CONSENT_VERSION);
        ("necessary", VBool true); ("analytics", VBool true); ("marketing", VBool false)].

Definition undated_visit : Browser :=
  mkBrowser site [consent_cookie undated_record]
            CookiesAccepted ∅ StorageAvailable midnight [] [] [] [] 0.

(** A first visit with the banner on screen. *)
Definition banner_shown_visit : Browser :=
  mkBrowser site [] CookiesAccepted ∅ StorageAvailable midnight [] [] []
            [mkNode 0 BannerNode true] 1.

(** A first visit with the modal open. *)
Definition modal_open_visit : Browser :=
  mkBrowser site [] CookiesAccepted ∅ StorageAvailable midnight [] [] []
            [mkNode 0 ModalNode true] 1.

(** A visit with [localStorage] denied. *)
Definition private_visit : Browser :=
  mkBrowser site [] CookiesAccepted ∅ StorageDenied midnight [] [] [] [] 0.

(** A first visit with cookies disabled and a full [localStorage]. *)
Definition storeless_visit : Browser :=
  mkBrowser site [] CookiesIgnored ∅ StorageFull midnight [] [] [] [] 0.

(** The page of a browser, just loaded. *)
Definition page_of (b : Browser) : Page := mkPage b midnight [] [].

(** The modal is open and the visitor has checked analytics. *)
Definition modal_open_page : Page :=
  mkPage modal_open_visit midnight [] [(0, (true, false))].

(** A document as the markup has it: light theme, the toggle with its
    moon. *)
Definition light_markup (b : Browser) (prefers : bool) : Site :=
  mkSite b prefers false (Some (mkToggle false None (Some MOON))) false.

(** The same document once the setup has run. *)
Definition light_site (b : Browser) : Site :=
  mkSite b false false (Some (mkToggle false (Some "false") (Some MOON))) true.

End Visits.

(** ** Strings: what the loop of [CookieUtils.get] sees of a cookie jar *)

Local Arguments Ascii.eqb : simpl never.

Lemma occurs_app (c : ascii) (s t : string) :
  occurs c (s ++ t) = occurs c s || occurs c t.
Proof.
  induction s as [|a s IH]; simpl; [reflexivity|].
  rewrite IH. apply orb_assoc.
Qed.

Lemma split_on_absent (c : ascii) (s : string) :
  occurs c s = false -> split_on c s = [s].
Proof.
  induction s as [|a s IH]; simpl; [reflexivity|].
  intros H. apply orb_false_iff in H as [Ha Hs].
  rewrite Ha, (IH Hs). reflexivity.
Qed.

Lemma split_on_app (c : ascii) (s t : string) :
  occurs c s = false ->
  split_on c (s ++ String c t) = s :: split_on c t.
Proof.
  induction s as [|a s IH]; simpl.
  - intros _. rewrite Ascii.eqb_refl. reflexivity.
  - intros H. apply orb_false_iff in H as [Ha Hs].
    rewrite Ha, (IH Hs). reflexivity.
Qed.

Lemma strip_leading_spaces_name (n rest : string) :
  occurs " " n = false ->
  strip_leading_spaces (n ++ String "=" rest) = n ++ String "=" rest.
Proof.
  destruct n as [|a n]; simpl; [reflexivity|].
  intros H. apply orb_false_iff in H as [Ha _].
  destruct (Ascii.eqb_spec a " ") as [->|Hne]; [discriminate|].
  destruct a as [[] [] [] [] [] [] [] []]; try reflexivity.
  exfalso. apply Hne. reflexivity.
Qed.

Lemma starts_with_pair (name n v : string) :
  occurs "=" name = false -> occurs "=" n = false ->
  starts_with (name ++ "=") (n ++ String "=" v) = String.eqb n name.
Proof.
  revert n.
  induction name as [|a name IH]; intros n Hname Hn.
  - destruct n as [|a' n]; [reflexivity|].
    simpl in Hn |- *. apply orb_false_iff in Hn as [Ha' _].
    rewrite Ascii.eqb_sym, Ha'. reflexivity.
  - simpl in Hname. apply orb_false_iff in Hname as [Ha Hname].
    destruct n as [|a' n]; simpl.
    + rewrite Ha. reflexivity.
    + simpl in Hn. apply orb_false_iff in Hn as [_ Hn].
      rewrite (Ascii.eqb_sym a a').
      destruct (Ascii.eqb a' a); simpl; [apply IH; assumption|reflexivity].
Qed.

Lemma substring_whole (s : string) : String.substring 0 (String.length s) s = s.
Proof. induction s as [|a s IH]; simpl; [reflexivity|]. rewrite IH. reflexivity. Qed.

Lemma substring_from_name (name v : string) :
  substring_from (String.length (name ++ "=")) (name ++ String "=" v) = v.
Proof.
  unfold substring_from. induction name as [|a name IH]; simpl.
  - rewrite Nat.sub_0_r. apply substring_whole.
  - exact IH.
Qed.

Lemma split_on_not_nil (c : ascii) (s : string) : split_on c s <> [].
Proof.
  destruct s as [|a s]; simpl; [discriminate|].
  destruct (Ascii.eqb a c); [discriminate|].
  destruct (split_on c s); discriminate.
Qed.

Section Properties.
Context {P : Platform}.

Lemma cookie_ok_pair (c : cookie) :
  cookie_ok c = true ->
  occurs ";" (cookie_pair c) = false /\ occurs " " (cookie_name c) = false
  /\ occurs "=" (cookie_name c) = false.
Proof.
  unfold cookie_ok, cookie_pair. intros H.
  repeat (apply andb_true_iff in H as [H ?]).
  repeat match goal with H : negb _ = true |- _ => apply negb_true_iff in H end.
  rewrite !occurs_app. simpl. 
  repeat split; try assumption.
  rewrite H, H0. reflexivity.
Qed.

Lemma scan_cookies_step (name : string) (c : cookie) (segs : list string)
    (b : Browser) :
  cookie_ok c = true -> occurs "=" name = false ->
  scan_cookies name (name ++ "=") (cookie_pair c :: segs) b
  = (if String.eqb (cookie_name c) name then
       let! found := read_cookie name (cookie_text c) in
       match found with
       | Some parsed => ret (Some parsed)
       | None => scan_cookies name (name ++ "=") segs
       end
     else scan_cookies name (name ++ "=") segs) b.
Proof.
  intros Hc Hname. apply cookie_ok_pair in Hc as (_ & Hsp & Heq).
  cbn [scan_cookies]. unfold cookie_pair.
  change (cookie_name c ++ "=" ++ cookie_text c)
    with (cookie_name c ++ String "=" (cookie_text c)).
  rewrite strip_leading_spaces_name by assumption.
  rewrite starts_with_pair by assumption.
  destruct (String.eqb_spec (cookie_name c) name) as [->|Hne]; [|reflexivity].
  rewrite substring_from_name. reflexivity.
Qed.

Lemma scan_cookies_leading_space (name nameEQ s : string) (b : Browser) :
  scan_cookies name nameEQ (split_on ";" (String " " s)) b
  = scan_cookies name nameEQ (split_on ";" s) b.
Proof.
  cbn [split_on]. change (Ascii.eqb " " ";") with false. cbn iota.
  pose proof (split_on_not_nil ";" s) as Hne.
  destruct (split_on ";" s) as [|seg segs]; [contradiction|reflexivity].
Qed.

Lemma scan_cookies_jar (name : string) (jar : list cookie) (b : Browser) :
  well_formed_jar jar = true -> occurs "=" name = false ->
  scan_cookies name (name ++ "=") (split_on ";" (join "; " (map cookie_pair jar))) b
  = scan_jar name jar b.
Proof.
  intros Hwf Hname. revert b.
  induction jar as [|c rest IH]; intros b.
  - cbn. destruct name; reflexivity.
  - cbn [well_formed_jar forallb] in Hwf. apply andb_true_iff in Hwf as [Hc Hrest].
    specialize (IH Hrest).
    pose proof (cookie_ok_pair c Hc) as (Hsemi & _ & _).
    destruct rest as [|c' rest'].
    + cbn [map join]. rewrite split_on_absent by assumption.
      rewrite scan_cookies_step by assumption.
      cbn [scan_jar]. destruct (String.eqb (cookie_name c) name); [|reflexivity].
      unfold bind. destruct (read_cookie name (cookie_text c) b) as [[[parsed|]|e] b'];
        reflexivity.
    + change (join "; " (map cookie_pair (c :: c' :: rest')))
        with (cookie_pair c ++ String ";" (String " " (join "; " (map cookie_pair (c' :: rest'))))).
      rewrite split_on_app by assumption.
      rewrite scan_cookies_step by assumption.
      cbn [scan_jar]. destruct (String.eqb (cookie_name c) name).
      * unfold bind. destruct (read_cookie name (cookie_text c) b) as [[[parsed|]|e] b'];
          try reflexivity.
        rewrite scan_cookies_leading_space. apply IH.
      * rewrite scan_cookies_leading_space. apply IH.
Qed.

(** *** Running the adapter *)

Lemma read_cookie_run (name text : string) (b : Browser) :
  read_cookie name text b
  = match cookie_value text with
    | Some parsed => (Returned (Some parsed), mirrored name (Some parsed) b)
    | None => (Returned None, warned 1 "Error parsing cookie:" b)
    end.
Proof.
  unfold read_cookie, cookie_value, try_catch, bind, decodeURIComponent_js, JSON_parse_js.
  destruct (decodeURIComponent text) as [decoded|]; [|reflexivity].
  cbn. destruct (JSON_parse decoded) as [parsed|]; [|reflexivity].
  cbn. unfold mirrored, localStorage_setItem.
  destruct (storage_access b); reflexivity.
Qed.

Lemma warned_0 (msg : string) (b : Browser) : warned 0 msg b = b.
Proof. destruct b. unfold warned, with_console. cbn. rewrite app_nil_r. reflexivity. Qed.

Lemma warned_S (n : nat) (msg : string) (b : Browser) :
  warned n msg (warned 1 msg b) = warned (S n) msg b.
Proof. unfold warned, with_console. cbn. rewrite <- app_assoc. reflexivity. Qed.

Lemma read_fallback_run (name : string) (b : Browser) :
  read_fallback name b
  = (Returned (fallback_record name b),
     warned (if fallback_warns name b then 1 else 0) "Error reading localStorage:" b).
Proof.
  unfold read_fallback, fallback_record, fallback_warns, try_catch, bind,
    localStorage_getItem, JSON_parse_js.
  destruct (storage_access b); cbn;
    try (destruct (local_storage b !! name) as [text|]; cbn;
         [destruct (String.eqb text EmptyString); cbn;
          [|destruct (JSON_parse text); cbn]|]);
    rewrite ?warned_0; reflexivity.
Qed.

Lemma scan_jar_run (name : string) (jar : list cookie) (b : Browser) :
  scan_jar name jar b
  = (Returned (primary_record name jar),
     mirrored name (primary_record name jar)
       (warned (unreadable_cookies name jar) "Error parsing cookie:" b)).
Proof.
  revert b. induction jar as [|c rest IH]; intros b; cbn [scan_jar primary_record unreadable_cookies].
  - rewrite warned_0. reflexivity.
  - destruct (String.eqb (cookie_name c) name); [|apply IH].
    unfold bind. rewrite read_cookie_run.
    destruct (cookie_value (cookie_text c)) as [parsed|].
    + rewrite warned_0. reflexivity.
    + rewrite IH, warned_S. reflexivity.
Qed.

(** What the policies say of a document of an opaque origin. *)
Lemma opaque_origin_policies (b : Browser) :
  opaque_origin b = true <-> cookie_writes b = CookiesThrow /\ storage_access b = StorageDenied.
Proof.
  unfold opaque_origin. destruct (cookie_writes b), (storage_access b);
    split; try discriminate; try (intros [? ?]; discriminate); repeat split.
Qed.

Lemma not_opaque_origin_writes (b : Browser) :
  cookie_writes b <> CookiesThrow -> opaque_origin b = false.
Proof. unfold opaque_origin. destruct (cookie_writes b); [reflexivity..|contradiction]. Qed.

Lemma not_opaque_origin_storage (b : Browser) :
  storage_access b <> StorageDenied -> opaque_origin b = false.
Proof.
  unfold opaque_origin. destruct (cookie_writes b), (storage_access b);
    (reflexivity || contradiction).
Qed.

Lemma accepting_not_opaque_origin (b : Browser) :
  cookie_writes b = CookiesAccepted -> opaque_origin b = false.
Proof. intros Hw. apply not_opaque_origin_writes. rewrite Hw. discriminate. Qed.

Lemma cookie_jar_opaque_origin (b : Browser) : opaque_origin b = true -> cookie_jar b = [].
Proof. unfold cookie_jar. intros ->. reflexivity. Qed.

Lemma cookie_jar_readable (b : Browser) :
  opaque_origin b = false -> cookie_jar b = origin_cookies b.
Proof. unfold cookie_jar. intros ->. reflexivity. Qed.

(** A document of an opaque origin shows no cookie: a cookie that reads as
    a record
    is one of a document that can read its cookies. *)
Lemma seen_not_opaque_origin (name : string) (b : Browser) (r : value) :
  primary_record name (cookie_jar b) = Some r -> opaque_origin b = false.
Proof.
  destruct (opaque_origin b) eqn:Hs; [|reflexivity].
  rewrite (cookie_jar_opaque_origin b Hs). discriminate.
Qed.

(** What the setters of the browser record leave of the jar. *)
Lemma opaque_origin_ext (b b' : Browser) :
  cookie_writes b' = cookie_writes b -> storage_access b' = storage_access b ->
  opaque_origin b' = opaque_origin b.
Proof. unfold opaque_origin. intros -> ->. reflexivity. Qed.

Lemma cookie_jar_ext (b b' : Browser) :
  cookie_writes b' = cookie_writes b -> storage_access b' = storage_access b ->
  origin_cookies b' = origin_cookies b -> cookie_jar b' = cookie_jar b.
Proof. unfold cookie_jar, opaque_origin. intros -> -> ->. reflexivity. Qed.

Lemma cookie_jar_with_cookie_jar (jar : list cookie) (b : Browser) :
  opaque_origin b = false -> cookie_jar (with_cookie_jar jar b) = jar.
Proof.
  intros Hs. unfold cookie_jar.
  rewrite (opaque_origin_ext b (with_cookie_jar jar b)), Hs; reflexivity.
Qed.

Lemma CookieUtils_get_run (name : string) (b : Browser) :
  opaque_origin b = false ->
  well_formed_jar (cookie_jar b) = true -> occurs "=" name = false ->
  CookieUtils_get name b = (Returned (stored_record name b), after_get name b).
Proof.
  intros Hs Hwf Hname. unfold CookieUtils_get, bind, document_cookie_get, document_cookie.
  rewrite Hs, scan_cookies_jar, scan_jar_run by assumption.
  unfold stored_record, after_get.
  destruct (primary_record name (cookie_jar b)) as [parsed|]; [reflexivity|].
  rewrite read_fallback_run. reflexivity.
Qed.

(** On an opaque origin the read throws, at its first statement. *)
Lemma CookieUtils_get_opaque_origin (name : string) (b : Browser) :
  opaque_origin b = true -> CookieUtils_get name b = (Thrown SecurityError, b).
Proof.
  intros Hs. unfold CookieUtils_get, bind, document_cookie_get. rewrite Hs. reflexivity.
Qed.

Lemma stored_record_opaque_origin (name : string) (b : Browser) :
  opaque_origin b = true -> stored_record name b = VNull.
Proof.
  intros Hs. unfold stored_record, fallback_record.
  rewrite (cookie_jar_opaque_origin b Hs).
  apply opaque_origin_policies in Hs as [_ ->]. reflexivity.
Qed.

Lemma getConsent_from_adapter (b b' : Browser) (stored : value) :
  CookieUtils_get CONSENT_COOKIE_NAME b = (Returned stored, b') ->
  getConsent b = (Returned (validated stored), b').
Proof.
  intros Hget. unfold getConsent, try_catch, bind, validated, accepted. rewrite Hget.
  destruct (truthy stored && typeof_object stored); [|reflexivity].
  destruct (strict_eq_str _ _ || _); [|reflexivity].
  destruct (defined _ && defined _ && defined _); reflexivity.
Qed.

Lemma getConsent_opaque_origin (b : Browser) :
  opaque_origin b = true ->
  getConsent b = (Returned VNull, warned 1 "Error getting consent:" b).
Proof.
  intros Hs. unfold getConsent, try_catch, bind.
  rewrite (CookieUtils_get_opaque_origin _ b Hs). reflexivity.
Qed.

Lemma after_getConsent_readable (b : Browser) :
  opaque_origin b = false -> after_getConsent b = after_get CONSENT_COOKIE_NAME b.
Proof. unfold after_getConsent. intros ->. reflexivity. Qed.

Lemma getConsent_run (b : Browser) :
  well_formed_jar (cookie_jar b) = true ->
  getConsent b
  = (Returned (validated (stored_record CONSENT_COOKIE_NAME b)), after_getConsent b).
Proof.
  intros Hwf. unfold after_getConsent. destruct (opaque_origin b) eqn:Hs.
  - rewrite (stored_record_opaque_origin _ b Hs). apply (getConsent_opaque_origin b Hs).
  - apply getConsent_from_adapter, CookieUtils_get_run; [assumption..|reflexivity].
Qed.

(** *** Total runs and what they leave alone *)

Lemma runs_ret {A} (a : A) (b : Browser) (post : A -> Browser -> Prop) :
  post a b -> runs (ret a) b post.
Proof. intros H. exists a, b. split; [reflexivity|exact H]. Qed.

Lemma runs_bind {A B} (m : JS A) (k : A -> JS B) (b : Browser)
    (post : B -> Browser -> Prop) :
  runs m b (fun a b' => runs (k a) b' post) -> runs (bind m k) b post.
Proof.
  intros (a & b' & Hm & r & b'' & Hk & Hpost).
  exists r, b''. unfold bind. rewrite Hm. split; assumption.
Qed.

Lemma runs_weaken {A} (m : JS A) (b : Browser) (post post' : A -> Browser -> Prop) :
  runs m b post -> (forall a b', post a b' -> post' a b') -> runs m b post'.
Proof. intros (a & b' & Hm & Hpost) Himp. exists a, b'. split; [exact Hm|auto]. Qed.

Lemma page_kept_refl (b : Browser) : page_kept b b.
Proof. repeat split. exists []. symmetry. apply app_nil_r. Qed.

Lemma page_kept_trans (b1 b2 b3 : Browser) :
  page_kept b1 b2 -> page_kept b2 b3 -> page_kept b1 b3.
Proof.
  intros (? & ? & ? & ? & ? & ? & ? & l1 & Hl1) (? & ? & ? & ? & ? & ? & ? & l2 & Hl2).
  repeat split; try congruence.
  exists (l1 ++ l2)%list. rewrite Hl2, Hl1. symmetry. apply app_assoc.
Qed.

Lemma page_kept_warned (n : nat) (msg : string) (b : Browser) : page_kept b (warned n msg b).
Proof. repeat split. eexists. reflexivity. Qed.

Lemma page_kept_mirrored (name : string) (found : option value) (b : Browser) :
  page_kept b (mirrored name found b).
Proof.
  unfold mirrored. destruct found; [destruct (storage_access b)|];
    try apply page_kept_refl.
  repeat split. exists []. symmetry. apply app_nil_r.
Qed.

Lemma cookie_jar_mirrored (name : string) (found : option value) (b : Browser) :
  cookie_jar (mirrored name found b) = cookie_jar b.
Proof.
  unfold mirrored. destruct found; [destruct (storage_access b)|]; reflexivity.
Qed.

Lemma read_kept_trans (b1 b2 b3 : Browser) :
  read_kept b1 b2 -> read_kept b2 b3 -> read_kept b1 b3.
Proof.
  intros [H1 J1] [H2 J2]. split; [eapply page_kept_trans; eassumption|congruence].
Qed.

Lemma scan_cookies_kept (name nameEQ : string) (ca : list string) (b : Browser) :
  runs (scan_cookies name nameEQ ca) b (fun _ b' => read_kept b b').
Proof.
  revert b. induction ca as [|c0 rest IH]; intros b.
  - apply runs_ret. split; [apply page_kept_refl|reflexivity].
  - cbn [scan_cookies].
    destruct (starts_with nameEQ (strip_leading_spaces c0)); [|apply IH].
    fold (read_cookie name (substring_from (String.length nameEQ) (strip_leading_spaces c0))).
    apply runs_bind. unfold runs at 1. rewrite read_cookie_run.
    destruct (cookie_value _) as [parsed|].
    + eexists _, _. split; [reflexivity|]. apply runs_ret.
      split; [apply page_kept_mirrored|apply cookie_jar_mirrored].
    + eexists _, _. split; [reflexivity|].
      eapply runs_weaken; [apply IH|]. cbn beta. intros _ b' Hkept.
      eapply read_kept_trans; [|exact Hkept].
      split; [apply page_kept_warned|reflexivity].
Qed.

Lemma CookieUtils_get_kept (name : string) (b : Browser) :
  opaque_origin b = false ->
  runs (CookieUtils_get name) b (fun _ b' => read_kept b b').
Proof.
  intros Hs.
  unfold CookieUtils_get. apply runs_bind. eexists _, _.
  split; [unfold document_cookie_get; rewrite Hs; reflexivity|].
  apply runs_bind. eapply runs_weaken; [apply scan_cookies_kept|].
  cbn beta. intros found b' Hkept. destruct found as [parsed|].
  - apply runs_ret. exact Hkept.
  - unfold runs. rewrite read_fallback_run. eexists _, _. split; [reflexivity|].
    eapply read_kept_trans; [exact Hkept|].
    split; [apply page_kept_warned|reflexivity].
Qed.

(** [getConsent] returns on every browser, with what the adapter read
    when the document can read its cookies and with [null] when it
    cannot. *)
Lemma getConsent_kept (b : Browser) :
  runs getConsent b (fun r b' =>
    read_kept b b' /\ exists stored,
      r = validated stored
      /\ (opaque_origin b = true -> stored = VNull)
      /\ (opaque_origin b = false ->
          CookieUtils_get CONSENT_COOKIE_NAME b = (Returned stored, b'))).
Proof.
  destruct (opaque_origin b) eqn:Hs.
  - eexists _, _. split; [apply (getConsent_opaque_origin b Hs)|].
    split; [split; [apply page_kept_warned|reflexivity]|].
    exists VNull. split; [reflexivity|]. split; [reflexivity|discriminate].
  - destruct (CookieUtils_get_kept CONSENT_COOKIE_NAME b Hs) as (stored & b' & Hget & Hkept).
    exists (validated stored), b'. split; [apply getConsent_from_adapter, Hget|].
    split; [exact Hkept|]. exists stored. split; [reflexivity|].
    split; [discriminate|intros _; exact Hget].
Qed.

(** *** Validation, category checks and broadcast *)

Lemma accepted_valid_record (r : value) : accepted r = valid_record r.
Proof.
  unfold accepted, valid_record.
  destruct r as [|flag|n|text|items|props]; try reflexivity;
    try (cbn [typeof_object]; destruct (truthy _); reflexivity).
  cbn. unfold truthy_opt. destruct (lookup_prop "version" props) as [v|]; cbn.
  - destruct (_ || _), (defined (lookup_prop "necessary" props)),
      (defined (lookup_prop "analytics" props)); reflexivity.
  - destruct (defined (lookup_prop "necessary" props)),
      (defined (lookup_prop "analytics" props)); reflexivity.
Qed.

Lemma hasConsent_from_consent (b b' : Browser) (r : value) :
  getConsent b = (Returned r, b') ->
  hasConsent b
  = (Returned (match r with
               | VNull => Some (VBool false)
               | _ => if typeof_object r then prop r "timestamp" else Some (VBool false)
               end), b').
Proof.
  intros Hget. unfold hasConsent, bind. rewrite Hget.
  destruct r; try reflexivity; destruct (typeof_object _); reflexivity.
Qed.

Lemma hasConsent_kept (b : Browser) : runs hasConsent b (fun _ b' => page_kept b b').
Proof.
  destruct (getConsent_kept b) as (r & b' & Hget & [Hkept _] & _).
  eexists _, b'. split; [apply (hasConsent_from_consent _ _ _ Hget)|exact Hkept].
Qed.

Lemma isCategoryAllowed_from_consent (category : string) (b b' : Browser) (r : value) :
  getConsent b = (Returned r, b') ->
  isCategoryAllowed category b
  = (Returned (truthy r && (String.eqb category CATEGORIES_NECESSARY
                            || strict_eq_true (prop r category))), b').
Proof.
  intros Hget. unfold isCategoryAllowed, bind. rewrite Hget.
  destruct (truthy r); cbn; [|reflexivity].
  destruct (String.eqb category CATEGORIES_NECESSARY); reflexivity.
Qed.

Lemma loadScripts_from_consent (b b' : Browser) (r : value) :
  getConsent b = (Returned r, b') -> truthy r = true ->
  loadScripts b
  = (Returned tt,
     with_dispatched (dispatched b' ++ optional_signals r
                      ++ [("cookieConsent:necessary", r)]) b').
Proof.
  intros Hget Htruthy. unfold loadScripts, bind, optional_signals. rewrite Hget, Htruthy.
  cbn [negb]. unfold dispatch_CustomEvent, ret.
  destruct b'; destruct (truthy_opt (prop r "analytics"));
    destruct (truthy_opt (prop r "marketing")); cbn;
    unfold with_dispatched; cbn; rewrite <- ?app_assoc; reflexivity.
Qed.

(** *** Writes, and reads after writes *)

Lemma CookieUtils_set_run (name : string) (v : value) (days : Z) (b : Browser) :
  CookieUtils_set name v days b = (Returned tt, after_set name v days b).
Proof.
  unfold CookieUtils_set, after_set, bind, try_catch, document_cookie_set,
    localStorage_setItem, console_log, warned.
  destruct (cookie_writes b); cbn [storage_access with_cookie_jar with_console];
    destruct (storage_access b); reflexivity.
Qed.

Lemma CookieUtils_remove_run (name : string) (b : Browser) :
  CookieUtils_remove name b = (Returned tt, after_remove name b).
Proof.
  unfold CookieUtils_remove, after_remove, bind, try_catch, document_cookie_set,
    localStorage_removeItem, ret.
  destruct (cookie_writes b); cbn [storage_access with_cookie_jar];
    destruct (storage_access b); reflexivity.
Qed.

Lemma well_formed_jar_filter (keep : cookie -> bool) (jar : list cookie) :
  well_formed_jar jar = true -> well_formed_jar (List.filter keep jar) = true.
Proof.
  unfold well_formed_jar. induction jar as [|c rest IH]; cbn; [reflexivity|].
  intros H. apply andb_true_iff in H as [Hc Hrest].
  destruct (keep c); cbn; [rewrite Hc|]; auto.
Qed.

Lemma well_formed_jar_drop (name : string) (jar : list cookie) :
  well_formed_jar jar = true -> well_formed_jar (drop_cookie name jar) = true.
Proof. apply well_formed_jar_filter. Qed.

Lemma well_formed_jar_delete (name page : string) (jar : list cookie) :
  well_formed_jar jar = true -> well_formed_jar (delete_cookie name page jar) = true.
Proof. apply well_formed_jar_filter. Qed.

Lemma well_formed_jar_snoc (jar : list cookie) (c : cookie) :
  well_formed_jar jar = true -> cookie_ok c = true ->
  well_formed_jar (jar ++ [c]) = true.
Proof.
  unfold well_formed_jar. intros Hjar Hc. rewrite forallb_app, Hjar. cbn. rewrite Hc. reflexivity.
Qed.

Lemma well_formed_jar_store (name val page : string) (jar : list cookie) :
  well_formed_jar jar = true -> cookie_ok (mkCookie name val page "/") = true ->
  well_formed_jar (store_cookie name val page jar) = true.
Proof.
  intros Hjar Hc. unfold store_cookie.
  destruct (existsb (addressed name page) jar); [|apply well_formed_jar_snoc; assumption].
  revert Hjar. unfold well_formed_jar. induction jar as [|c rest IH]; cbn; [reflexivity|].
  intros H. apply andb_true_iff in H as [Hc0 Hrest].
  rewrite (IH Hrest), andb_true_r. destruct (addressed name page c); assumption.
Qed.

Lemma primary_record_app (name : string) (jar rest : list cookie) :
  primary_record name (jar ++ rest)
  = match primary_record name jar with
    | Some r => Some r
    | None => primary_record name rest
    end.
Proof.
  induction jar as [|c jar IH]; cbn; [reflexivity|].
  destruct (String.eqb (cookie_name c) name); [|exact IH].
  destruct (cookie_value (cookie_text c)); [reflexivity|exact IH].
Qed.

Lemma primary_record_drop (name : string) (jar rest : list cookie) :
  primary_record name (drop_cookie name jar ++ rest) = primary_record name rest.
Proof.
  unfold drop_cookie. induction jar as [|c jar IH]; cbn; [reflexivity|].
  destruct (String.eqb (cookie_name c) name) eqn:Hc; cbn; [exact IH|].
  rewrite Hc. exact IH.
Qed.

Lemma primary_record_dropped (name : string) (jar : list cookie) :
  primary_record name (drop_cookie name jar) = None.
Proof.
  rewrite <- (app_nil_r (drop_cookie name jar)). apply primary_record_drop.
Qed.

(** Taking cookies out of a jar in which no cookie of the name reads as a
    record leaves such a jar. *)
Lemma primary_record_filter (name : string) (keep : cookie -> bool) (jar : list cookie) :
  primary_record name jar = None -> primary_record name (List.filter keep jar) = None.
Proof.
  induction jar as [|c jar IH]; cbn; [reflexivity|].
  destruct (String.eqb (cookie_name c) name) eqn:Hname.
  - destruct (cookie_value (cookie_text c)) eqn:Hvalue; [discriminate|].
    intros Hrest. destruct (keep c); cbn; [rewrite Hname, Hvalue|]; apply IH, Hrest.
  - intros Hrest. destruct (keep c); cbn; [rewrite Hname|]; apply IH, Hrest.
Qed.

Lemma addressed_new (name val page : string) :
  addressed name page (mkCookie name val page "/") = true.
Proof. unfold addressed. cbn. rewrite !String.eqb_refl. reflexivity. Qed.

Lemma addressed_name (name page : string) (c : cookie) :
  addressed name page c = true -> String.eqb (cookie_name c) name = true.
Proof.
  unfold addressed. intros H.
  apply andb_true_iff in H as [H _]. apply andb_true_iff in H as [H _]. exact H.
Qed.

Lemma delete_cookie_absent (name page : string) (jar : list cookie) :
  existsb (addressed name page) jar = false -> delete_cookie name page jar = jar.
Proof.
  unfold delete_cookie. induction jar as [|c jar IH]; cbn; [reflexivity|].
  intros H. apply orb_false_iff in H as [Hc Hrest]. rewrite Hc, (IH Hrest). reflexivity.
Qed.

Lemma delete_cookie_twice (name page : string) (jar : list cookie) :
  delete_cookie name page (delete_cookie name page jar) = delete_cookie name page jar.
Proof.
  unfold delete_cookie. induction jar as [|c jar IH]; cbn; [reflexivity|].
  destruct (negb (addressed name page c)) eqn:Hc; cbn; rewrite ?Hc, IH; reflexivity.
Qed.

(** An assignment touches the cookie it addresses and no other. *)
Lemma delete_cookie_store (name val page : string) (jar : list cookie) :
  delete_cookie name page (store_cookie name val page jar) = delete_cookie name page jar.
Proof.
  unfold store_cookie, delete_cookie.
  destruct (existsb (addressed name page) jar).
  - induction jar as [|c jar IH]; cbn; [reflexivity|].
    destruct (addressed name page c) eqn:Hc; cbn.
    + rewrite addressed_new. cbn. exact IH.
    + rewrite Hc. cbn. rewrite IH. reflexivity.
  - rewrite List.filter_app. cbn. rewrite addressed_new. cbn. apply app_nil_r.
Qed.

Lemma in_delete_cookie (name page : string) (jar : list cookie) (c : cookie) :
  In c (delete_cookie name page jar) <-> In c jar /\ addressed name page c = false.
Proof.
  unfold delete_cookie. rewrite List.filter_In, negb_true_iff. reflexivity.
Qed.

Lemma in_store_cookie (name val page : string) (jar : list cookie) :
  In (mkCookie name val page "/") (store_cookie name val page jar).
Proof.
  unfold store_cookie. destruct (existsb (addressed name page) jar) eqn:Hexists.
  - apply existsb_exists in Hexists as (c & Hin & Hc).
    apply in_map_iff. exists c. rewrite Hc. split; [reflexivity|exact Hin].
  - apply in_or_app. right. left. reflexivity.
Qed.

(** After the assignment the cookie it wrote is the first cookie of the
    name that reads as a record, when no cookie of the name under another
    path or domain does. *)
Lemma primary_record_stored (name val page : string) (jar : list cookie) (v : value) :
  cookie_value val = Some v ->
  primary_record name (delete_cookie name page jar) = None ->
  primary_record name (store_cookie name val page jar) = Some v.
Proof.
  intros Hvalue. unfold store_cookie.
  destruct (existsb (addressed name page) jar) eqn:Hexists.
  - revert Hexists. unfold delete_cookie.
    induction jar as [|c jar IH]; cbn; [discriminate|].
    destruct (addressed name page c) eqn:Hc; cbn.
    + intros _ _. rewrite String.eqb_refl, Hvalue. reflexivity.
    + intros Hrest. destruct (String.eqb (cookie_name c) name).
      * destruct (cookie_value (cookie_text c)); [discriminate|]. apply IH, Hrest.
      * apply IH, Hrest.
  - rewrite (delete_cookie_absent _ _ _ Hexists). intros Hnone.
    rewrite primary_record_app, Hnone. cbn. rewrite String.eqb_refl, Hvalue. reflexivity.
Qed.

Lemma cookie_jar_warned (n : nat) (msg : string) (b : Browser) :
  cookie_jar (warned n msg b) = cookie_jar b.
Proof. reflexivity. Qed.

Lemma cookie_jar_after_get (name : string) (b : Browser) :
  cookie_jar (after_get name b) = cookie_jar b.
Proof.
  unfold after_get. destruct (primary_record name (cookie_jar b));
    rewrite ?cookie_jar_warned, cookie_jar_mirrored; reflexivity.
Qed.

Lemma page_kept_after_get (name : string) (b : Browser) : page_kept b (after_get name b).
Proof.
  unfold after_get.
  destruct (primary_record name (cookie_jar b)).
  - eapply page_kept_trans; [apply page_kept_warned|apply page_kept_mirrored].
  - eapply page_kept_trans; [|apply page_kept_warned].
    eapply page_kept_trans; [apply page_kept_warned|apply page_kept_mirrored].
Qed.

Lemma host_after_get (name : string) (b : Browser) : host (after_get name b) = host b.
Proof.
  unfold after_get, mirrored.
  destruct (primary_record name (cookie_jar b)); cbn [storage_access warned with_console];
    destruct (storage_access b); reflexivity.
Qed.

Lemma page_kept_after_getConsent (b : Browser) : page_kept b (after_getConsent b).
Proof.
  unfold after_getConsent. destruct (opaque_origin b);
    [apply page_kept_warned|apply page_kept_after_get].
Qed.

Lemma cookie_jar_after_getConsent (b : Browser) :
  cookie_jar (after_getConsent b) = cookie_jar b.
Proof.
  unfold after_getConsent. destruct (opaque_origin b); [reflexivity|apply cookie_jar_after_get].
Qed.

Lemma host_after_getConsent (b : Browser) : host (after_getConsent b) = host b.
Proof.
  unfold after_getConsent. destruct (opaque_origin b); [reflexivity|apply host_after_get].
Qed.

Lemma opaque_origin_kept (b b' : Browser) : page_kept b b' -> opaque_origin b' = opaque_origin b.
Proof. intros (Hw & Hs & _). apply opaque_origin_ext; assumption. Qed.

Lemma storage_after_set (name : string) (v : value) (days : Z) (b : Browser) :
  storage_access (after_set name v days b) = storage_access b
  /\ cookie_writes (after_set name v days b) = cookie_writes b
  /\ local_storage (after_set name v days b)
     = match storage_access b with
       | StorageAvailable => <[name := JSON_stringify v]> (local_storage b)
       | _ => local_storage b
       end.
Proof.
  unfold after_set.
  destruct (cookie_writes b) eqn:Hw, (storage_access b) eqn:Hs;
    cbn [storage_access cookie_writes local_storage with_local_storage
         with_cookie_jar warned with_console];
    rewrite ?Hw, ?Hs; repeat split; reflexivity.
Qed.

Lemma opaque_origin_after_set (name : string) (v : value) (days : Z) (b : Browser) :
  opaque_origin (after_set name v days b) = opaque_origin b.
Proof.
  destruct (storage_after_set name v days b) as (Hs & Hw & _). apply opaque_origin_ext; assumption.
Qed.

Lemma host_after_set (name : string) (v : value) (days : Z) (b : Browser) :
  host (after_set name v days b) = host b.
Proof.
  unfold after_set. destruct (cookie_writes b), (storage_access b); reflexivity.
Qed.

(** The jar after an accepted write. *)
Lemma cookie_jar_after_set (name : string) (v : value) (days : Z) (b : Browser) :
  cookie_writes b = CookiesAccepted -> (0 < days)%Z ->
  cookie_jar (after_set name v days b)
  = store_cookie name (encodeURIComponent (JSON_stringify v)) (host b) (cookie_jar b).
Proof.
  intros Hw Hdays.
  assert (forall b1, cookie_writes b1 = cookie_writes b ->
                     storage_access b1 = storage_access b ->
                     cookie_jar b1 = origin_cookies b1) as Hseen.
  { intros b1 Hw1 Hs1. apply cookie_jar_readable.
    rewrite (opaque_origin_ext b b1 Hw1 Hs1). apply accepting_not_opaque_origin, Hw. }
  rewrite Hseen by apply storage_after_set.
  unfold after_set. rewrite Hw.
  destruct (Z.leb_spec days 0) as [Hle|_]; [lia|].
  destruct (storage_access b); reflexivity.
Qed.

Lemma cookie_jar_after_set_refused (name : string) (v : value) (days : Z) (b : Browser) :
  cookie_writes b <> CookiesAccepted ->
  cookie_jar (after_set name v days b) = cookie_jar b.
Proof.
  intros Hw. unfold after_set.
  destruct (cookie_writes b); [contradiction| |]; destruct (storage_access b); reflexivity.
Qed.

Lemma getConsent_of_cookie (b : Browser) (r : value) :
  well_formed_jar (cookie_jar b) = true ->
  primary_record CONSENT_COOKIE_NAME (cookie_jar b) = Some r ->
  getConsent b = (Returned (validated r), after_get CONSENT_COOKIE_NAME b).
Proof.
  intros Hwf Hprimary. rewrite getConsent_run by assumption.
  rewrite (after_getConsent_readable b (seen_not_opaque_origin _ _ _ Hprimary)).
  unfold stored_record. rewrite Hprimary. reflexivity.
Qed.

Lemma other_cookies_ext (name : string) (b b' : Browser) :
  host b' = host b -> cookie_jar b' = cookie_jar b ->
  other_cookies name b' = other_cookies name b.
Proof. unfold other_cookies. intros -> ->. reflexivity. Qed.

Lemma no_other_record_ext (name : string) (b b' : Browser) :
  host b' = host b -> cookie_jar b' = cookie_jar b ->
  no_other_record name b -> no_other_record name b'.
Proof.
  unfold no_other_record. intros Hh Hj. rewrite (other_cookies_ext name b b' Hh Hj). trivial.
Qed.

(** After an accepted write of a record that survives the cookie, the
    record is the primary record, provided no cookie of the name under
    another path or domain reads as a record; the write leaves those
    cookies as they are. *)
Lemma primary_record_after_set (name : string) (v : value) (days : Z) (b : Browser) :
  cookie_writes b = CookiesAccepted -> (0 < days)%Z ->
  well_formed_jar (cookie_jar b) = true ->
  occurs ";" name = false -> occurs " " name = false -> occurs "=" name = false ->
  cookie_round_trip v -> no_other_record name b ->
  well_formed_jar (cookie_jar (after_set name v days b)) = true
  /\ primary_record name (cookie_jar (after_set name v days b)) = Some v
  /\ other_cookies name (after_set name v days b) = other_cookies name b.
Proof.
  intros Hw Hdays Hwf Hn1 Hn2 Hn3 [Hsemi Hvalue] Hother.
  unfold other_cookies. rewrite host_after_set, cookie_jar_after_set by assumption.
  split; [|split].
  - apply well_formed_jar_store; [exact Hwf|].
    unfold cookie_ok. cbn [cookie_name cookie_text]. rewrite Hn1, Hn2, Hn3, Hsemi. reflexivity.
  - apply primary_record_stored; assumption.
  - apply delete_cookie_store.
Qed.

(** [saveConsent] on an object, in a document that can read its cookies:
    the record it builds, and the browser it leaves. *)
Lemma saveConsent_run (fields : list (string * value)) (b : Browser) :
  let data := consentData (clock b) (lookup_prop "analytics" fields)
                          (lookup_prop "marketing" fields) in
  let b1 := after_set CONSENT_COOKIE_NAME data CONSENT_EXPIRY_DAYS b in
  let saved := stored_record CONSENT_COOKIE_NAME b1 in
  opaque_origin b = false ->
  well_formed_jar (cookie_jar b1) = true ->
  saveConsent (VObj fields) b
  = (Returned data,
     warned (if negb (truthy saved)
                || negb (strict_eq_str (prop saved "version") CONSENT_VERSION)
             then 1 else 0)
            "Cookie consent may not have been saved correctly"
            (after_get CONSENT_COOKIE_NAME b1)).
Proof.
  intros data b1 saved Hs Hwf.
  unfold saveConsent, bind, Date_now_toISOString, member, ret. cbn [prop].
  fold data. rewrite CookieUtils_set_run. fold b1.
  rewrite CookieUtils_get_run
    by (assumption || reflexivity || (unfold b1; rewrite opaque_origin_after_set; exact Hs)).
  fold saved.
  destruct (negb (truthy saved) || _); [reflexivity|].
  rewrite warned_0. reflexivity.
Qed.

(** On an opaque origin [saveConsent] throws: its read-back is
    outside any [try]. *)
Lemma saveConsent_opaque_origin (fields : list (string * value)) (b : Browser) :
  let data := consentData (clock b) (lookup_prop "analytics" fields)
                          (lookup_prop "marketing" fields) in
  opaque_origin b = true ->
  saveConsent (VObj fields) b
  = (Thrown SecurityError, after_set CONSENT_COOKIE_NAME data CONSENT_EXPIRY_DAYS b).
Proof.
  intros data Hs.
  unfold saveConsent, bind, Date_now_toISOString, member, ret. cbn [prop].
  fold data. rewrite CookieUtils_set_run.
  rewrite CookieUtils_get_opaque_origin by (rewrite opaque_origin_after_set; exact Hs).
  reflexivity.
Qed.

Lemma name_is_a_cookie_name :
  occurs ";" CONSENT_COOKIE_NAME = false /\ occurs " " CONSENT_COOKIE_NAME = false
  /\ occurs "=" CONSENT_COOKIE_NAME = false.
Proof. repeat split. Qed.

(** With a cookie store that takes the write and no other cookie of the
    name that reads as a record, [saveConsent] leaves the record it built
    as the primary record, and [getConsent] reads it. *)
Lemma saveConsent_stores (fields : list (string * value)) (b : Browser) :
  let data := consentData (clock b) (lookup_prop "analytics" fields)
                          (lookup_prop "marketing" fields) in
  cookie_writes b = CookiesAccepted ->
  well_formed_jar (cookie_jar b) = true ->
  no_other_record CONSENT_COOKIE_NAME b ->
  cookie_round_trip data ->
  exists b1,
    saveConsent (VObj fields) b = (Returned data, b1)
    /\ well_formed_jar (cookie_jar b1) = true
    /\ primary_record CONSENT_COOKIE_NAME (cookie_jar b1) = Some data
    /\ no_other_record CONSENT_COOKIE_NAME b1
    /\ getConsent b1 = (Returned data, after_get CONSENT_COOKIE_NAME b1).
Proof.
  intros data Hw Hwf Hother Htrip.
  destruct name_is_a_cookie_name as (Hn1 & Hn2 & Hn3).
  destruct (primary_record_after_set CONSENT_COOKIE_NAME data CONSENT_EXPIRY_DAYS b)
    as (Hwf1 & Hprimary & Hothers); try assumption; [reflexivity|].
  eexists. split; [apply saveConsent_run; [apply accepting_not_opaque_origin, Hw|exact Hwf1]|].
  rewrite cookie_jar_warned, cookie_jar_after_get.
  split; [exact Hwf1|]. split; [exact Hprimary|]. split.
  - unfold no_other_record.
    rewrite (other_cookies_ext _ (after_set CONSENT_COOKIE_NAME data CONSENT_EXPIRY_DAYS b)),
      Hothers; [exact Hother|..].
    + change (host (warned ?n ?m ?x)) with (host x). apply host_after_get.
    + rewrite cookie_jar_warned. apply cookie_jar_after_get.
  - rewrite (getConsent_of_cookie _ data);
      [|rewrite cookie_jar_warned, cookie_jar_after_get; assumption..].
    reflexivity.
Qed.

(** *** Erasing *)

Lemma nothing_stored_ext (b b' : Browser) :
  cookie_jar b' = cookie_jar b -> storage_access b' = storage_access b ->
  local_storage b' = local_storage b ->
  nothing_stored b -> nothing_stored b'.
Proof.
  unfold nothing_stored, fallback_record. intros -> -> ->. trivial.
Qed.

Lemma nothing_stored_after_get (b : Browser) :
  nothing_stored b -> nothing_stored (after_get CONSENT_COOKIE_NAME b).
Proof.
  intros Hnone. apply (nothing_stored_ext b); [apply cookie_jar_after_get|..|exact Hnone];
    destruct Hnone as (_ & Hprimary & _); unfold after_get; rewrite Hprimary; reflexivity.
Qed.

Lemma nothing_stored_after_getConsent (b : Browser) :
  nothing_stored b -> nothing_stored (after_getConsent b).
Proof.
  intros Hnone. unfold after_getConsent. destruct (opaque_origin b).
  - revert Hnone. apply nothing_stored_ext; reflexivity.
  - apply nothing_stored_after_get, Hnone.
Qed.

(** With nothing stored there is in particular no other cookie of the
    name that reads as a record. *)
Lemma nothing_stored_no_other_record (b : Browser) :
  nothing_stored b -> no_other_record CONSENT_COOKIE_NAME b.
Proof. intros (_ & Hprimary & _). apply primary_record_filter, Hprimary. Qed.

Lemma getConsent_nothing_stored (b : Browser) :
  nothing_stored b ->
  getConsent b = (Returned VNull, after_getConsent b)
  /\ hasConsent b = (Returned (Some (VBool false)), after_getConsent b).
Proof.
  intros (Hwf & Hprimary & Hfallback).
  assert (getConsent b = (Returned VNull, after_getConsent b)) as Hget.
  { rewrite getConsent_run by assumption. unfold stored_record.
    rewrite Hprimary, Hfallback. reflexivity. }
  split; [exact Hget|]. rewrite (hasConsent_from_consent _ _ _ Hget). reflexivity.
Qed.

Lemma cookie_jar_after_remove (name : string) (b : Browser) :
  cookie_writes b = CookiesAccepted ->
  cookie_jar (after_remove name b) = delete_cookie name (host b) (cookie_jar b).
Proof.
  intros Hw.
  assert (cookie_jar (after_remove name b) = origin_cookies (after_remove name b)) as ->.
  { apply cookie_jar_readable, accepting_not_opaque_origin. unfold after_remove. rewrite Hw.
    destruct (storage_access b); exact Hw. }
  unfold after_remove. rewrite Hw. destruct (storage_access b); reflexivity.
Qed.

Lemma host_after_remove (name : string) (b : Browser) : host (after_remove name b) = host b.
Proof.
  unfold after_remove. destruct (cookie_writes b), (storage_access b); reflexivity.
Qed.

Lemma nothing_stored_after_remove (b : Browser) :
  cookie_writes b = CookiesAccepted -> well_formed_jar (cookie_jar b) = true ->
  no_other_record CONSENT_COOKIE_NAME b ->
  nothing_stored (after_remove CONSENT_COOKIE_NAME b).
Proof.
  intros Hw Hwf Hother. unfold nothing_stored.
  rewrite cookie_jar_after_remove by exact Hw.
  split; [apply well_formed_jar_delete, Hwf|]. split; [exact Hother|].
  unfold after_remove, fallback_record. rewrite Hw.
  destruct (storage_access b) eqn:Hs;
    cbn [storage_access local_storage with_cookie_jar with_local_storage];
    rewrite ?Hs, ?lookup_delete_eq; reflexivity.
Qed.

(** [showBanner] when nothing is stored: the banner is appended and its
    fade-in queued; the stores are as the read left them. *)
Lemma showBanner_nothing_stored (b : Browser) :
  nothing_stored b ->
  exists b',
    showBanner b = (Returned tt, b')
    /\ nothing_stored b' /\ cookie_writes b' = cookie_writes b
    /\ timers b' = (timers b ++ [(100, TaskShowNode (next_node b))])%list
    /\ body b' = (body b ++ [mkNode (next_node b) BannerNode false])%list.
Proof.
  intros Hnone. destruct (getConsent_nothing_stored b Hnone) as [_ Hhas].
  pose proof (nothing_stored_after_getConsent b Hnone) as Hafter.
  pose proof (page_kept_after_getConsent b) as (Hw & _ & _ & _ & Ht & Hb & Hn & _).
  unfold showBanner, bind. rewrite Hhas. cbn [truthy_opt truthy].
  unfold appendChild_new, setTimeout. eexists. split; [reflexivity|].
  split; [revert Hafter; apply nothing_stored_ext; reflexivity|].
  cbn [cookie_writes timers body with_timers with_body]. rewrite Hw, Ht, Hb, Hn.
  repeat split.
Qed.

Lemma reset_erases (b : Browser) :
  cookie_writes b = CookiesAccepted -> well_formed_jar (cookie_jar b) = true ->
  no_other_record CONSENT_COOKIE_NAME b ->
  exists b', reset b = (Returned tt, b')
             /\ nothing_stored b' /\ cookie_writes b' = CookiesAccepted.
Proof.
  intros Hw Hwf Hother. unfold reset, bind. rewrite CookieUtils_remove_run.
  destruct (showBanner_nothing_stored _ (nothing_stored_after_remove b Hw Hwf Hother))
    as (b' & Hshow & Hnone & Hw' & _).
  exists b'. split; [exact Hshow|]. split; [exact Hnone|].
  rewrite Hw'. unfold after_remove. rewrite Hw.
  destruct (storage_access b); cbn [cookie_writes with_local_storage with_cookie_jar];
    exact Hw.
Qed.

Lemma reset_returns (b : Browser) : returns reset b.
Proof.
  unfold returns, reset, bind. rewrite CookieUtils_remove_run.
  destruct (hasConsent_kept (after_remove CONSENT_COOKIE_NAME b)) as (h & b' & Hhas & _).
  unfold showBanner, bind. rewrite Hhas.
  destruct (truthy_opt h); eexists _, _; reflexivity.
Qed.

(** *** The save handler *)

Lemma page_kept_after_set (name : string) (v : value) (days : Z) (b : Browser) :
  page_kept b (after_set name v days b).
Proof.
  unfold after_set, page_kept.
  destruct (cookie_writes b) eqn:Hw, (storage_access b) eqn:Hs;
    cbn; rewrite ?Hw, ?Hs; repeat split;
    solve [exists []; symmetry; apply app_nil_r
          | eexists; reflexivity
          | eexists; rewrite <- app_assoc; reflexivity].
Qed.

Lemma saveConsent_runs (fields : list (string * value)) (b : Browser) :
  let data := consentData (clock b) (lookup_prop "analytics" fields)
                          (lookup_prop "marketing" fields) in
  opaque_origin b = false ->
  runs (saveConsent (VObj fields)) b (fun r b' =>
    r = data /\ page_kept b b'
    /\ exists saved b_read,
         CookieUtils_get CONSENT_COOKIE_NAME
           (after_set CONSENT_COOKIE_NAME data CONSENT_EXPIRY_DAYS b)
         = (Returned saved, b_read)
         /\ b' = warned (if verification_fails saved then 1 else 0)
                        "Cookie consent may not have been saved correctly" b_read).
Proof.
  intros data Hs.
  destruct (CookieUtils_get_kept CONSENT_COOKIE_NAME
              (after_set CONSENT_COOKIE_NAME data CONSENT_EXPIRY_DAYS b))
    as (saved & b_read & Hget & Hkept & _);
    [rewrite opaque_origin_after_set; exact Hs|].
  unfold runs, saveConsent, bind, Date_now_toISOString, member, ret. cbn [prop].
  fold data. rewrite CookieUtils_set_run, Hget. fold (verification_fails saved).
  assert (page_kept b b_read) as Hpage.
  { eapply page_kept_trans; [apply page_kept_after_set|exact Hkept]. }
  destruct (verification_fails saved) eqn:Hfails.
  - eexists _, _. split; [reflexivity|]. split; [reflexivity|]. split.
    + eapply page_kept_trans; [exact Hpage|apply (page_kept_warned 1)].
    + exists saved, b_read. rewrite Hfails. split; reflexivity.
  - eexists _, _. split; [reflexivity|]. split; [reflexivity|]. split.
    + exact Hpage.
    + exists saved, b_read. rewrite Hfails. split; [reflexivity|].
      rewrite warned_0. reflexivity.
Qed.

Lemma no_retry_queued_refl (b : Browser) : no_retry_queued b b.
Proof. exists []. split; [symmetry; apply app_nil_r|constructor]. Qed.

Lemma no_retry_queued_trans (b1 b2 b3 : Browser) :
  no_retry_queued b1 b2 -> no_retry_queued b2 b3 -> no_retry_queued b1 b3.
Proof.
  intros (q1 & H1 & F1) (q2 & H2 & F2). exists (q1 ++ q2)%list. split.
  - rewrite H2, H1. symmetry. apply app_assoc.
  - apply Forall_app. split; assumption.
Qed.

Lemma no_retry_queued_kept (b b' : Browser) : page_kept b b' -> no_retry_queued b b'.
Proof.
  intros (_ & _ & _ & _ & Ht & _). exists []. split; [rewrite Ht; symmetry; apply app_nil_r|constructor].
Qed.

(** [hideBanner] and [hideModal] return; they queue at most the removal
    of the element and log nothing. *)
Lemma hide_runs (k : node_kind) (b : Browser) :
  runs (hide k) b (fun _ b' =>
    no_retry_queued b b' /\ console b' = console b /\ dispatched b' = dispatched b).
Proof.
  unfold runs, hide, bind, getElementById.
  destruct (List.find _ (body b)) as [n|]; cbn [fmap option_fmap option_map].
  - eexists _, _. split; [reflexivity|]. cbn. repeat split.
    eexists. split; [reflexivity|]. repeat constructor. eexists. reflexivity.
  - eexists _, _. split; [reflexivity|]. repeat split. apply no_retry_queued_refl.
Qed.

(** [loadScripts] returns; it queues and logs nothing beyond the lines of
    its read. *)
Lemma loadScripts_runs (b : Browser) :
  runs loadScripts b (fun _ b' =>
    no_retry_queued b b'
    /\ exists lines : list (level * string), console b' = (console b ++ lines)%list).
Proof.
  destruct (getConsent_kept b) as (r & b' & Hget & [Hkept _] & _).
  pose proof Hkept as (_ & _ & _ & _ & _ & _ & _ & Hconsole).
  destruct (truthy r) eqn:Htruthy.
  - eexists _, _. split; [apply (loadScripts_from_consent _ _ _ Hget Htruthy)|].
    split; [|exact Hconsole].
    exact (no_retry_queued_kept _ _ Hkept).
  - exists tt, b'. unfold loadScripts, bind. rewrite Hget, Htruthy.
    split; [reflexivity|]. split; [apply no_retry_queued_kept, Hkept|exact Hconsole].
Qed.

(** The success branch of [handleSave] and of its retry. *)
Lemma hideModal_loadScripts_runs (b : Browser) :
  runs (let! _ := hideModal in loadScripts) b (fun _ b' =>
    no_retry_queued b b'
    /\ exists lines : list (level * string), console b' = (console b ++ lines)%list).
Proof.
  apply runs_bind. eapply runs_weaken; [apply hide_runs|].
  cbn beta. intros _ b1 (Hq1 & Hc1 & _).
  eapply runs_weaken; [apply loadScripts_runs|].
  cbn beta. intros _ b2 (Hq2 & lines & Hc2). split.
  - eapply no_retry_queued_trans; eassumption.
  - exists lines. rewrite Hc2, Hc1. reflexivity.
Qed.

(** *** The claims *)

(** C2 (as amended): with stores that take writes, and when no cookie of
    the name that was set for another path or another domain reads as a
    record, [saveConsent({analytics:true, marketing:false})] followed by
    [getConsent()] returns the record just built: analytics [true],
    marketing [false], necessary [true] and the configured version. *)
Theorem saveConsent_getConsent_round_trip (b : Browser) :
  let data := consentData (clock b) (Some (VBool true)) (Some (VBool false)) in
  cookie_writes b = CookiesAccepted -> storage_access b = StorageAvailable ->
  well_formed_jar (cookie_jar b) = true ->
  no_other_record CONSENT_COOKIE_NAME b ->
  cookie_round_trip data ->
  exists b1 b2,
    saveConsent (choice true false) b = (Returned data, b1)
    /\ getConsent b1 = (Returned data, b2)
    /\ prop data "analytics" = Some (VBool true)
    /\ prop data "marketing" = Some (VBool false)
    /\ prop data "necessary" = Some (VBool true)
    /\ prop data "version" = Some (VStr CONSENT_VERSION).
Proof.
  intros data Hw _ Hwf Hother Htrip.
  destruct (saveConsent_stores [("analytics", VBool true); ("marketing", VBool false)] b)
    as (b1 & Hsave & _ & _ & _ & Hget); try assumption.
  exists b1, (after_get CONSENT_COOKIE_NAME b1).
  repeat split; assumption.
Qed.

(** What [getConsent] does on every browser: it never throws; it returns
    the record the adapter read when that record is an object whose
    version is the configured one, absent or falsy and whose three
    category fields are present, and [null] in every other case, in
    particular when nothing is stored and when the adapter's read throws
    (then [stored] below is [null]).  When it returns [null],
    [hasConsent()] is [false]; a record with a truthy version other than
    the configured one is among those cases. *)
Theorem getConsent_null_unless_valid (b : Browser) :
  runs getConsent b (fun r b' =>
    exists stored,
      (opaque_origin b = false -> CookieUtils_get CONSENT_COOKIE_NAME b = (Returned stored, b'))
      /\ (opaque_origin b = true ->
          CookieUtils_get CONSENT_COOKIE_NAME b = (Thrown SecurityError, b)
          /\ stored = VNull)
      /\ r = (if valid_record stored then stored else VNull)
      /\ (valid_record stored = false ->
          r = VNull /\ hasConsent b = (Returned (Some (VBool false)), b'))
      /\ (forall old, prop stored "version" = Some old ->
            truthy old = true -> old <> VStr CONSENT_VERSION ->
            valid_record stored = false)).
Proof.
  destruct (getConsent_kept b) as (r & b' & Hget & _ & stored & -> & Hnull & Hread).
  exists (validated stored), b'. split; [exact Hget|].
  exists stored. split; [exact Hread|].
  split; [intros Hs; split; [apply CookieUtils_get_opaque_origin, Hs|apply Hnull, Hs]|].
  unfold validated in *. rewrite accepted_valid_record in *.
  split; [reflexivity|]. split.
  - intros Hinvalid. rewrite Hinvalid in *. split; [reflexivity|].
    rewrite (hasConsent_from_consent _ _ _ Hget). reflexivity.
  - intros old Hversion Htruthy Hdiffers.
    destruct stored as [|flag|n|text|items|props]; try reflexivity.
    cbn in Hversion |- *. rewrite Hversion, Htruthy. cbn.
    destruct old as [|flag|n|text|items|fields]; try reflexivity.
    destruct (String.eqb_spec text CONSENT_VERSION) as [->|_]; [congruence|reflexivity].
Qed.

(** X26: What the save handler does when the cookie store does not throw:
    [saveConsent] writes the record through the adapter and reads it
    back, warning when the version read back is not the configured one;
    it queues no retry itself.  [handleSave] then checks [hasConsent()]:
    when that fails it logs an error and queues one retry, 100 ms later,
    and nothing else; the retry saves and checks once more and queues no
    further retry, whether or not it succeeds. *)
Theorem handleSave_retries_once (analytics marketing : bool) (b : Browser) :
  let data := consentData (clock b) (Some (VBool analytics)) (Some (VBool marketing)) in
  cookie_writes b <> CookiesThrow ->
  exists b_saved consented b_checked b1,
    saveConsent (choice analytics marketing) b = (Returned data, b_saved)
    /\ page_kept b b_saved
    /\ (exists saved b_read,
          CookieUtils_get CONSENT_COOKIE_NAME
            (after_set CONSENT_COOKIE_NAME data CONSENT_EXPIRY_DAYS b)
          = (Returned saved, b_read)
          /\ b_saved = warned (if verification_fails saved then 1 else 0)
                              "Cookie consent may not have been saved correctly" b_read)
    /\ hasConsent b_saved = (Returned consented, b_checked)
    /\ handleSave analytics marketing b = (Returned tt, b1)
    /\ (truthy_opt consented = false ->
        timers b1 = (timers b ++ [(100, TaskRetrySave analytics marketing)])%list
        /\ console b1 = (console b_checked ++ [(Error, "Failed to save consent")])%list
        /\ dispatched b1 = dispatched b /\ body b1 = body b)
    /\ (truthy_opt consented = true -> no_retry_queued b b1)
    /\ forall b2 : Browser,
        cookie_writes b2 <> CookiesThrow ->
        exists b3,
          run_task (TaskRetrySave analytics marketing) b2 = (Returned tt, b3)
          /\ no_retry_queued b2 b3
          /\ (exists lines : list (level * string), console b3 = (console b2 ++ lines)%list)
          /\ (forall again b',
                (let! _ := saveConsent (choice analytics marketing) in hasConsent) b2
                = (Returned again, b') ->
                truthy_opt again = false -> b3 = b' /\ page_kept b2 b3).
Proof.
  intros data Hreads.
  destruct (saveConsent_runs [("analytics", VBool analytics); ("marketing", VBool marketing)] b)
    as (r & b_saved & Hsave & -> & Hkept1 & Hread); [apply not_opaque_origin_writes, Hreads|].
  destruct (hasConsent_kept b_saved) as (consented & b_checked & Hhas & Hkept2).
  pose proof (page_kept_trans _ _ _ Hkept1 Hkept2) as Hkept.
  assert (exists b1, handleSave analytics marketing b = (Returned tt, b1)
            /\ (truthy_opt consented = false ->
                b1 = with_timers (timers b_checked ++ [(100, TaskRetrySave analytics marketing)])
                       (with_console (console b_checked ++ [(Error, "Failed to save consent")])
                                     b_checked))
            /\ (truthy_opt consented = true -> no_retry_queued b b1)) as (b1 & Hhandle & Hfail & Hok).
  { unfold handleSave, bind. unfold choice. rewrite Hsave, Hhas.
    destruct (truthy_opt consented).
    - destruct (hideModal_loadScripts_runs b_checked) as ([] & b1 & Hclose & Hq & _).
      unfold bind in Hclose. exists b1. split; [exact Hclose|].
      split; [discriminate|]. intros _.
      eapply no_retry_queued_trans; [apply no_retry_queued_kept, Hkept|exact Hq].
    - eexists. split; [reflexivity|]. split; [reflexivity|discriminate]. }
  exists b_saved, consented, b_checked, b1.
  split; [exact Hsave|]. split; [exact Hkept1|]. split; [exact Hread|].
  split; [exact Hhas|]. split; [exact Hhandle|]. split; [|split; [exact Hok|]].
  - intros Hfalse. rewrite (Hfail Hfalse).
    destruct Hkept as (_ & _ & _ & Hd & Ht & Hb & _).
    cbn. rewrite Ht, Hd, Hb. repeat split.
  - intros b2 Hreads2.
    destruct (saveConsent_runs [("analytics", VBool analytics); ("marketing", VBool marketing)] b2)
      as (r2 & b2_saved & Hsave2 & _ & Hkept21 & _); [apply not_opaque_origin_writes, Hreads2|].
    destruct (hasConsent_kept b2_saved) as (again & b2_checked & Hhas2 & Hkept22).
    pose proof (page_kept_trans _ _ _ Hkept21 Hkept22) as Hkept2'.
    cbn [run_task]. unfold retrySave, bind, choice. rewrite Hsave2, Hhas2.
    destruct (truthy_opt again) eqn:Hagain.
    + destruct (hideModal_loadScripts_runs b2_checked) as ([] & b3 & Hclose & Hq & lines & Hc).
      unfold bind in Hclose. exists b3. split; [exact Hclose|]. split.
      * eapply no_retry_queued_trans; [apply no_retry_queued_kept, Hkept2'|exact Hq].
      * split.
        -- destruct Hkept2' as (_ & _ & _ & _ & _ & _ & _ & lines' & Hc').
           exists (lines' ++ lines)%list. rewrite Hc, Hc'. symmetry. apply app_assoc.
        -- intros again' b' Heq Hfalse. injection Heq as <- <-. congruence.
    + exists b2_checked. split; [reflexivity|]. split.
      * apply no_retry_queued_kept, Hkept2'.
      * split; [apply Hkept2'|].
        intros again' b' Heq _. injection Heq as _ <-. split; [reflexivity|exact Hkept2'].
Qed.

(** C5 (as amended): [CookieUtils.set] always returns.  The cookie write
    and the [localStorage] write are attempted one after the other,
    whatever the first did: a throwing write leaves a warning on the
    console, and each store that takes its write holds the record.  When
    the cookie write fails, [localStorage] takes the write and no cookie
    of that name is readable, the next read returns the saved record from
    the fallback, and so does [getConsent()]. *)
Theorem CookieUtils_set_best_effort (v : value) (days : Z) (b : Browser) :
  exists b1,
    CookieUtils_set CONSENT_COOKIE_NAME v days b = (Returned tt, b1)
    /\ (cookie_writes b = CookiesThrow -> In (Warn, "Error setting cookie:") (console b1))
    /\ (storage_access b <> StorageAvailable ->
        In (Warn, "Error setting localStorage:") (console b1))
    /\ (storage_access b = StorageAvailable ->
        local_storage b1 !! CONSENT_COOKIE_NAME = Some (JSON_stringify v))
    /\ (cookie_writes b = CookiesAccepted -> (0 < days)%Z ->
        In (mkCookie CONSENT_COOKIE_NAME (encodeURIComponent (JSON_stringify v)) (host b) "/")
           (cookie_jar b1))
    /\ (cookie_writes b <> CookiesAccepted -> storage_access b = StorageAvailable ->
        well_formed_jar (cookie_jar b) = true ->
        primary_record CONSENT_COOKIE_NAME (cookie_jar b) = None ->
        storage_round_trip v ->
        exists b2,
          CookieUtils_get CONSENT_COOKIE_NAME b1 = (Returned v, b2)
          /\ getConsent b1 = (Returned (validated v), b2)).
Proof.
  exists (after_set CONSENT_COOKIE_NAME v days b).
  split; [apply CookieUtils_set_run|].
  destruct (storage_after_set CONSENT_COOKIE_NAME v days b) as (Hs & Hw & Hls).
  repeat split.
  - intros Hthrow. unfold after_set. rewrite Hthrow.
    destruct (storage_access b); cbn [console warned with_console with_local_storage];
      rewrite ?in_app_iff; cbn; tauto.
  - intros Hrefused. unfold after_set.
    destruct (storage_access b); [contradiction|..];
      cbn [console warned with_console]; apply in_or_app; right; left; reflexivity.
  - intros Havailable. rewrite Hls, Havailable. apply lookup_insert_eq.
  - intros Haccepted Hdays. rewrite cookie_jar_after_set by assumption.
    apply in_store_cookie.
  - intros Hrefused Havailable Hwf Hprimary [Hnonempty Hparse].
    assert (opaque_origin (after_set CONSENT_COOKIE_NAME v days b) = false) as Hreadable.
    { rewrite opaque_origin_after_set. apply not_opaque_origin_storage.
      rewrite Havailable. discriminate. }
    assert (stored_record CONSENT_COOKIE_NAME (after_set CONSENT_COOKIE_NAME v days b) = v)
      as Hstored.
    { unfold stored_record, fallback_record.
      rewrite cookie_jar_after_set_refused, Hprimary, Hs, Hls, Havailable by assumption.
      rewrite lookup_insert_eq.
      destruct (String.eqb_spec (JSON_stringify v) EmptyString) as [Hempty|_];
        [contradiction|].
      rewrite Hparse. reflexivity. }
    assert (well_formed_jar (cookie_jar (after_set CONSENT_COOKIE_NAME v days b)) = true)
      as Hwf1 by (rewrite cookie_jar_after_set_refused; assumption).
    eexists. split.
    + rewrite CookieUtils_get_run by (assumption || reflexivity).
      rewrite Hstored. reflexivity.
    + rewrite getConsent_run, (after_getConsent_readable _ Hreadable) by assumption.
      rewrite Hstored. reflexivity.
Qed.

(** C6 (as amended): in a document whose cookie store does not throw, the
    read looks at the cookie first.  When a cookie of that name decodes
    and parses, its value is returned and written to [localStorage] (when
    that takes writes); otherwise the read falls back to [localStorage],
    and returns what parses there, or [null].  Cookies and fallback
    entries that do not parse count as absent and leave a warning on the
    console.  The read returns in each of these cases.  In a document of
    an opaque origin, where reading [document.cookie] throws, the read
    throws [SecurityError]; [getConsent] catches it, logs it and returns
    [null]. *)
Theorem CookieUtils_get_primary_then_fallback (name : string) (b : Browser) :
  (cookie_writes b <> CookiesThrow ->
   well_formed_jar (cookie_jar b) = true -> occurs "=" name = false ->
   exists v b',
     CookieUtils_get name b = (Returned v, b')
     /\ cookie_jar b' = cookie_jar b
     /\ match primary_record name (cookie_jar b) with
        | Some parsed =>
            v = parsed
            /\ local_storage b'
               = match storage_access b with
                 | StorageAvailable => <[name := JSON_stringify parsed]> (local_storage b)
                 | _ => local_storage b
                 end
        | None =>
            v = fallback_record name b /\ local_storage b' = local_storage b
            /\ (fallback_warns name b = true ->
                v = VNull /\ In (Warn, "Error reading localStorage:") (console b'))
        end
     /\ (0 < unreadable_cookies name (cookie_jar b) ->
         In (Warn, "Error parsing cookie:") (console b')))
  /\ (opaque_origin b = true ->
      CookieUtils_get name b = (Thrown SecurityError, b)
      /\ getConsent b = (Returned VNull, warned 1 "Error getting consent:" b)).
Proof.
  split;
    [|intros Hopaque; split;
      [apply CookieUtils_get_opaque_origin|apply getConsent_opaque_origin]; exact Hopaque].
  intros Hreads Hwf Hname. eexists _, _.
  split; [apply CookieUtils_get_run; [apply not_opaque_origin_writes|..]; assumption|].
  split; [apply cookie_jar_after_get|].
  unfold stored_record, after_get.
  destruct (primary_record name (cookie_jar b)) as [parsed|]; split.
  - split; [reflexivity|]. unfold mirrored. cbn [storage_access warned with_console].
    destruct (storage_access b); reflexivity.
  - intros Hpos. unfold mirrored. cbn [storage_access warned with_console].
    destruct (storage_access b); cbn [console with_console with_local_storage];
      apply in_or_app; right;
      (destruct (unreadable_cookies name (cookie_jar b)); [lia|left; reflexivity]).
  - split; [reflexivity|]. split; [reflexivity|].
    intros Hwarns. rewrite Hwarns. split.
    + unfold fallback_record, fallback_warns in *.
      destruct (storage_access b); try reflexivity;
        destruct (local_storage b !! name) as [text|]; try discriminate;
        destruct (String.eqb text EmptyString); try discriminate;
        destruct (JSON_parse text); try discriminate; reflexivity.
    + cbn [console warned with_console]. apply in_or_app. right. left. reflexivity.
  - intros Hpos. cbn [console warned with_console mirrored].
    apply in_or_app. left. apply in_or_app. right.
    destruct (unreadable_cookies name (cookie_jar b)); [lia|left; reflexivity].
Qed.

(** C7 (as amended): for every record [getConsent] returns, the broadcast
    appends to the dispatched events one [cookieConsent:analytics] signal
    exactly when the analytics field is truthy, one
    [cookieConsent:marketing] signal exactly when the marketing field is
    truthy, and always one [cookieConsent:necessary] signal, each with
    the whole record as payload, and nothing else.  For a field that
    holds a boolean, truthy is [true]. *)
Theorem loadScripts_signals_of_record (b b' : Browser) (r : value) :
  getConsent b = (Returned r, b') -> r <> VNull ->
  loadScripts b
  = (Returned tt,
     with_dispatched
       (dispatched b'
        ++ (if truthy_opt (prop r "analytics") then [("cookieConsent:analytics", r)] else [])
        ++ (if truthy_opt (prop r "marketing") then [("cookieConsent:marketing", r)] else [])
        ++ [("cookieConsent:necessary", r)]) b')
  /\ forall (category : string) (flag : bool),
       prop r category = Some (VBool flag) -> truthy_opt (prop r category) = flag.
Proof.
  intros Hget Hrecord. split.
  - assert (truthy r = true) as Htruthy.
    { destruct (getConsent_kept b) as (r' & b'' & Hget' & _ & stored & Hr & _).
      rewrite Hget in Hget'. injection Hget' as <- <-.
      unfold validated in Hr. destruct (accepted stored) eqn:Haccepted; [|contradiction].
      subst r. unfold accepted in Haccepted. destruct (truthy stored); [reflexivity|discriminate]. }
    rewrite (loadScripts_from_consent _ _ _ Hget Htruthy).
    unfold optional_signals. rewrite <- app_assoc. reflexivity.
  - intros category flag ->. reflexivity.
Qed.

(** C8 (as amended): [reset()] returns on every browser, also with
    nothing stored, and so does a second [reset()] right after.  When the
    cookie store takes the deleting assignment and no cookie of the name
    that was set for another path or another domain reads as a record,
    [getConsent()] is [null] and [hasConsent()] is [false] after the
    first call and after the second. *)
Theorem reset_twice_leaves_no_consent (b : Browser) :
  exists b1 b2,
    reset b = (Returned tt, b1)
    /\ reset b1 = (Returned tt, b2)
    /\ (cookie_writes b = CookiesAccepted -> well_formed_jar (cookie_jar b) = true ->
        no_other_record CONSENT_COOKIE_NAME b ->
        fst (getConsent b1) = Returned VNull
        /\ fst (hasConsent b1) = Returned (Some (VBool false))
        /\ fst (getConsent b2) = Returned VNull
        /\ fst (hasConsent b2) = Returned (Some (VBool false))).
Proof.
  destruct (reset_returns b) as ([] & b1 & Hreset1).
  destruct (reset_returns b1) as ([] & b2 & Hreset2).
  exists b1, b2. split; [exact Hreset1|]. split; [exact Hreset2|].
  intros Hw Hwf Hother.
  destruct (reset_erases b Hw Hwf Hother) as (b1' & Hreset1' & Hnone1 & Hw1).
  rewrite Hreset1 in Hreset1'. injection Hreset1' as <-.
  destruct (reset_erases b1 Hw1 (proj1 Hnone1) (nothing_stored_no_other_record b1 Hnone1))
    as (b2' & Hreset2' & Hnone2 & _).
  rewrite Hreset2 in Hreset2'. injection Hreset2' as <-.
  destruct (getConsent_nothing_stored b1 Hnone1) as [Hget1 Hhas1].
  destruct (getConsent_nothing_stored b2 Hnone2) as [Hget2 Hhas2].
  rewrite Hget1, Hhas1, Hget2, Hhas2. repeat split.
Qed.

(** C9: whatever record [getConsent] returns, the broadcast dispatches in
    the order analytics (if its field is truthy), marketing (if its field
    is truthy), necessary: the necessary signal is the last event
    dispatched. *)
Theorem loadScripts_necessary_last (b b' : Browser) (r : value) :
  getConsent b = (Returned r, b') -> truthy r = true ->
  exists b'',
    loadScripts b = (Returned tt, b'')
    /\ dispatched b''
       = (dispatched b'
          ++ (if truthy_opt (prop r "analytics") then [("cookieConsent:analytics", r)] else [])
          ++ (if truthy_opt (prop r "marketing") then [("cookieConsent:marketing", r)] else [])
          ++ [("cookieConsent:necessary", r)])%list
    /\ last (dispatched b'') = Some ("cookieConsent:necessary", r).
Proof.
  intros Hget Htruthy. eexists. split; [apply loadScripts_from_consent; eassumption|].
  cbn [dispatched with_dispatched]. unfold optional_signals. split.
  - rewrite <- app_assoc. reflexivity.
  - rewrite app_assoc. apply last_snoc.
Qed.

(** C10: [saveConsent] keeps a truthy analytics value as it is; for every
    truthy value other than [true], saved on a first visit with a cookie
    store that takes the write, the broadcast after the save fires
    [cookieConsent:analytics] and [isCategoryAllowed('analytics')] returns
    [false]. *)
Theorem truthy_analytics_fires_but_is_not_allowed (v : value) (b : Browser) :
  let data := consentData (clock b) (Some v) (Some (VBool false)) in
  truthy v = true -> v <> VBool true ->
  cookie_writes b = CookiesAccepted ->
  nothing_stored b ->
  cookie_round_trip data ->
  exists b1 b2 b3,
    saveConsent (VObj [("analytics", v); ("marketing", VBool false)]) b = (Returned data, b1)
    /\ prop data "analytics" = Some v
    /\ loadScripts b1 = (Returned tt, b2)
    /\ In ("cookieConsent:analytics", data) (dispatched b2)
    /\ isCategoryAllowed "analytics" b2 = (Returned false, b3).
Proof.
  intros data Htruthy Hnot Hw Hnone Htrip.
  pose proof (saveConsent_stores [("analytics", v); ("marketing", VBool false)] b) as Hstores.
  change (consentData (clock b) _ _) with data in Hstores. cbv zeta in Hstores.
  destruct Hstores as (b1 & Hsave & Hwf1 & Hprimary & _ & Hget);
    [exact Hw|apply Hnone|apply nothing_stored_no_other_record, Hnone|exact Htrip|].
  assert (prop data "analytics" = Some v) as Hstored.
  { cbn. rewrite Htruthy. reflexivity. }
  pose proof (loadScripts_from_consent _ _ _ Hget eq_refl) as Hload.
  set (b2 := with_dispatched _ _) in Hload.
  assert (getConsent b2 = (Returned data, after_get CONSENT_COOKIE_NAME b2)) as Hget2.
  { assert (cookie_jar b2 = cookie_jar b1) as Hjar by apply cookie_jar_after_get.
    rewrite (getConsent_of_cookie _ data); [reflexivity|rewrite Hjar; assumption..]. }
  exists b1, b2, (after_get CONSENT_COOKIE_NAME b2).
  split; [exact Hsave|]. split; [exact Hstored|].
  split; [exact Hload|]. split.
  - unfold b2. cbn [dispatched with_dispatched]. apply in_or_app. right.
    unfold optional_signals. rewrite Hstored. cbn [truthy_opt]. rewrite Htruthy.
    left. reflexivity.
  - rewrite (isCategoryAllowed_from_consent "analytics" _ _ _ Hget2).
    rewrite Hstored. cbn.
    destruct v as [|[]|n|text|items|props]; try reflexivity. congruence.
Qed.

End Properties.

(** ** The claims on concrete browsers *)

Import Scenarios.

(** C1: on a first visit, with nothing stored, [getConsent()] is [null]
    and [isCategoryAllowed('necessary')] returns [false]. *)
Theorem necessary_refused_on_first_visit :
  getConsent (P := Reference.platform) first_visit = (Returned VNull, first_visit)
  /\ isCategoryAllowed (P := Reference.platform) CATEGORIES_NECESSARY first_visit
     = (Returned false, first_visit).
Proof. split; vm_compute; reflexivity. Qed.

(** The round trip on a later visit, over the cookie of the earlier one. *)
Lemma saveConsent_getConsent_round_trip_witness :
  let data := consentData midnight (Some (VBool true)) (Some (VBool false)) in
  exists b1 b2,
    saveConsent (P := Reference.platform) (choice true false) returning_visit = (Returned data, b1)
    /\ getConsent (P := Reference.platform) b1 = (Returned data, b2)
    /\ prop data "analytics" = Some (VBool true)
    /\ prop data "marketing" = Some (VBool false)
    /\ prop data "necessary" = Some (VBool true)
    /\ prop data "version" = Some (VStr CONSENT_VERSION).
Proof.
  apply (saveConsent_getConsent_round_trip (P := Reference.platform) returning_visit);
    try reflexivity.
  split; vm_compute; reflexivity.
Defined.

(** C2, counterexample: the page sees a consent cookie that was set for
    the path [/shop].  Both stores take the write of [saveConsent]: its
    cookie, for the path [/], is in the jar, listed after the cookie of
    the longer path.  The read finds the older cookie first: [getConsent()]
    returns the earlier rejection, analytics [false], not the record just
    saved, and the read has written the earlier record over the saved one
    in [localStorage]. *)
Lemma cookie_of_another_path_hides_the_saved_record :
  let data := consentData midnight (Some (VBool true)) (Some (VBool false)) in
  exists b1 b2,
    cookie_writes other_path_visit = CookiesAccepted
    /\ storage_access other_path_visit = StorageAvailable
    /\ saveConsent (P := Reference.platform) (choice true false) other_path_visit
       = (Returned data, b1)
    /\ cookie_jar b1
       = [mkCookie CONSENT_COOKIE_NAME
                   (Reference.encode (Reference.stringify earlier_rejection)) site "/shop";
          consent_cookie data]
    /\ getConsent (P := Reference.platform) b1 = (Returned earlier_rejection, b2)
    /\ prop earlier_rejection "analytics" = Some (VBool false)
    /\ local_storage b2 !! CONSENT_COOKIE_NAME = Some (Reference.stringify earlier_rejection).
Proof.
  eexists _, _. split; [reflexivity|]. split; [reflexivity|].
  split; [vm_compute; reflexivity|]. split; [vm_compute; reflexivity|].
  split; [vm_compute; reflexivity|]. split; [reflexivity|]. vm_compute. reflexivity.
Qed.

(** C3: a stored record with the old version value [0] is not valid in
    the words of the specification (its version is present and is not the
    configured one), yet [getConsent] returns it, not [null], and
    [hasConsent()] is truthy. *)
Lemma version_zero_record_is_returned :
  CookieUtils_get (P := Reference.platform) CONSENT_COOKIE_NAME version_zero_visit
  = (Returned version_zero_record, version_zero_visit)
  /\ valid_per_spec version_zero_record = false
  /\ getConsent (P := Reference.platform) version_zero_visit
     = (Returned version_zero_record, version_zero_visit)
  /\ version_zero_record <> VNull
  /\ fst (hasConsent (P := Reference.platform) version_zero_visit)
     = Returned (Some (VStr "2025-06-01T12:00:00.000Z")).
Proof. repeat split; try (vm_compute; reflexivity). discriminate. Qed.

(** C4: cookies are disabled and [localStorage] is full and holds a
    record without version, analytics and marketing [true].  The visitor
    saves a rejection.  [saveConsent] reads the old record back and warns
    that the consent may not have been saved; the old record stays in
    [localStorage].  Yet [hasConsent()] accepts the old record, so
    [handleSave] takes the save for done: it logs no error and queues no
    retry (only the removal of the modal), and broadcasts the old record,
    analytics and marketing signals included. *)
Lemma failed_verification_without_retry :
  exists b_saved b1,
    saveConsent (P := Reference.platform) (choice false false) legacy_record_visit
    = (Returned rejected_record, b_saved)
    /\ In (Warn, "Cookie consent may not have been saved correctly") (console b_saved)
    /\ local_storage b_saved !! CONSENT_COOKIE_NAME = Some (Reference.stringify legacy_record)
    /\ handleSave (P := Reference.platform) false false legacy_record_visit = (Returned tt, b1)
    /\ timers b1 = [(300, TaskRemoveNode 0)]
    /\ ~ In (Error, "Failed to save consent") (console b1)
    /\ dispatched b1 = [("cookieConsent:analytics", legacy_record);
                        ("cookieConsent:marketing", legacy_record);
                        ("cookieConsent:necessary", legacy_record)].
Proof.
  eexists _, _. split; [vm_compute; reflexivity|].
  split; [vm_compute; tauto|]. split; [vm_compute; reflexivity|].
  split; [vm_compute; reflexivity|]. split; [vm_compute; reflexivity|].
  split; [|vm_compute; reflexivity].
  vm_compute. intros [H|[H|[]]]; discriminate.
Qed.

(** C5, counterexample: the cookie store throws on the write and
    [localStorage] takes it, yet the next read returns the record of the
    stale cookie, not the record just saved, and writes the stale record
    over the saved one in [localStorage]. *)
Lemma stale_cookie_wins_over_saved_record :
  exists b1 b2,
    CookieUtils_set (P := Reference.platform) CONSENT_COOKIE_NAME rejected_record
                    CONSENT_EXPIRY_DAYS stale_cookie_visit
    = (Returned tt, b1)
    /\ cookie_writes stale_cookie_visit = CookiesThrow
    /\ local_storage b1 !! CONSENT_COOKIE_NAME = Some (Reference.stringify rejected_record)
    /\ CookieUtils_get (P := Reference.platform) CONSENT_COOKIE_NAME b1
       = (Returned analytics_only_record, b2)
    /\ getConsent (P := Reference.platform) b1 = (Returned analytics_only_record, b2)
    /\ analytics_only_record <> rejected_record
    /\ local_storage b2 !! CONSENT_COOKIE_NAME
       = Some (Reference.stringify analytics_only_record).
Proof.
  eexists _, _. split; [vm_compute; reflexivity|].
  split; [reflexivity|]. split; [vm_compute; reflexivity|].
  split; [vm_compute; reflexivity|]. split; [vm_compute; reflexivity|].
  split; [discriminate|]. vm_compute. reflexivity.
Qed.

(** The write on a first visit whose cookie store throws: the record
    comes back from [localStorage]. *)
Lemma CookieUtils_set_best_effort_witness :
  exists b1 b2,
    CookieUtils_set (P := Reference.platform) CONSENT_COOKIE_NAME rejected_record
                    CONSENT_EXPIRY_DAYS blocked_cookies_visit
    = (Returned tt, b1)
    /\ In (Warn, "Error setting cookie:") (console b1)
    /\ CookieUtils_get (P := Reference.platform) CONSENT_COOKIE_NAME b1
       = (Returned rejected_record, b2)
    /\ getConsent (P := Reference.platform) b1 = (Returned rejected_record, b2).
Proof.
  destruct (CookieUtils_set_best_effort (P := Reference.platform) rejected_record
              CONSENT_EXPIRY_DAYS blocked_cookies_visit)
    as (b1 & Hset & Hwarn & _ & _ & _ & Hrecover).
  destruct Hrecover as (b2 & Hget & Hconsent);
    [discriminate|reflexivity|reflexivity|reflexivity| |].
  - split; [vm_compute; discriminate|vm_compute; reflexivity].
  - exists b1, b2. split; [exact Hset|]. split; [apply Hwarn; reflexivity|].
    split; [exact Hget|exact Hconsent].
Defined.

(** The read on a later visit: the cookie is found after the cookie of
    another script, and mirrored. *)
Lemma CookieUtils_get_primary_then_fallback_witness :
  exists b',
    CookieUtils_get (P := Reference.platform) CONSENT_COOKIE_NAME returning_visit
    = (Returned analytics_only_record, b')
    /\ cookie_jar b' = cookie_jar returning_visit
    /\ local_storage b'
       = <[CONSENT_COOKIE_NAME := Reference.stringify analytics_only_record]>
           (local_storage returning_visit).
Proof.
  destruct (CookieUtils_get_primary_then_fallback (P := Reference.platform)
              CONSENT_COOKIE_NAME returning_visit) as [Hreturns _].
  destruct Hreturns as (v & b' & Hget & Hjar & Hcases & _); try reflexivity; [discriminate|].
  change (primary_record (P := Reference.platform) CONSENT_COOKIE_NAME
            (cookie_jar returning_visit))
    with (Some analytics_only_record) in Hcases.
  destruct Hcases as [-> Hstorage].
  exists b'. repeat split; assumption.
Defined.

(** C6, counterexample: in a document of an opaque origin reading
    [document.cookie] throws, and the read of the adapter throws with it:
    that statement is outside any [try].  [getConsent] catches the
    exception, logs it and returns [null]. *)
Lemma read_throws_on_an_opaque_origin :
  CookieUtils_get (P := Reference.platform) CONSENT_COOKIE_NAME opaque_origin_visit
  = (Thrown SecurityError, opaque_origin_visit)
  /\ fst (getConsent (P := Reference.platform) opaque_origin_visit) = Returned VNull
  /\ console (snd (getConsent (P := Reference.platform) opaque_origin_visit))
     = [(Warn, "Error getting consent:")].
Proof. repeat split. Qed.

(** The broadcast of the analytics-only record. *)
Lemma loadScripts_signals_of_record_witness :
  loadScripts (P := Reference.platform) returning_visit
  = (Returned tt,
     with_dispatched
       [("cookieConsent:analytics", analytics_only_record);
        ("cookieConsent:necessary", analytics_only_record)] returning_visit).
Proof.
  apply (loadScripts_signals_of_record (P := Reference.platform)
           returning_visit returning_visit analytics_only_record);
    [vm_compute; reflexivity|discriminate].
Defined.

(** C7, counterexample: a stored record with the number 1 as its
    analytics value passes the tests of [getConsent].  Its stored
    analytics value is not [true], yet the broadcast emits the analytics
    signal. *)
Lemma numeric_analytics_is_broadcast :
  fst (getConsent (P := Reference.platform) numeric_visit) = Returned numeric_record
  /\ prop numeric_record "analytics" = Some (VNum 1)
  /\ strict_eq_true (prop numeric_record "analytics") = false
  /\ dispatched (snd (loadScripts (P := Reference.platform) numeric_visit))
     = [("cookieConsent:analytics", numeric_record);
        ("cookieConsent:necessary", numeric_record)].
Proof. repeat split; vm_compute; reflexivity. Qed.

(** Two resets on a later visit, with the record in both stores. *)
Lemma reset_twice_leaves_no_consent_witness :
  exists b1 b2,
    reset (P := Reference.platform) returning_visit = (Returned tt, b1)
    /\ reset (P := Reference.platform) b1 = (Returned tt, b2)
    /\ fst (getConsent (P := Reference.platform) b1) = Returned VNull
    /\ fst (hasConsent (P := Reference.platform) b1) = Returned (Some (VBool false))
    /\ fst (getConsent (P := Reference.platform) b2) = Returned VNull
    /\ fst (hasConsent (P := Reference.platform) b2) = Returned (Some (VBool false)).
Proof.
  destruct (reset_twice_leaves_no_consent (P := Reference.platform) returning_visit)
    as (b1 & b2 & Hreset1 & Hreset2 & Hnone).
  exists b1, b2. split; [exact Hreset1|]. split; [exact Hreset2|].
  apply Hnone; reflexivity.
Defined.

(** C8, counterexample: the page sees a consent cookie that was set for
    the path [/shop].  The cookie store takes the deleting assignments of
    both resets, which address the cookie of the path [/]; the cookie of
    [/shop] stays, [getConsent()] returns its record after each reset,
    [hasConsent()] is truthy, and no banner is shown. *)
Lemma cookie_of_another_path_survives_reset :
  exists b1 b2,
    cookie_writes other_path_visit = CookiesAccepted
    /\ reset (P := Reference.platform) other_path_visit = (Returned tt, b1)
    /\ reset (P := Reference.platform) b1 = (Returned tt, b2)
    /\ fst (getConsent (P := Reference.platform) b1) = Returned earlier_rejection
    /\ fst (getConsent (P := Reference.platform) b2) = Returned earlier_rejection
    /\ fst (hasConsent (P := Reference.platform) b2)
       = Returned (Some (VStr "2025-06-01T12:00:00.000Z"))
    /\ cookie_jar b2 = cookie_jar other_path_visit
    /\ body b2 = [].
Proof.
  eexists _, _. split; [reflexivity|]. split; [vm_compute; reflexivity|].
  split; [vm_compute; reflexivity|]. repeat split; vm_compute; reflexivity.
Qed.

(** The order of the broadcast of the analytics-only record. *)
Lemma loadScripts_necessary_last_witness :
  exists b'',
    loadScripts (P := Reference.platform) returning_visit = (Returned tt, b'')
    /\ dispatched b''
       = [("cookieConsent:analytics", analytics_only_record);
          ("cookieConsent:necessary", analytics_only_record)]
    /\ last (dispatched b'') = Some ("cookieConsent:necessary", analytics_only_record).
Proof.
  apply (loadScripts_necessary_last (P := Reference.platform)
           returning_visit returning_visit analytics_only_record);
    vm_compute; reflexivity.
Defined.

(** The analytics value ["yes"] on a first visit. *)
Lemma truthy_analytics_fires_but_is_not_allowed_witness :
  let data := consentData midnight (Some (VStr "yes")) (Some (VBool false)) in
  exists b1 b2 b3,
    saveConsent (P := Reference.platform)
      (VObj [("analytics", VStr "yes"); ("marketing", VBool false)]) first_visit
    = (Returned data, b1)
    /\ prop data "analytics" = Some (VStr "yes")
    /\ loadScripts (P := Reference.platform) b1 = (Returned tt, b2)
    /\ In ("cookieConsent:analytics", data) (dispatched b2)
    /\ isCategoryAllowed (P := Reference.platform) "analytics" b2 = (Returned false, b3).
Proof.
  apply (truthy_analytics_fires_but_is_not_allowed (P := Reference.platform)
           (VStr "yes") first_visit); try reflexivity.
  - discriminate.
  - repeat split.
  - split; vm_compute; reflexivity.
Defined.

(** ** Further properties of the widget *)

Section MoreProperties.
Context {P : Platform}.

(** *** Hiding the banner and the modal *)

Lemma find_kind_map (k : node_kind) (f : node -> node) (l : list node) :
  (forall n, node_kind_of (f n) = node_kind_of n) ->
  List.find (fun n => node_kind_eqb (node_kind_of n) k) (map f l)
  = option_map f (List.find (fun n => node_kind_eqb (node_kind_of n) k) l).
Proof.
  intros Hkind. induction l as [|n l IH]; cbn; [reflexivity|].
  rewrite Hkind. destruct (node_kind_eqb (node_kind_of n) k); [reflexivity|exact IH].
Qed.

Lemma find_kind_some (k : node_kind) (l : list node) (n : node) :
  List.find (fun n => node_kind_eqb (node_kind_of n) k) l = Some n ->
  node_kind_of n = k.
Proof.
  intros H. apply List.find_some in H as [_ H].
  destruct (node_kind_of n), k; (reflexivity || discriminate).
Qed.

(** [hideBanner] and [hideModal] return; they leave the stores, the
    console and the dispatched events alone, queue at most the removal of
    the element, hide the element they look up, and unhide nothing. *)
Lemma hide_hides (k : node_kind) (b : Browser) :
  runs (hide k) b (fun _ b' =>
    stores_kept b b' /\ console b' = console b /\ dispatched b' = dispatched b
    /\ no_retry_queued b b' /\ hidden k b'
    /\ forall k', hidden k' b -> hidden k' b').
Proof.
  unfold runs, hide, bind, getElementById.
  destruct (List.find _ (body b)) as [n0|] eqn:Hfind; cbn [fmap option_fmap option_map].
  - eexists _, _. split; [reflexivity|].
    split; [repeat split|]. split; [reflexivity|]. split; [reflexivity|]. split.
    { eexists. split; [reflexivity|]. repeat constructor. eexists. reflexivity. }
    assert (forall k' n,
              first_of_kind k' (with_timers (timers b ++ [(300, TaskRemoveNode (node_id n0))])
                 (with_body (map (fun n => if Nat.eqb (node_id n) (node_id n0)
                                           then mkNode (node_id n0) (node_kind_of n) false
                                           else n) (body b)) (next_node b) b)) = Some n ->
              exists m, first_of_kind k' b = Some m
                        /\ (node_visible n = false \/ (n = m /\ node_id m <> node_id n0)))
      as Himage.
    { intros k' n. unfold first_of_kind. cbn [body with_timers with_body].
      rewrite find_kind_map by (intros m; destruct (Nat.eqb _ _); reflexivity).
      destruct (List.find (fun n1 => node_kind_eqb (node_kind_of n1) k') (body b)) as [m|];
        cbn [option_map]; [|discriminate].
      intros Heq. injection Heq as Heq. subst n. exists m. split; [reflexivity|].
      destruct (Nat.eqb_spec (node_id m) (node_id n0));
        [left; reflexivity|right; split; [reflexivity|assumption]]. }
    split.
    + intros n Hn. destruct (Himage k n Hn) as (m & Hm & [Hv|[-> Hid]]); [exact Hv|].
      unfold first_of_kind in Hm. rewrite Hfind in Hm. injection Hm as <-. contradiction.
    + intros k' Hhidden n Hn.
      destruct (Himage k' n Hn) as (m & Hm & [Hv|[-> _]]); [exact Hv|].
      apply Hhidden, Hm.
  - eexists _, _. split; [reflexivity|].
    split; [repeat split|]. split; [reflexivity|]. split; [reflexivity|].
    split; [apply no_retry_queued_refl|]. split.
    + intros n Hn. unfold first_of_kind in Hn. rewrite Hfind in Hn. discriminate.
    + intros k' Hhidden. exact Hhidden.
Qed.

(** *** A save that succeeds *)

Lemma accepted_truthy (r : value) : accepted r = true -> truthy r = true.
Proof. unfold accepted. destruct (truthy r); [reflexivity|discriminate]. Qed.

Lemma getConsent_stored (r : value) (b : Browser) :
  consent_stored r b -> accepted r = true ->
  getConsent b = (Returned r, after_get CONSENT_COOKIE_NAME b).
Proof.
  intros [Hwf Hprimary] Haccepted. rewrite (getConsent_of_cookie _ r) by assumption.
  unfold validated. rewrite Haccepted. reflexivity.
Qed.

Lemma consent_stored_ext (r : value) (b b' : Browser) :
  cookie_jar b' = cookie_jar b -> consent_stored r b -> consent_stored r b'.
Proof. unfold consent_stored. intros ->. trivial. Qed.

Lemma loadScripts_stored (r : value) (b : Browser) :
  consent_stored r b -> accepted r = true ->
  exists b',
    loadScripts b = (Returned tt, b')
    /\ consent_stored r b' /\ dispatched b' = (dispatched b ++ broadcast r)%list
    /\ timers b' = timers b /\ body b' = body b
    /\ exists lines : list (level * string), console b' = (console b ++ lines)%list.
Proof.
  intros Hstored Haccepted.
  pose proof (getConsent_stored r b Hstored Haccepted) as Hget.
  pose proof (page_kept_after_get CONSENT_COOKIE_NAME b)
    as (_ & _ & _ & Hd & Ht & Hb & _ & Hc).
  eexists. split; [apply (loadScripts_from_consent _ _ _ Hget), accepted_truthy, Haccepted|].
  cbn [dispatched timers body console with_dispatched]. rewrite Hd, Ht, Hb.
  split; [|repeat split; exact Hc].
  apply (consent_stored_ext r b); [|exact Hstored]. apply cookie_jar_after_get.
Qed.

(** The success branch of the handlers: the interface is closed and the
    stored record broadcast. *)
Lemma close_and_broadcast (with_banner : bool) (r : value) (b : Browser) :
  consent_stored r b -> accepted r = true ->
  runs (let! _ := (if with_banner then hideBanner else ret tt) in
        let! _ := hideModal in loadScripts) b
       (fun _ b' =>
          consent_stored r b' /\ dispatched b' = (dispatched b ++ broadcast r)%list
          /\ no_retry_queued b b' /\ hidden ModalNode b'
          /\ (with_banner = true -> hidden BannerNode b')).
Proof.
  intros Hstored Haccepted.
  assert (runs (if with_banner then hideBanner else ret tt) b (fun _ b1 =>
            stores_kept b b1 /\ dispatched b1 = dispatched b /\ no_retry_queued b b1
            /\ (with_banner = true -> hidden BannerNode b1))) as Hfirst.
  { destruct with_banner.
    - eapply runs_weaken; [apply (hide_hides BannerNode)|].
      cbn beta. intros _ b1 (Hs & _ & Hd & Hq & Hh & _).
      split; [exact Hs|]. split; [exact Hd|]. split; [exact Hq|]. intros _. exact Hh.
    - apply runs_ret. split; [repeat split|]. split; [reflexivity|].
      split; [apply no_retry_queued_refl|discriminate]. }
  apply runs_bind. eapply runs_weaken; [exact Hfirst|].
  cbn beta. intros _ b1 ((Hjar1 & _) & Hd1 & Hq1 & Hb1).
  apply runs_bind. eapply runs_weaken; [apply (hide_hides ModalNode)|].
  cbn beta. intros _ b2 ((Hjar2 & _) & _ & Hd2 & Hq2 & Hm2 & Hkeep2).
  assert (consent_stored r b2) as Hstored2.
  { apply (consent_stored_ext r b); [congruence|exact Hstored]. }
  destruct (loadScripts_stored r b2 Hstored2 Haccepted)
    as (b3 & Hload & Hstored3 & Hd3 & Ht3 & Hb3 & _).
  exists tt, b3. split; [exact Hload|]. split; [exact Hstored3|].
  split; [rewrite Hd3, Hd2, Hd1; reflexivity|]. split.
  - eapply no_retry_queued_trans; [exact Hq1|].
    eapply no_retry_queued_trans; [exact Hq2|].
    exists []. split; [rewrite Ht3; symmetry; apply app_nil_r|constructor].
  - unfold hidden, first_of_kind in *. rewrite Hb3. split; [exact Hm2|].
    intros Hwith. apply Hkeep2, Hb1, Hwith.
Qed.

(** With a cookie store that takes the write, the save and the check
    that follows it succeed. *)
Lemma save_then_check (analytics marketing : bool) (b : Browser) :
  let data := consentData (clock b) (Some (VBool analytics)) (Some (VBool marketing)) in
  cookie_writes b = CookiesAccepted -> well_formed_jar (cookie_jar b) = true ->
  no_other_record CONSENT_COOKIE_NAME b ->
  cookie_round_trip data -> clock b <> EmptyString ->
  exists b1 b2,
    saveConsent (choice analytics marketing) b = (Returned data, b1)
    /\ hasConsent b1 = (Returned (Some (VStr (clock b))), b2)
    /\ consent_stored data b2 /\ page_kept b b2.
Proof.
  intros data Hw Hwf Hother Htrip Hclock.
  destruct (saveConsent_stores [("analytics", VBool analytics); ("marketing", VBool marketing)] b)
    as (b1 & Hsave & Hwf1 & Hprimary1 & _ & Hget1); try assumption.
  destruct (saveConsent_runs [("analytics", VBool analytics); ("marketing", VBool marketing)] b)
    as (r & b1' & Hsave' & _ & Hkept1 & _); [apply accepting_not_opaque_origin, Hw|].
  unfold choice in Hsave'. rewrite Hsave in Hsave'. injection Hsave' as _ <-.
  exists b1, (after_get CONSENT_COOKIE_NAME b1).
  split; [exact Hsave|]. split; [apply (hasConsent_from_consent _ _ _ Hget1)|]. split.
  - apply (consent_stored_ext data b1); [apply cookie_jar_after_get|split; assumption].
  - eapply page_kept_trans; [exact Hkept1|apply page_kept_after_get].
Qed.

Lemma clock_truthy (now : string) :
  now <> EmptyString -> truthy_opt (Some (VStr now)) = true.
Proof.
  intros Hnow. cbn. destruct (String.eqb_spec now EmptyString); [contradiction|reflexivity].
Qed.

Lemma broadcast_of_choice (now : string) (analytics marketing : bool) :
  let data := consentData now (Some (VBool analytics)) (Some (VBool marketing)) in
  broadcast data
  = ((if analytics then [("cookieConsent:analytics", data)] else [])
     ++ (if marketing then [("cookieConsent:marketing", data)] else [])
     ++ [("cookieConsent:necessary", data)])%list.
Proof. destruct analytics, marketing; reflexivity. Qed.

(** X1: "Accept all" with a cookie store that takes the write, when no
    cookie of the name that was set for another path or another domain
    reads as a record: the record with analytics and marketing [true] is
    what [getConsent()] returns afterwards, the three signals are
    dispatched in order with that record, the banner and the modal are
    hidden, and no retry is queued. *)
Theorem handleAcceptAll_saves_and_broadcasts (b : Browser) :
  let data := consentData (clock b) (Some (VBool true)) (Some (VBool true)) in
  cookie_writes b = CookiesAccepted -> well_formed_jar (cookie_jar b) = true ->
  no_other_record CONSENT_COOKIE_NAME b ->
  cookie_round_trip data -> clock b <> EmptyString ->
  exists b',
    handleAcceptAll b = (Returned tt, b')
    /\ fst (getConsent b') = Returned data
    /\ dispatched b'
       = (dispatched b ++ [("cookieConsent:analytics", data);
                           ("cookieConsent:marketing", data);
                           ("cookieConsent:necessary", data)])%list
    /\ no_retry_queued b b' /\ hidden BannerNode b' /\ hidden ModalNode b'.
Proof.
  intros data Hw Hwf Hother Htrip Hclock.
  destruct (save_then_check true true b Hw Hwf Hother Htrip Hclock)
    as (b1 & b2 & Hsave & Hhas & Hstored & Hkept).
  destruct (close_and_broadcast true data b2 Hstored eq_refl)
    as ([] & b' & Hclose & Hstored' & Hd & Hq & Hmodal & Hbanner).
  exists b'. split.
  - unfold handleAcceptAll, bind in *. rewrite Hsave, Hhas, (clock_truthy _ Hclock).
    exact Hclose.
  - split; [rewrite (getConsent_stored data b' Hstored' eq_refl); reflexivity|].
    pose proof Hkept as (_ & _ & _ & Hd2 & _).
    split; [rewrite Hd, Hd2; reflexivity|].
    split; [eapply no_retry_queued_trans; [apply no_retry_queued_kept, Hkept|exact Hq]|].
    split; [apply Hbanner; reflexivity|exact Hmodal].
Qed.

(** X2: "Reject" with a cookie store that takes the write, when no cookie
    of the name that was set for another path or another domain reads as
    a record: afterwards [getConsent()] returns the record with analytics
    and marketing [false], both category checks answer [false], and the
    only signal dispatched is [cookieConsent:necessary]. *)
Theorem handleReject_saves_and_broadcasts (b : Browser) :
  let data := consentData (clock b) (Some (VBool false)) (Some (VBool false)) in
  cookie_writes b = CookiesAccepted -> well_formed_jar (cookie_jar b) = true ->
  no_other_record CONSENT_COOKIE_NAME b ->
  cookie_round_trip data -> clock b <> EmptyString ->
  exists b',
    handleReject b = (Returned tt, b')
    /\ fst (getConsent b') = Returned data
    /\ fst (isCategoryAllowed "analytics" b') = Returned false
    /\ fst (isCategoryAllowed "marketing" b') = Returned false
    /\ dispatched b' = (dispatched b ++ [("cookieConsent:necessary", data)])%list
    /\ no_retry_queued b b' /\ hidden BannerNode b' /\ hidden ModalNode b'.
Proof.
  intros data Hw Hwf Hother Htrip Hclock.
  destruct (save_then_check false false b Hw Hwf Hother Htrip Hclock)
    as (b1 & b2 & Hsave & Hhas & Hstored & Hkept).
  destruct (close_and_broadcast true data b2 Hstored eq_refl)
    as ([] & b' & Hclose & Hstored' & Hd & Hq & Hmodal & Hbanner).
  pose proof (getConsent_stored data b' Hstored' eq_refl) as Hget.
  exists b'. split.
  - unfold handleReject, bind in *. rewrite Hsave, Hhas, (clock_truthy _ Hclock).
    exact Hclose.
  - split; [rewrite Hget; reflexivity|].
    split; [rewrite (isCategoryAllowed_from_consent _ _ _ _ Hget); reflexivity|].
    split; [rewrite (isCategoryAllowed_from_consent _ _ _ _ Hget); reflexivity|].
    pose proof Hkept as (_ & _ & _ & Hd2 & _).
    split; [rewrite Hd, Hd2; reflexivity|].
    split; [eapply no_retry_queued_trans; [apply no_retry_queued_kept, Hkept|exact Hq]|].
    split; [apply Hbanner; reflexivity|exact Hmodal].
Qed.

(** X3: "Save preferences" with a cookie store that takes the write, when
    no cookie of the name that was set for another path or another domain
    reads as a record: the record carries the two checkbox states,
    [getConsent()] returns it afterwards, a category signal is dispatched
    exactly for a checked box, then the necessary signal; the modal is
    hidden and no retry is queued. *)
Theorem handleSave_saves_and_broadcasts (analytics marketing : bool) (b : Browser) :
  let data := consentData (clock b) (Some (VBool analytics)) (Some (VBool marketing)) in
  cookie_writes b = CookiesAccepted -> well_formed_jar (cookie_jar b) = true ->
  no_other_record CONSENT_COOKIE_NAME b ->
  cookie_round_trip data -> clock b <> EmptyString ->
  exists b',
    handleSave analytics marketing b = (Returned tt, b')
    /\ fst (getConsent b') = Returned data
    /\ prop data "analytics" = Some (VBool analytics)
    /\ prop data "marketing" = Some (VBool marketing)
    /\ dispatched b'
       = (dispatched b
          ++ (if analytics then [("cookieConsent:analytics", data)] else [])
          ++ (if marketing then [("cookieConsent:marketing", data)] else [])
          ++ [("cookieConsent:necessary", data)])%list
    /\ no_retry_queued b b' /\ hidden ModalNode b'.
Proof.
  intros data Hw Hwf Hother Htrip Hclock.
  destruct (save_then_check analytics marketing b Hw Hwf Hother Htrip Hclock)
    as (b1 & b2 & Hsave & Hhas & Hstored & Hkept).
  destruct (close_and_broadcast false data b2 Hstored eq_refl)
    as ([] & b' & Hclose & Hstored' & Hd & Hq & Hmodal & _).
  exists b'. split.
  - unfold handleSave, bind in *. rewrite Hsave, Hhas, (clock_truthy _ Hclock).
    exact Hclose.
  - split; [rewrite (getConsent_stored data b' Hstored' eq_refl); reflexivity|].
    split; [destruct analytics; reflexivity|]. split; [destruct marketing; reflexivity|].
    pose proof Hkept as (_ & _ & _ & Hd2 & _).
    split; [rewrite Hd, Hd2; apply f_equal, broadcast_of_choice|].
    split; [eapply no_retry_queued_trans; [apply no_retry_queued_kept, Hkept|exact Hq]|].
    exact Hmodal.
Qed.

(** X4: A retry closure run when the cookie store takes writes again, and
    no cookie of the name that was set for another path or another domain
    reads as a record, completes the save it repeats: the record of the
    choice is stored and broadcast, the modal is hidden, and nothing
    further is queued but the removal of the elements. *)
Theorem retry_completes_the_save (t : task) (analytics marketing : bool) (b : Browser) :
  let data := consentData (clock b) (Some (VBool analytics)) (Some (VBool marketing)) in
  retried_choice t = Some (analytics, marketing) ->
  cookie_writes b = CookiesAccepted -> well_formed_jar (cookie_jar b) = true ->
  no_other_record CONSENT_COOKIE_NAME b ->
  cookie_round_trip data -> clock b <> EmptyString ->
  exists b',
    run_task t b = (Returned tt, b')
    /\ fst (getConsent b') = Returned data
    /\ dispatched b' = (dispatched b ++ broadcast data)%list
    /\ no_retry_queued b b' /\ hidden ModalNode b'.
Proof.
  intros data Hchoice Hw Hwf Hother Htrip Hclock.
  destruct (save_then_check analytics marketing b Hw Hwf Hother Htrip Hclock)
    as (b1 & b2 & Hsave & Hhas & Hstored & Hkept).
  assert (forall with_banner : bool,
            exists b' : Browser,
              bind (if with_banner then hideBanner else ret tt)
                   (fun _ => bind hideModal (fun _ => loadScripts)) b2 = (Returned tt, b')
                       /\ fst (getConsent b') = Returned data
                       /\ dispatched b' = (dispatched b ++ broadcast data)%list
                       /\ no_retry_queued b b' /\ hidden ModalNode b') as Hclose.
  { intros with_banner.
    destruct (close_and_broadcast with_banner data b2 Hstored eq_refl)
      as ([] & b' & Hclose & Hstored' & Hd & Hq & Hmodal & _).
    exists b'. split; [exact Hclose|].
    split; [rewrite (getConsent_stored data b' Hstored' eq_refl); reflexivity|].
    pose proof Hkept as (_ & _ & _ & Hd2 & _).
    split; [rewrite Hd, Hd2; reflexivity|].
    split; [eapply no_retry_queued_trans; [apply no_retry_queued_kept, Hkept|exact Hq]|].
    exact Hmodal. }
  destruct t as [id|id| | |a m]; try discriminate; injection Hchoice as <- <-.
  - destruct (Hclose true) as (b' & Hrun & Hrest). exists b'. split; [|exact Hrest].
    cbn [run_task]. unfold retryAcceptAll, bind in *.
    rewrite Hsave, Hhas, (clock_truthy _ Hclock). exact Hrun.
  - destruct (Hclose true) as (b' & Hrun & Hrest). exists b'. split; [|exact Hrest].
    cbn [run_task]. unfold retryReject, bind in *.
    rewrite Hsave, Hhas, (clock_truthy _ Hclock). exact Hrun.
  - destruct (Hclose false) as (b' & Hrun & Hrest). exists b'. split; [|exact Hrest].
    cbn [run_task]. unfold retrySave, bind in *.
    rewrite Hsave, Hhas, (clock_truthy _ Hclock). exact Hrun.
Qed.

(** *** What [saveConsent] builds and returns *)

(** X5: In a document whose cookie store does not throw, [saveConsent] on
    any object returns a record whose necessary field is [true], whose
    version is the configured one and whose timestamp is the clock's,
    whatever the argument holds under those names; a category is kept as
    given when truthy and is [false] when missing or falsy; the record
    passes the tests of [getConsent]. *)
Theorem saveConsent_builds_a_valid_record (fields : list (string * value)) (b : Browser) :
  let kept category :=
    match lookup_prop category fields with
    | Some v => if truthy v then v else VBool false
    | None => VBool false
    end in
  cookie_writes b <> CookiesThrow ->
  exists r b',
    saveConsent (VObj fields) b = (Returned r, b')
    /\ prop r "necessary" = Some (VBool true)
    /\ prop r "version" = Some (VStr CONSENT_VERSION)
    /\ prop r "timestamp" = Some (VStr (clock b))
    /\ prop r "analytics" = Some (kept "analytics")
    /\ prop r "marketing" = Some (kept "marketing")
    /\ accepted r = true.
Proof.
  intros kept Hreads.
  destruct (saveConsent_runs fields b) as (r & b' & Hsave & -> & _);
    [apply not_opaque_origin_writes, Hreads|].
  eexists _, b'. split; [exact Hsave|]. repeat split.
Qed.

(** X6: When the cookie store ignores the write, [localStorage] does not
    take it and nothing was stored before, [saveConsent] still returns
    the record it built; it leaves the warning on the console, and
    [getConsent()] stays [null]. *)
Theorem saveConsent_returns_what_it_could_not_store (fields : list (string * value))
    (b : Browser) :
  let data := consentData (clock b) (lookup_prop "analytics" fields)
                          (lookup_prop "marketing" fields) in
  cookie_writes b = CookiesIgnored -> storage_access b <> StorageAvailable ->
  nothing_stored b ->
  exists b',
    saveConsent (VObj fields) b = (Returned data, b')
    /\ In (Warn, "Cookie consent may not have been saved correctly") (console b')
    /\ fst (getConsent b') = Returned VNull
    /\ fst (hasConsent b') = Returned (Some (VBool false)).
Proof.
  intros data Hw Hs Hnone.
  set (b1 := after_set CONSENT_COOKIE_NAME data CONSENT_EXPIRY_DAYS b).
  assert (nothing_stored b1) as Hnone1.
  { apply (nothing_stored_ext b); [..|exact Hnone].
    - apply cookie_jar_after_set_refused. rewrite Hw. discriminate.
    - apply storage_after_set.
    - destruct (storage_after_set CONSENT_COOKIE_NAME data CONSENT_EXPIRY_DAYS b)
        as (_ & _ & Hls).
      unfold b1. rewrite Hls. destruct (storage_access b); [contradiction|reflexivity..]. }
  pose proof (nothing_stored_after_get b1 Hnone1) as Hnone2.
  pose proof Hnone1 as (Hwf1 & Hprimary1 & Hfallback1).
  assert (opaque_origin b = false) as Hreadable.
  { apply not_opaque_origin_writes. rewrite Hw. discriminate. }
  eexists. split; [apply saveConsent_run; [exact Hreadable|exact Hwf1]|].
  fold data. fold b1. unfold stored_record. rewrite Hprimary1, Hfallback1.
  cbn [truthy negb orb].
  split; [cbn [console warned with_console]; apply in_or_app; right; left; reflexivity|].
  assert (nothing_stored (warned 1 "Cookie consent may not have been saved correctly"
                                 (after_get CONSENT_COOKIE_NAME b1))) as Hnone3.
  { revert Hnone2. apply nothing_stored_ext; reflexivity. }
  destruct (getConsent_nothing_stored _ Hnone3) as [-> ->]. split; reflexivity.
Qed.

(** X25: In a document of an opaque origin, where reading
    [document.cookie] throws, [saveConsent] attempts both writes, logs
    the two failures and throws [SecurityError] at its read-back, which
    is outside any [try].
    [handleAcceptAll], [handleReject] and [handleSave] throw with it,
    before they hide an element, dispatch a signal or queue a retry;
    [getConsent()] is [null] afterwards. *)
Theorem saveConsent_throws_on_an_opaque_origin (fields : list (string * value))
    (analytics marketing : bool) (b : Browser) :
  opaque_origin b = true ->
  (exists b1,
     saveConsent (VObj fields) b = (Thrown SecurityError, b1)
     /\ console b1
        = (console b ++ [(Warn, "Error setting cookie:");
                         (Warn, "Error setting localStorage:")])%list)
  /\ forall handler : JS unit,
       In handler [handleAcceptAll; handleReject; handleSave analytics marketing] ->
       exists b2,
         handler b = (Thrown SecurityError, b2)
         /\ dispatched b2 = dispatched b /\ timers b2 = timers b /\ body b2 = body b
         /\ fst (getConsent b2) = Returned VNull.
Proof.
  intros Hs.
  assert (forall given : list (string * value),
            let b1 := after_set CONSENT_COOKIE_NAME
                        (consentData (clock b) (lookup_prop "analytics" given)
                                     (lookup_prop "marketing" given))
                        CONSENT_EXPIRY_DAYS b in
            saveConsent (VObj given) b = (Thrown SecurityError, b1)
            /\ console b1
               = (console b ++ [(Warn, "Error setting cookie:");
                                (Warn, "Error setting localStorage:")])%list
            /\ dispatched b1 = dispatched b /\ timers b1 = timers b /\ body b1 = body b
            /\ fst (getConsent b1) = Returned VNull) as Hsave.
  { intros given b1. split; [apply (saveConsent_opaque_origin given b Hs)|].
    destruct (proj1 (opaque_origin_policies b) Hs) as [Hw Hd].
    split.
    { unfold b1, after_set. rewrite Hw, Hd. cbn [console warned with_console replicate].
      rewrite <- app_assoc. reflexivity. }
    pose proof (page_kept_after_set CONSENT_COOKIE_NAME
                  (consentData (clock b) (lookup_prop "analytics" given)
                               (lookup_prop "marketing" given)) CONSENT_EXPIRY_DAYS b)
      as Hkept.
    pose proof Hkept as (_ & _ & _ & Hdispatched & Htimers & Hbody & _).
    split; [exact Hdispatched|]. split; [exact Htimers|]. split; [exact Hbody|].
    rewrite getConsent_opaque_origin; [reflexivity|].
    exact (eq_trans (opaque_origin_kept _ _ Hkept) Hs). }
  split.
  - destruct (Hsave fields) as (Hrun & Hconsole & _). eexists. split; [exact Hrun|exact Hconsole].
  - intros handler [<-|[<-|[<-|[]]]];
      [destruct (Hsave [("analytics", VBool true); ("marketing", VBool true)])
         as (Hrun & _ & Hrest)
      |destruct (Hsave [("analytics", VBool false); ("marketing", VBool false)])
         as (Hrun & _ & Hrest)
      |destruct (Hsave [("analytics", VBool analytics); ("marketing", VBool marketing)])
         as (Hrun & _ & Hrest)];
      (eexists; split; [|exact Hrest]);
      unfold handleAcceptAll, handleReject, handleSave, bind, choice; rewrite Hrun; reflexivity.
Qed.

(** X7: [loadScripts] on every browser: nothing is dispatched when
    [getConsent()] is [null]; otherwise the record is one that passed the
    tests of [getConsent], and what is dispatched is its broadcast: a
    category signal only for a truthy field, then the necessary signal,
    each with that record. *)
Theorem loadScripts_broadcasts_only_valid_consent (b : Browser) :
  exists r b0 b',
    getConsent b = (Returned r, b0)
    /\ loadScripts b = (Returned tt, b')
    /\ ((r = VNull /\ dispatched b' = dispatched b)
        \/ (accepted r = true
            /\ dispatched b'
               = (dispatched b
                  ++ (if truthy_opt (prop r "analytics")
                      then [("cookieConsent:analytics", r)] else [])
                  ++ (if truthy_opt (prop r "marketing")
                      then [("cookieConsent:marketing", r)] else [])
                  ++ [("cookieConsent:necessary", r)])%list)).
Proof.
  destruct (getConsent_kept b) as (r & b0 & Hget & [Hkept _] & stored & Hr & _).
  pose proof Hkept as (_ & _ & _ & Hd & _).
  unfold validated in Hr. destruct (accepted stored) eqn:Haccepted; subst r.
  - eexists stored, b0, _. split; [exact Hget|].
    split; [apply (loadScripts_from_consent _ _ _ Hget), accepted_truthy, Haccepted|].
    right. split; [exact Haccepted|].
    cbn [dispatched with_dispatched]. rewrite Hd. unfold optional_signals.
    rewrite <- app_assoc. reflexivity.
  - exists VNull, b0, b0. split; [exact Hget|]. split.
    + unfold loadScripts, bind. rewrite Hget. reflexivity.
    + left. split; [reflexivity|exact Hd].
Qed.

(** *** Erasing, and reading after the cookie is gone *)

Lemma after_remove_twice (name : string) (b : Browser) :
  after_remove name (after_remove name b) = after_remove name b.
Proof.
  unfold after_remove, cookie_jar, opaque_origin.
  destruct (cookie_writes b) eqn:Hw, (storage_access b) eqn:Hs;
    cbn [cookie_writes storage_access origin_cookies local_storage host
         with_cookie_jar with_local_storage];
    rewrite ?Hw, ?Hs; try reflexivity;
    unfold with_local_storage, with_cookie_jar; cbn;
    rewrite ?delete_cookie_twice, ?delete_delete_eq; reflexivity.
Qed.

(** X8: [CookieUtils.remove] never throws, and a second removal right after
    changes nothing.  A cookie store that takes the assignment loses the
    cookie of that name that was set for the host of the page and the
    path [/], and keeps every other cookie, a cookie of that name set for
    another path or another domain included; a [localStorage] that can be
    reached loses the key and keeps every other key. *)
Theorem CookieUtils_remove_erases_only_the_key (name : string) (b : Browser) :
  exists b1,
    CookieUtils_remove name b = (Returned tt, b1)
    /\ CookieUtils_remove name b1 = (Returned tt, b1)
    /\ (cookie_writes b = CookiesAccepted ->
        forall c, In c (cookie_jar b1)
                  <-> In c (cookie_jar b) /\ addressed name (host b) c = false)
    /\ (storage_access b <> StorageDenied ->
        local_storage b1 !! name = None
        /\ forall k, k <> name -> local_storage b1 !! k = local_storage b !! k).
Proof.
  exists (after_remove name b). rewrite !CookieUtils_remove_run.
  split; [reflexivity|]. split; [|split].
  - f_equal. apply after_remove_twice.
  - intros Hw c. rewrite cookie_jar_after_remove by exact Hw. apply in_delete_cookie.
  - intros Hs. unfold after_remove.
    destruct (storage_access b); [..|contradiction];
      destruct (cookie_writes b); cbn [local_storage with_cookie_jar with_local_storage];
      (split; [apply lookup_delete_eq|intros k Hk; apply lookup_delete_ne; congruence]).
Qed.

(** X9: Repair-on-read at work: after a read that found the record in the
    cookie and wrote it to a working [localStorage], a read made once the
    cookie is gone still returns the record. *)
Theorem read_after_the_cookie_is_gone (name : string) (v : value) (b : Browser) :
  well_formed_jar (cookie_jar b) = true -> occurs "=" name = false ->
  primary_record name (cookie_jar b) = Some v ->
  storage_access b = StorageAvailable -> storage_round_trip v ->
  exists b1,
    CookieUtils_get name b = (Returned v, b1)
    /\ fst (CookieUtils_get name (with_cookie_jar (drop_cookie name (cookie_jar b1)) b1))
       = Returned v.
Proof.
  intros Hwf Hname Hprimary Hs [Hnonempty Hparse].
  pose proof (seen_not_opaque_origin _ _ _ Hprimary) as Hreadable.
  assert (opaque_origin (after_get name b) = false) as Hreadable1.
  { rewrite (opaque_origin_kept _ _ (page_kept_after_get name b)). exact Hreadable. }
  set (b2 := with_cookie_jar (drop_cookie name (cookie_jar (after_get name b)))
                             (after_get name b)).
  assert (opaque_origin b2 = false) as Hreadable2.
  { rewrite <- Hreadable1. apply opaque_origin_ext; reflexivity. }
  assert (cookie_jar b2 = drop_cookie name (cookie_jar b)) as Hjar2.
  { unfold b2. rewrite cookie_jar_with_cookie_jar by exact Hreadable1.
    rewrite cookie_jar_after_get. reflexivity. }
  exists (after_get name b). split.
  - rewrite CookieUtils_get_run by assumption. unfold stored_record. rewrite Hprimary.
    reflexivity.
  - fold b2. rewrite CookieUtils_get_run;
      [|exact Hreadable2|rewrite Hjar2; apply well_formed_jar_drop, Hwf|exact Hname].
    cbn [fst]. f_equal. unfold stored_record, fallback_record.
    rewrite Hjar2, primary_record_dropped.
    assert (storage_access b2 = StorageAvailable) as ->.
    { transitivity (storage_access b); [|exact Hs].
      apply (page_kept_after_get name b). }
    assert (local_storage b2 = <[name := JSON_stringify v]> (local_storage b)) as ->.
    { unfold b2, after_get. rewrite Hprimary. unfold mirrored.
      cbn [storage_access local_storage warned with_console with_cookie_jar]. rewrite Hs.
      reflexivity. }
    rewrite lookup_insert_eq.
    destruct (String.eqb_spec (JSON_stringify v) EmptyString); [contradiction|].
    rewrite Hparse. reflexivity.
Qed.

(** *** Elements: hiding, removing, showing twice *)

Lemma filter_after_hiding (id : nat) (vis : bool) (l : list node) :
  List.filter (fun m => negb (Nat.eqb (node_id m) id))
    (map (fun n => if Nat.eqb (node_id n) id then mkNode id (node_kind_of n) vis else n) l)
  = List.filter (fun m => negb (Nat.eqb (node_id m) id)) l.
Proof.
  induction l as [|n l IH]; cbn; [reflexivity|].
  destruct (Nat.eqb (node_id n) id) eqn:Hid; cbn.
  - rewrite Nat.eqb_refl. exact IH.
  - rewrite Hid. cbn. rewrite IH. reflexivity.
Qed.

(** X10: [hideBanner] and [hideModal]: with no such element in the body the
    call changes nothing.  Otherwise the element found loses its
    visibility and its removal is queued, 300 ms later; once that has
    run, the element is gone and every other element is as it was before
    the call. *)
Theorem hide_then_removal (k : node_kind) (b : Browser) :
  match first_of_kind k b with
  | None => hide k b = (Returned tt, b)
  | Some n =>
      exists b1 b2,
        hide k b = (Returned tt, b1)
        /\ timers b1 = (timers b ++ [(300, TaskRemoveNode (node_id n))])%list
        /\ hidden k b1
        /\ run_task (TaskRemoveNode (node_id n)) b1 = (Returned tt, b2)
        /\ body b2 = List.filter (fun m => negb (Nat.eqb (node_id m) (node_id n))) (body b)
  end.
Proof.
  destruct (hide_hides k b) as ([] & b1 & Hhide & _ & _ & _ & _ & Hhidden & _).
  revert Hhide. unfold first_of_kind, hide, bind, getElementById.
  destruct (List.find _ (body b)) as [n|]; cbn [fmap option_fmap option_map].
  - intros Hhide. injection Hhide as <-. eexists _, _. split; [reflexivity|].
    split; [reflexivity|]. split; [exact Hhidden|]. split; [reflexivity|].
    cbn [body with_body with_timers]. apply filter_after_hiding.
  - intros _. reflexivity.
Qed.

Lemma nodes_unchanged (id : nat) (vis : bool) (l : list node) :
  Forall (fun n => node_id n <> id) l ->
  map (fun n => if Nat.eqb (node_id n) id then mkNode id (node_kind_of n) vis else n) l = l
  /\ List.filter (fun m => negb (Nat.eqb (node_id m) id)) l = l.
Proof.
  induction 1 as [|n l Hn _ [IHmap IHfilter]]; cbn; [split; reflexivity|].
  destruct (Nat.eqb_spec (node_id n) id); [contradiction|]. cbn.
  rewrite IHmap, IHfilter. split; reflexivity.
Qed.

Lemma find_kind_app_none (k : node_kind) (l l' : list node) :
  List.find (fun n => node_kind_eqb (node_kind_of n) k) l = None ->
  List.find (fun n => node_kind_eqb (node_kind_of n) k) (l ++ l')
  = List.find (fun n => node_kind_eqb (node_kind_of n) k) l'.
Proof.
  induction l as [|n l IH]; cbn; [reflexivity|].
  destruct (node_kind_eqb (node_kind_of n) k); [discriminate|exact IH].
Qed.

(** [showBanner] with nothing stored: the browser it leaves. *)
Lemma showBanner_appends (b : Browser) :
  nothing_stored b ->
  let b0 := after_getConsent b in
  showBanner b
  = (Returned tt,
     with_timers (timers b0 ++ [(100, TaskShowNode (next_node b0))])
       (with_body (body b0 ++ [mkNode (next_node b0) BannerNode false])
                  (S (next_node b0)) b0))
  /\ body b0 = body b /\ next_node b0 = next_node b /\ timers b0 = timers b
  /\ dispatched b0 = dispatched b.
Proof.
  intros Hnone b0. destruct (getConsent_nothing_stored b Hnone) as [_ Hhas].
  pose proof (page_kept_after_getConsent b)
    as (_ & _ & _ & Hd & Ht & Hb & Hn & _).
  split; [|repeat split; assumption].
  unfold showBanner, bind. rewrite Hhas. reflexivity.
Qed.

(** X11: [showBanner] does not look for a banner already in the body: with
    nothing stored, two calls in a row append two banners.  After both
    have faded in, [hideBanner] hides the first one only, and once its
    removal has run the second banner is still in the body, visible. *)
Theorem showBanner_twice_leaves_a_banner (b : Browser) :
  nothing_stored b -> first_of_kind BannerNode b = None ->
  Forall (fun n => node_id n < next_node b) (body b) ->
  let first := next_node b in
  let second := S (next_node b) in
  exists b1 b2 b3 b4 b5 b6,
    showBanner b = (Returned tt, b1)
    /\ showBanner b1 = (Returned tt, b2)
    /\ body b2 = (body b ++ [mkNode first BannerNode false;
                             mkNode second BannerNode false])%list
    /\ run_task (TaskShowNode first) b2 = (Returned tt, b3)
    /\ run_task (TaskShowNode second) b3 = (Returned tt, b4)
    /\ hideBanner b4 = (Returned tt, b5)
    /\ timers b5 = (timers b4 ++ [(300, TaskRemoveNode first)])%list
    /\ run_task (TaskRemoveNode first) b5 = (Returned tt, b6)
    /\ body b6 = (body b ++ [mkNode second BannerNode true])%list.
Proof.
  intros Hnone Hnobanner Hfresh first second.
  destruct (showBanner_appends b Hnone) as (Hshow1 & Hb0 & Hn0 & _).
  set (b1 := with_timers _ _) in Hshow1.
  assert (nothing_stored b1) as Hnone1.
  { apply (nothing_stored_ext (after_getConsent b));
      [reflexivity..|apply nothing_stored_after_getConsent, Hnone]. }
  destruct (showBanner_appends b1 Hnone1) as (Hshow2 & Hb1 & Hn1 & _).
  set (b2 := with_timers _ _) in Hshow2.
  assert (body b2 = (body b ++ [mkNode first BannerNode false;
                                mkNode second BannerNode false])%list) as Hbody2.
  { unfold b2. cbn [body with_timers with_body]. rewrite Hb1, Hn1. unfold b1.
    cbn [body next_node with_timers with_body]. rewrite Hb0, Hn0, <- app_assoc.
    reflexivity. }
  assert (Forall (fun n => node_id n <> first) (body b)
          /\ Forall (fun n => node_id n <> second) (body b)) as [Hfirst Hsecond].
  { split; (eapply Forall_impl; [exact Hfresh|]);
      cbn beta; unfold first, second; intros n Hn; lia. }
  destruct (nodes_unchanged first true _ Hfirst) as [Hmap1 _].
  destruct (nodes_unchanged second true _ Hsecond) as [Hmap2 _].
  destruct (nodes_unchanged first false _ Hfirst) as [Hmap3 Hfilter].
  assert (Nat.eqb second first = false) as Hne by (apply Nat.eqb_neq; unfold second, first; lia).
  assert (Nat.eqb first second = false) as Hne' by (apply Nat.eqb_neq; unfold second, first; lia).
  eexists b1, b2, _, _, _, _.
  split; [exact Hshow1|]. split; [exact Hshow2|]. split; [exact Hbody2|].
  split; [reflexivity|]. split; [reflexivity|].
  cbn [run_task]. unfold set_visible. cbn [body next_node with_body snd].
  rewrite Hbody2, !map_app, Hmap1, Hmap2. cbn [map node_id node_kind_of].
  repeat (rewrite ?Nat.eqb_refl, ?Hne, ?Hne'; cbn [node_id node_kind_of]).
  unfold hideBanner, hide, bind, getElementById. cbn [body with_body].
  rewrite (find_kind_app_none BannerNode _ _ Hnobanner).
  cbn [List.find node_kind_of node_kind_eqb fmap option_fmap option_map node_id].
  split; [reflexivity|]. split; [reflexivity|]. split; [reflexivity|].
  unfold remove_node, set_visible. cbn [body with_body with_timers fst snd].
  rewrite map_app, Hmap3, List.filter_app, Hfilter. cbn [map List.filter node_id].
  repeat (rewrite ?Nat.eqb_refl, ?Hne, ?Hne'; cbn [node_id node_kind_of negb List.filter]).
  reflexivity.
Qed.

(** X12: [reset()] with a cookie store that takes the deleting assignment,
    when no cookie of the name that was set for another path or another
    domain reads as a record: whatever the widget had stored,
    [getConsent()] is [null] afterwards, one banner is appended and its
    fade-in queued, and no signal is dispatched. *)
Theorem reset_shows_the_banner_again (b : Browser) :
  cookie_writes b = CookiesAccepted -> well_formed_jar (cookie_jar b) = true ->
  no_other_record CONSENT_COOKIE_NAME b ->
  exists b',
    reset b = (Returned tt, b')
    /\ fst (getConsent b') = Returned VNull
    /\ body b' = (body b ++ [mkNode (next_node b) BannerNode false])%list
    /\ timers b' = (timers b ++ [(100, TaskShowNode (next_node b))])%list
    /\ dispatched b' = dispatched b.
Proof.
  intros Hw Hwf Hother.
  pose proof (nothing_stored_after_remove b Hw Hwf Hother) as Hnone.
  destruct (showBanner_appends _ Hnone) as (Hshow & Hb & Hn & Ht & Hd).
  set (b' := with_timers _ _) in Hshow.
  assert (nothing_stored b') as Hnone'.
  { apply (nothing_stored_ext (after_getConsent (after_remove CONSENT_COOKIE_NAME b)));
      [reflexivity..|apply nothing_stored_after_getConsent, Hnone]. }
  assert (body (after_remove CONSENT_COOKIE_NAME b) = body b
          /\ next_node (after_remove CONSENT_COOKIE_NAME b) = next_node b
          /\ timers (after_remove CONSENT_COOKIE_NAME b) = timers b
          /\ dispatched (after_remove CONSENT_COOKIE_NAME b) = dispatched b)
    as (Hb' & Hn' & Ht' & Hd').
  { unfold after_remove. destruct (cookie_writes b), (storage_access b); repeat split. }
  exists b'. split; [unfold reset, bind; rewrite CookieUtils_remove_run; exact Hshow|].
  destruct (getConsent_nothing_stored b' Hnone') as [-> _].
  split; [reflexivity|]. unfold b'. cbn [body timers dispatched with_timers with_body].
  rewrite Hb, Hn, Ht, Hd, Hb', Hn', Ht', Hd'. repeat split.
Qed.

(** *** [init] *)

Lemma on_browser_run {A} (m : JS A) (p : Page) (o : outcome A) (b' : Browser) :
  m (browser p) = (o, b') -> on_browser m p = (o, with_browser b' p).
Proof. intros H. unfold on_browser. rewrite H. reflexivity. Qed.

(** [showBanner] when [hasConsent()] is falsy, whatever the reason. *)
Lemma showBanner_without_consent (b b0 : Browser) (consented : option value) :
  hasConsent b = (Returned consented, b0) -> truthy_opt consented = false ->
  showBanner b
  = (Returned tt,
     with_timers (timers b0 ++ [(100, TaskShowNode (next_node b0))])
       (with_body (body b0 ++ [mkNode (next_node b0) BannerNode false])
                  (S (next_node b0)) b0)).
Proof. intros Hhas Hfalsy. unfold showBanner, bind. rewrite Hhas, Hfalsy. reflexivity. Qed.

(** X13: [init] on a first visit, with nothing stored: nothing is dispatched
    and nothing drawn; one re-check is queued, 100 ms later.  The
    re-check appends one banner and queues its fade-in; it dispatches
    nothing either. *)
Theorem init_on_a_first_visit (p : Page) :
  nothing_stored (browser p) ->
  exists p1 p2,
    init p = (Returned tt, p1)
    /\ later p1 = (later p ++ [(100, CallbackInitRecheck)])%list
    /\ body (browser p1) = body (browser p)
    /\ timers (browser p1) = timers (browser p)
    /\ dispatched (browser p1) = dispatched (browser p)
    /\ run_callback CallbackInitRecheck p1 = (Returned tt, p2)
    /\ later p2 = later p1
    /\ body (browser p2)
       = (body (browser p) ++ [mkNode (next_node (browser p)) BannerNode false])%list
    /\ timers (browser p2)
       = (timers (browser p) ++ [(100, TaskShowNode (next_node (browser p)))])%list
    /\ dispatched (browser p2) = dispatched (browser p).
Proof.
  intros Hnone. set (b := browser p) in *.
  destruct (getConsent_nothing_stored b Hnone) as [Hget _].
  set (b1 := after_getConsent b) in *.
  pose proof (nothing_stored_after_getConsent b Hnone) as Hnone1. fold b1 in Hnone1.
  destruct (getConsent_nothing_stored b1 Hnone1) as [_ Hhas1].
  set (b2 := after_getConsent b1) in *.
  pose proof (nothing_stored_after_getConsent b1 Hnone1) as Hnone2. fold b2 in Hnone2.
  destruct (getConsent_nothing_stored b2 Hnone2) as [_ Hhas2].
  set (b3 := after_getConsent b2) in *.
  pose proof (nothing_stored_after_getConsent b2 Hnone2) as Hnone3. fold b3 in Hnone3.
  destruct (showBanner_appends b3 Hnone3) as (Hshow & Hb4 & Hn4 & Ht4 & Hd4).
  pose proof (page_kept_after_getConsent b) as (_ & _ & _ & Hd1 & Ht1 & Hb1 & Hn1 & _).
  pose proof (page_kept_after_getConsent b1)
    as (_ & _ & _ & Hd2 & Ht2 & Hb2 & Hn2 & _).
  pose proof (page_kept_after_getConsent b2)
    as (_ & _ & _ & Hd3 & Ht3 & Hb3 & Hn3 & _).
  fold b1 in Hd1, Ht1, Hb1, Hn1. fold b2 in Hd2, Ht2, Hb2, Hn2. fold b3 in Hd3, Ht3, Hb3, Hn3.
  eexists _, _. split.
  { unfold init, page_bind. rewrite (on_browser_run _ _ _ _ Hget).
    cbn [browser with_browser]. rewrite (on_browser_run _ (with_browser b1 p) _ _ Hhas1).
    reflexivity. }
  cbn [later browser page_setTimeout with_browser].
  split; [reflexivity|]. split; [congruence|]. split; [congruence|]. split; [congruence|].
  split.
  { cbn [run_callback]. unfold page_bind.
    erewrite on_browser_run by (cbn [browser]; exact Hhas2).
    cbn [truthy_opt truthy negb]. apply on_browser_run. cbn [browser with_browser].
    exact Hshow. }
  cbn [later browser with_browser body timers dispatched with_timers with_body].
  split; [reflexivity|]. rewrite Hb4, Hn4, Ht4, Hd4.
  split; [congruence|]. split; congruence.
Qed.

Lemma hasConsent_of_accepted (r : value) (b b' : Browser) :
  getConsent b = (Returned r, b') -> accepted r = true ->
  hasConsent b = (Returned (prop r "timestamp"), b').
Proof.
  intros Hget Haccepted. rewrite (hasConsent_from_consent _ _ _ Hget).
  unfold accepted in Haccepted.
  destruct r; cbn in Haccepted |- *;
    rewrite ?andb_false_r in Haccepted; try discriminate; reflexivity.
Qed.

(** X14: [init] on a later visit, with a stored record that passes the tests
    of [getConsent] and carries a timestamp: the record is broadcast at
    once; no re-check is queued and nothing is drawn. *)
Theorem init_with_consent_broadcasts (r : value) (p : Page) :
  consent_stored r (browser p) -> accepted r = true ->
  truthy_opt (prop r "timestamp") = true ->
  exists p',
    init p = (Returned tt, p')
    /\ dispatched (browser p') = (dispatched (browser p) ++ broadcast r)%list
    /\ later p' = later p
    /\ body (browser p') = body (browser p)
    /\ timers (browser p') = timers (browser p).
Proof.
  intros Hstored Haccepted Hstamp. set (b := browser p) in *.
  pose proof (getConsent_stored r b Hstored Haccepted) as Hget.
  set (b1 := after_get CONSENT_COOKIE_NAME b) in *.
  assert (consent_stored r b1) as Hstored1
    by (apply (consent_stored_ext r b); [apply cookie_jar_after_get|exact Hstored]).
  pose proof (hasConsent_of_accepted r b1 _ (getConsent_stored r b1 Hstored1 Haccepted) Haccepted)
    as Hhas1.
  set (b2 := after_get CONSENT_COOKIE_NAME b1) in *.
  assert (consent_stored r b2) as Hstored2
    by (apply (consent_stored_ext r b1); [apply cookie_jar_after_get|exact Hstored1]).
  destruct (loadScripts_stored r b2 Hstored2 Haccepted)
    as (b3 & Hload & _ & Hd3 & Ht3 & Hb3 & _).
  pose proof (page_kept_after_get CONSENT_COOKIE_NAME b) as (_ & _ & _ & Hd1 & Ht1 & Hb1 & _).
  pose proof (page_kept_after_get CONSENT_COOKIE_NAME b1) as (_ & _ & _ & Hd2 & Ht2 & Hb2 & _).
  fold b1 in Hd1, Ht1, Hb1. fold b2 in Hd2, Ht2, Hb2.
  exists (with_browser b3 p). split.
  { unfold init, page_bind. rewrite (on_browser_run _ _ _ _ Hget).
    erewrite on_browser_run by (cbn [browser with_browser]; exact Hhas1).
    rewrite (accepted_truthy r Haccepted), Hstamp. cbn [negb orb].
    erewrite on_browser_run by (cbn [browser with_browser]; exact Hload). reflexivity. }
  cbn [browser later with_browser].
  split; [congruence|]. split; [reflexivity|]. split; congruence.
Qed.

(** X15: A stored record that passes the tests of [getConsent] but has no
    truthy timestamp: [getConsent()] returns it and the category checks
    answer from it, yet [hasConsent()] is falsy, so [init] broadcasts
    nothing and its re-check shows the banner. *)
Theorem init_without_timestamp_shows_the_banner (r : value) (p : Page) :
  consent_stored r (browser p) -> accepted r = true ->
  truthy_opt (prop r "timestamp") = false ->
  exists p1 p2,
    init p = (Returned tt, p1)
    /\ later p1 = (later p ++ [(100, CallbackInitRecheck)])%list
    /\ dispatched (browser p1) = dispatched (browser p)
    /\ run_callback CallbackInitRecheck p1 = (Returned tt, p2)
    /\ body (browser p2)
       = (body (browser p) ++ [mkNode (next_node (browser p)) BannerNode false])%list
    /\ dispatched (browser p2) = dispatched (browser p)
    /\ fst (getConsent (browser p2)) = Returned r
    /\ forall category,
         fst (isCategoryAllowed category (browser p2))
         = Returned (String.eqb category CATEGORIES_NECESSARY
                     || strict_eq_true (prop r category)).
Proof.
  intros Hstored Haccepted Hstamp. set (b := browser p) in *.
  assert (forall x, consent_stored r x ->
            getConsent x = (Returned r, after_get CONSENT_COOKIE_NAME x)
            /\ hasConsent x = (Returned (prop r "timestamp"), after_get CONSENT_COOKIE_NAME x)
            /\ consent_stored r (after_get CONSENT_COOKIE_NAME x)) as Hstep.
  { intros x Hx. pose proof (getConsent_stored r x Hx Haccepted) as Hget.
    split; [exact Hget|]. split; [apply (hasConsent_of_accepted r x _ Hget Haccepted)|].
    apply (consent_stored_ext r x); [apply cookie_jar_after_get|exact Hx]. }
  destruct (Hstep b Hstored) as (Hget & _ & Hstored1).
  set (b1 := after_get CONSENT_COOKIE_NAME b) in *.
  destruct (Hstep b1 Hstored1) as (_ & Hhas1 & Hstored2).
  set (b2 := after_get CONSENT_COOKIE_NAME b1) in *.
  destruct (Hstep b2 Hstored2) as (_ & Hhas2 & Hstored3).
  set (b3 := after_get CONSENT_COOKIE_NAME b2) in *.
  destruct (Hstep b3 Hstored3) as (_ & Hhas3 & Hstored4).
  set (b4 := after_get CONSENT_COOKIE_NAME b3) in *.
  pose proof (showBanner_without_consent b3 b4 _ Hhas3 Hstamp) as Hshow.
  set (b5 := with_timers _ _) in Hshow.
  assert (consent_stored r b5) as Hstored5
    by (apply (consent_stored_ext r b4); [reflexivity|exact Hstored4]).
  pose proof (page_kept_after_get CONSENT_COOKIE_NAME b) as (_ & _ & _ & Hd1 & _ & Hb1 & Hn1 & _).
  pose proof (page_kept_after_get CONSENT_COOKIE_NAME b1) as (_ & _ & _ & Hd2 & _ & Hb2 & Hn2 & _).
  pose proof (page_kept_after_get CONSENT_COOKIE_NAME b2) as (_ & _ & _ & Hd3 & _ & Hb3 & Hn3 & _).
  pose proof (page_kept_after_get CONSENT_COOKIE_NAME b3) as (_ & _ & _ & Hd4 & _ & Hb4 & Hn4 & _).
  fold b1 in Hd1, Hb1, Hn1. fold b2 in Hd2, Hb2, Hn2. fold b3 in Hd3, Hb3, Hn3.
  fold b4 in Hd4, Hb4, Hn4.
  exists (mkPage b2 (loaded_at p) (later p ++ [(100, CallbackInitRecheck)]) (modal_inputs p)).
  eexists. split.
  { unfold init, page_bind. rewrite (on_browser_run _ _ _ _ Hget).
    erewrite on_browser_run by (cbn [browser with_browser]; exact Hhas1).
    rewrite (accepted_truthy r Haccepted), Hstamp. reflexivity. }
  cbn [later browser].
  split; [reflexivity|]. split; [congruence|]. split.
  { cbn [run_callback]. unfold page_bind.
    erewrite on_browser_run by (cbn [browser]; exact Hhas2).
    cbn beta iota. rewrite Hstamp. cbn [negb]. apply on_browser_run. cbn [browser with_browser]. exact Hshow. }
  cbn [browser with_browser].
  pose proof (getConsent_stored r b5 Hstored5 Haccepted) as Hget5.
  split; [unfold b5; cbn [body with_timers with_body]; congruence|].
  split; [unfold b5; cbn [dispatched with_timers with_body]; congruence|].
  split; [rewrite Hget5; reflexivity|].
  intros category. rewrite (isCategoryAllowed_from_consent _ _ _ _ Hget5).
  rewrite (accepted_truthy r Haccepted). reflexivity.
Qed.

(** *** The preferences modal *)

Lemma inputs_of_fresh (modal : nat) (inputs : list (nat * (bool * bool))) (checks : bool * bool) :
  Forall (fun entry => fst entry < modal) inputs ->
  inputs_of modal (inputs ++ [(modal, checks)]) = Some checks.
Proof.
  induction 1 as [|[id c] inputs Hid _ IH]; cbn.
  - rewrite Nat.eqb_refl. reflexivity.
  - cbn in Hid. destruct (Nat.eqb_spec id modal); [lia|exact IH].
Qed.

Lemma inputs_of_app (modal : nat) (inputs more : list (nat * (bool * bool)))
    (checks : bool * bool) :
  inputs_of modal inputs = Some checks -> inputs_of modal (inputs ++ more) = Some checks.
Proof.
  induction inputs as [|[id c] inputs IH]; cbn; [discriminate|].
  destruct (Nat.eqb id modal); [trivial|exact IH].
Qed.

Lemma showModal_run (r : value) (b0 : Browser) (p : Page) :
  getConsent (browser p) = (Returned r, b0) ->
  showModal p = (Returned tt, modal_opened r b0 p).
Proof.
  intros Hget. unfold showModal, createCookieModal, page_bind.
  rewrite (on_browser_run _ _ _ _ Hget). unfold modal_opened, prefill.
  destruct (truthy r); reflexivity.
Qed.

Lemma hide_found (k : node_kind) (n : node) (b : Browser) :
  first_of_kind k b = Some n ->
  hide k b
  = (Returned tt,
     with_timers (timers b ++ [(300, TaskRemoveNode (node_id n))])
       (with_body (faded (node_id n) (body b)) (next_node b) b)).
Proof.
  unfold first_of_kind, hide, bind, getElementById. intros ->. reflexivity.
Qed.

Lemma hide_not_found (k : node_kind) (b : Browser) :
  first_of_kind k b = None -> hide k b = (Returned tt, b).
Proof.
  unfold first_of_kind, hide, bind, getElementById. intros ->. reflexivity.
Qed.

(** [handleSave] with a modal in the document and a cookie store that
    takes the write: the browser it leaves. *)
Lemma handleSave_closes_the_modal (analytics marketing : bool) (n : node) (b : Browser) :
  let data := consentData (clock b) (Some (VBool analytics)) (Some (VBool marketing)) in
  first_of_kind ModalNode b = Some n ->
  cookie_writes b = CookiesAccepted -> well_formed_jar (cookie_jar b) = true ->
  no_other_record CONSENT_COOKIE_NAME b ->
  cookie_round_trip data -> clock b <> EmptyString ->
  exists b',
    handleSave analytics marketing b = (Returned tt, b')
    /\ consent_stored data b'
    /\ dispatched b' = (dispatched b ++ broadcast data)%list
    /\ timers b' = (timers b ++ [(300, TaskRemoveNode (node_id n))])%list
    /\ body b' = faded (node_id n) (body b)
    /\ hidden ModalNode b'.
Proof.
  intros data Hmodal Hw Hwf Hother Htrip Hclock.
  destruct (save_then_check analytics marketing b Hw Hwf Hother Htrip Hclock)
    as (b1 & b2 & Hsave & Hhas & Hstored & Hkept).
  pose proof Hkept as (_ & _ & _ & Hd2 & Ht2 & Hb2 & _).
  assert (first_of_kind ModalNode b2 = Some n) as Hmodal2
    by (unfold first_of_kind; rewrite Hb2; exact Hmodal).
  pose proof (hide_found ModalNode n b2 Hmodal2) as Hhide.
  set (b3 := with_timers _ _) in Hhide.
  destruct (hide_hides ModalNode b2) as ([] & b3' & Hhide' & _ & _ & _ & _ & Hhidden & _).
  rewrite Hhide in Hhide'. injection Hhide' as <-.
  assert (consent_stored data b3) as Hstored3
    by (apply (consent_stored_ext data b2); [reflexivity|exact Hstored]).
  destruct (loadScripts_stored data b3 Hstored3 eq_refl)
    as (b' & Hload & Hstored' & Hd & Ht & Hb & _).
  exists b'. split.
  { unfold handleSave, bind. rewrite Hsave, Hhas, (clock_truthy _ Hclock).
    unfold hideModal. rewrite Hhide. exact Hload. }
  split; [exact Hstored'|].
  split; [rewrite Hd; unfold b3; cbn [dispatched with_timers with_body]; rewrite Hd2; reflexivity|].
  split; [rewrite Ht; unfold b3; cbn [timers with_timers]; rewrite Ht2; reflexivity|].
  split; [rewrite Hb; unfold b3; cbn [body with_timers with_body]; rewrite Hb2; reflexivity|].
  intros m Hm. apply Hhidden. unfold first_of_kind in *. rewrite <- Hb. exact Hm.
Qed.

(** [showModal], then a click on Save: [n] is the modal whose inputs the
    handler reads. *)
Lemma open_then_save (r : value) (b0 : Browser) (n : node) (checks : bool * bool) (p : Page) :
  let b := browser p in
  let p1 := modal_opened r b0 p in
  let data := consentData (clock b) (Some (VBool (fst checks))) (Some (VBool (snd checks))) in
  getConsent b = (Returned r, b0) ->
  first_of_kind ModalNode (browser p1) = Some n ->
  inputs_of (node_id n) (modal_inputs p1) = Some checks ->
  cookie_writes b = CookiesAccepted -> well_formed_jar (cookie_jar b) = true ->
  no_other_record CONSENT_COOKIE_NAME b ->
  cookie_round_trip data -> clock b <> EmptyString ->
  exists p2,
    handleSave_listener p1 = (Returned tt, p2)
    /\ consent_stored data (browser p2)
    /\ dispatched (browser p2) = (dispatched b ++ broadcast data)%list
    /\ timers (browser p2)
       = (timers b ++ [(10, TaskShowNode (next_node b)); (300, TaskRemoveNode (node_id n))])%list
    /\ body (browser p2)
       = faded (node_id n) (body b ++ [mkNode (next_node b) ModalNode false])
    /\ hidden ModalNode (browser p2)
    /\ later p2 = later p.
Proof.
  intros b p1 data Hget Hmodal Hinputs Hw Hwf Hother Htrip Hclock.
  destruct (getConsent_kept b) as (r' & b0' & Hget' & Hkept & _).
  rewrite Hget in Hget'. injection Hget' as <- <-.
  destruct Hkept as ((Hw0 & _ & Hc0 & Hd0 & Ht0 & Hb0 & Hn0 & _) & Hjar0).
  assert (host b0 = host b) as Hh0.
  { pose proof (getConsent_run b Hwf) as Hrun. rewrite Hget in Hrun.
    injection Hrun as _ ->. apply host_after_getConsent. }
  destruct (handleSave_closes_the_modal (fst checks) (snd checks) n (browser p1))
    as (b' & Hsave & Hstored & Hd & Ht & Hb & Hhidden).
  - exact Hmodal.
  - unfold p1, modal_opened. cbn. rewrite Hw0. exact Hw.
  - change (well_formed_jar (cookie_jar b0) = true). rewrite Hjar0. exact Hwf.
  - apply (no_other_record_ext _ b); [exact Hh0|exact Hjar0|exact Hother].
  - unfold p1, modal_opened. cbn [browser clock with_timers with_body]. rewrite Hc0. exact Htrip.
  - unfold p1, modal_opened. cbn. rewrite Hc0. exact Hclock.
  - exists (with_browser b' p1). split.
    { unfold handleSave_listener, page_bind, checked_inputs.
      fold (first_of_kind ModalNode (browser p1)). rewrite Hmodal, Hinputs.
      apply on_browser_run. exact Hsave. }
    revert Hstored Hd Ht Hb. unfold p1, modal_opened.
    cbn [browser with_browser later clock with_timers with_body dispatched timers body].
    rewrite Hc0, Hd0, Ht0, Hb0, Hn0. intros Hstored Hd Ht Hb.
    split; [exact Hstored|]. split; [exact Hd|].
    split; [rewrite Ht, <- app_assoc; reflexivity|].
    split; [exact Hb|]. split; [exact Hhidden|reflexivity].
Qed.

Lemma find_kind_app_some (k : node_kind) (l l' : list node) (n : node) :
  List.find (fun m => node_kind_eqb (node_kind_of m) k) l = Some n ->
  List.find (fun m => node_kind_eqb (node_kind_of m) k) (l ++ l') = Some n.
Proof.
  induction l as [|m l IH]; cbn; [discriminate|].
  destruct (node_kind_eqb (node_kind_of m) k); [trivial|exact IH].
Qed.

Lemma first_modal_is_the_new_one (b0 : Browser) (timers' : list (nat * task)) :
  first_of_kind ModalNode b0 = None ->
  first_of_kind ModalNode
    (with_timers timers'
       (with_body (body b0 ++ [mkNode (next_node b0) ModalNode false]) (S (next_node b0)) b0))
  = Some (mkNode (next_node b0) ModalNode false).
Proof.
  unfold first_of_kind. cbn [body with_timers with_body]. intros Hnone.
  rewrite find_kind_app_none by exact Hnone. reflexivity.
Qed.

(** X16: [showModal] returns whatever the stores do.  It appends one modal,
    not yet visible, and queues its reveal 10 ms later; the analytics and
    marketing inputs of the new modal are checked as the fields of the
    record [getConsent()] returns are truthy, and both unchecked when it
    returns [null].  Nothing is dispatched and the cookies stay as they
    are. *)
Theorem showModal_prefills_from_consent (p : Page) :
  exists r p',
    fst (getConsent (browser p)) = Returned r
    /\ showModal p = (Returned tt, p')
    /\ body (browser p')
       = (body (browser p) ++ [mkNode (next_node (browser p)) ModalNode false])%list
    /\ timers (browser p')
       = (timers (browser p) ++ [(10, TaskShowNode (next_node (browser p)))])%list
    /\ modal_inputs p'
       = (modal_inputs p
          ++ [(next_node (browser p),
               if truthy r
               then (truthy_opt (prop r "analytics"), truthy_opt (prop r "marketing"))
               else (false, false))])%list
    /\ dispatched (browser p') = dispatched (browser p)
    /\ cookie_jar (browser p') = cookie_jar (browser p)
    /\ later p' = later p.
Proof.
  destruct (getConsent_kept (browser p)) as (r & b0 & Hget & Hkept & _).
  destruct Hkept as ((_ & _ & _ & Hd0 & Ht0 & Hb0 & Hn0 & _) & Hjar0).
  exists r, (modal_opened r b0 p).
  split; [rewrite Hget; reflexivity|]. split; [exact (showModal_run r b0 p Hget)|].
  unfold modal_opened, prefill.
  cbn [browser body timers modal_inputs dispatched later with_timers with_body].
  rewrite Hd0, Ht0, Hb0, Hn0. repeat split; try reflexivity. exact Hjar0.
Qed.

(** X17: Opening the preferences on a stored record and saving them
    untouched, when no cookie of the name that was set for another path
    or another domain reads as a record: the record stored afterwards has
    the booleans of the truthiness of the earlier analytics and marketing
    fields, and the time of the save; it is what [getConsent()] returns
    and what is broadcast, and the modal is hidden and queued for
    removal. *)
Theorem saving_an_untouched_modal (r : value) (p : Page) :
  let b := browser p in
  let data :=
    consentData (clock b) (Some (VBool (truthy_opt (prop r "analytics"))))
                (Some (VBool (truthy_opt (prop r "marketing")))) in
  consent_stored r b -> accepted r = true ->
  first_of_kind ModalNode b = None ->
  Forall (fun entry => fst entry < next_node b) (modal_inputs p) ->
  cookie_writes b = CookiesAccepted -> no_other_record CONSENT_COOKIE_NAME b ->
  cookie_round_trip data -> clock b <> EmptyString ->
  exists p1 p2,
    showModal p = (Returned tt, p1)
    /\ handleSave_listener p1 = (Returned tt, p2)
    /\ fst (getConsent (browser p2)) = Returned data
    /\ dispatched (browser p2) = (dispatched b ++ broadcast data)%list
    /\ timers (browser p2)
       = (timers b ++ [(10, TaskShowNode (next_node b));
                       (300, TaskRemoveNode (next_node b))])%list
    /\ hidden ModalNode (browser p2).
Proof.
  intros b data Hstored Haccepted Hnone Hfresh Hw Hother Htrip Hclock.
  pose proof (getConsent_stored r b Hstored Haccepted) as Hget.
  set (b0 := after_get CONSENT_COOKIE_NAME b) in *.
  pose proof (page_kept_after_get CONSENT_COOKIE_NAME b) as (_ & _ & _ & _ & _ & Hb0 & Hn0 & _).
  fold b0 in Hb0, Hn0.
  assert (first_of_kind ModalNode b0 = None) as Hnone0
    by (unfold first_of_kind; rewrite Hb0; exact Hnone).
  destruct (open_then_save r b0 (mkNode (next_node b0) ModalNode false)
              (truthy_opt (prop r "analytics"), truthy_opt (prop r "marketing")) p)
    as (p2 & Hsave & Hstored2 & Hd2 & Ht2 & _ & Hhidden & _).
  - exact Hget.
  - apply first_modal_is_the_new_one, Hnone0.
  - unfold modal_opened, prefill. cbn [modal_inputs node_id].
    rewrite (accepted_truthy r Haccepted). apply inputs_of_fresh. rewrite Hn0. exact Hfresh.
  - exact Hw.
  - apply Hstored.
  - exact Hother.
  - exact Htrip.
  - exact Hclock.
  - exists (modal_opened r b0 p), p2.
    split; [exact (showModal_run r b0 p Hget)|]. split; [exact Hsave|].
    split; [rewrite (getConsent_stored _ _ Hstored2 eq_refl); reflexivity|].
    split; [exact Hd2|]. split; [|exact Hhidden].
    rewrite Ht2. cbn [node_id]. rewrite Hn0. reflexivity.
Qed.

Lemma hide_effect (k : node_kind) (b : Browser) :
  exists b1,
    hide k b = (Returned tt, b1)
    /\ stores_kept b b1 /\ dispatched b1 = dispatched b /\ next_node b1 = next_node b
    /\ hidden k b1
    /\ forall k', first_of_kind k' b = None -> first_of_kind k' b1 = None.
Proof.
  destruct (hide_hides k b) as ([] & b1 & Hhide & Hs & _ & Hd & _ & Hhidden & _).
  exists b1. split; [exact Hhide|]. split; [exact Hs|]. split; [exact Hd|].
  destruct (first_of_kind k b) as [n|] eqn:Hfound.
  - rewrite (hide_found k n b Hfound) in Hhide. injection Hhide as <-.
    split; [reflexivity|]. split; [exact Hhidden|].
    intros k'. unfold first_of_kind, faded. cbn [body with_timers with_body].
    rewrite find_kind_map by (intros m; destruct (Nat.eqb _ _); reflexivity).
    intros ->. reflexivity.
  - rewrite (hide_not_found k b Hfound) in Hhide. injection Hhide as <-.
    split; [reflexivity|]. split; [exact Hhidden|]. trivial.
Qed.

(** X18: "Manage preferences" on a first visit, then Save with the inputs
    untouched: the banner is hidden, the new modal has both inputs
    unchecked, and the save records a rejection: analytics and marketing
    are [false] in the record [getConsent()] returns, both category
    checks answer [false], and the necessary signal is the only one
    dispatched. *)
Theorem manage_then_save_records_a_rejection (p : Page) :
  let b := browser p in
  let data := consentData (clock b) (Some (VBool false)) (Some (VBool false)) in
  nothing_stored b -> first_of_kind ModalNode b = None ->
  Forall (fun entry => fst entry < next_node b) (modal_inputs p) ->
  cookie_writes b = CookiesAccepted ->
  cookie_round_trip data -> clock b <> EmptyString ->
  exists p1 p2,
    handleManage p = (Returned tt, p1)
    /\ hidden BannerNode (browser p1)
    /\ modal_inputs p1 = (modal_inputs p ++ [(next_node b, (false, false))])%list
    /\ handleSave_listener p1 = (Returned tt, p2)
    /\ fst (getConsent (browser p2)) = Returned data
    /\ fst (isCategoryAllowed "analytics" (browser p2)) = Returned false
    /\ fst (isCategoryAllowed "marketing" (browser p2)) = Returned false
    /\ dispatched (browser p2) = (dispatched b ++ [("cookieConsent:necessary", data)])%list
    /\ hidden ModalNode (browser p2).
Proof.
  intros b data Hnothing Hnone Hfresh Hw Htrip Hclock.
  destruct (hide_effect BannerNode b)
    as (b1 & Hhide & (Hjar1 & Hw1 & Hs1 & Hl1 & Hc1) & Hd1 & Hn1 & Hbanner & Hkinds).
  assert (nothing_stored b1) as Hnothing1 by (apply (nothing_stored_ext b); assumption).
  destruct (getConsent_nothing_stored b1 Hnothing1) as [Hget _].
  set (b0 := after_getConsent b1) in *.
  pose proof (page_kept_after_getConsent b1) as (_ & _ & _ & _ & _ & Hb0 & Hn0 & _).
  fold b0 in Hb0, Hn0.
  assert (first_of_kind ModalNode b0 = None) as Hnone0
    by (unfold first_of_kind; rewrite Hb0; apply Hkinds, Hnone).
  set (p0 := with_browser b1 p).
  destruct (open_then_save VNull b0 (mkNode (next_node b0) ModalNode false) (false, false) p0)
    as (p2 & Hsave & Hstored2 & Hd2 & _ & Hb2 & Hmodal & _).
  - exact Hget.
  - apply first_modal_is_the_new_one, Hnone0.
  - unfold modal_opened, prefill. cbn [modal_inputs node_id p0 with_browser truthy].
    apply inputs_of_fresh. rewrite Hn0, Hn1. exact Hfresh.
  - cbn [p0 with_browser browser]. rewrite Hw1. exact Hw.
  - cbn [p0 with_browser browser]. rewrite Hjar1. apply Hnothing.
  - cbn [p0 with_browser browser]. apply nothing_stored_no_other_record, Hnothing1.
  - cbn [p0 with_browser browser fst snd]. rewrite Hc1. exact Htrip.
  - cbn [p0 with_browser browser]. rewrite Hc1. exact Hclock.
  - revert Hstored2 Hd2 Hb2. cbn [p0 with_browser browser fst snd]. rewrite Hc1, Hd1.
    fold data. intros Hstored2 Hd2 Hb2.
    pose proof (getConsent_stored data _ Hstored2 eq_refl) as Hget2.
    exists (modal_opened VNull b0 p0), p2. split.
    { unfold handleManage, page_bind, hideBanner.
      rewrite (on_browser_run _ _ _ _ Hhide). exact (showModal_run VNull b0 p0 Hget). }
    split.
    { intros n. unfold modal_opened, first_of_kind. cbn [browser body with_timers with_body].
      rewrite Hb0.
      destruct (List.find (fun m => node_kind_eqb (node_kind_of m) BannerNode) (body b1))
        as [m|] eqn:Hfind.
      - rewrite (find_kind_app_some _ _ _ _ Hfind). intros Heq. injection Heq as <-.
        apply (Hbanner m Hfind).
      - rewrite (find_kind_app_none _ _ _ Hfind). cbn. discriminate. }
    split; [unfold modal_opened, prefill; cbn [modal_inputs p0 with_browser truthy];
            rewrite Hn0, Hn1; reflexivity|].
    split; [exact Hsave|]. split; [rewrite Hget2; reflexivity|].
    split; [rewrite (isCategoryAllowed_from_consent _ _ _ _ Hget2); reflexivity|].
    split; [rewrite (isCategoryAllowed_from_consent _ _ _ _ Hget2); reflexivity|].
    split; [exact Hd2|exact Hmodal].
Qed.

(** X19: [showModal] while a modal is in the document (the public
    [showModal] can be called at any time), then the Save handler, with a
    cookie store that takes the write and no record under a cookie of the
    name set for another path or another domain: it reads the inputs of
    the older modal and stores their states; it queues the removal of the
    older modal only, and the new modal stays in the document. *)
Theorem save_with_two_modals (n : node) (checks : bool * bool) (p : Page) :
  let b := browser p in
  let data := consentData (clock b) (Some (VBool (fst checks))) (Some (VBool (snd checks))) in
  first_of_kind ModalNode b = Some n ->
  inputs_of (node_id n) (modal_inputs p) = Some checks ->
  Forall (fun m => node_id m < next_node b) (body b) ->
  cookie_writes b = CookiesAccepted -> well_formed_jar (cookie_jar b) = true ->
  no_other_record CONSENT_COOKIE_NAME b ->
  cookie_round_trip data -> clock b <> EmptyString ->
  exists p1 p2,
    showModal p = (Returned tt, p1)
    /\ handleSave_listener p1 = (Returned tt, p2)
    /\ fst (getConsent (browser p2)) = Returned data
    /\ timers (browser p2)
       = (timers b ++ [(10, TaskShowNode (next_node b));
                       (300, TaskRemoveNode (node_id n))])%list
    /\ node_id n <> next_node b
    /\ In (mkNode (next_node b) ModalNode false) (body (browser p2)).
Proof.
  intros b data Hmodal Hinputs Hfresh Hw Hwf Hother Htrip Hclock.
  destruct (getConsent_kept b) as (r & b0 & Hget & Hkept & _).
  destruct Hkept as ((_ & _ & _ & _ & _ & Hb0 & _) & _).
  assert (node_id n < next_node b) as Hold.
  { apply List.find_some in Hmodal as [Hin _].
    exact (proj1 (List.Forall_forall _ _) Hfresh n Hin). }
  destruct (open_then_save r b0 n checks p) as (p2 & Hsave & Hstored2 & _ & Ht2 & Hb2 & _).
  - exact Hget.
  - unfold modal_opened, first_of_kind. cbn [browser body with_timers with_body].
    rewrite Hb0. apply find_kind_app_some. exact Hmodal.
  - unfold modal_opened. cbn [modal_inputs]. apply inputs_of_app. exact Hinputs.
  - exact Hw.
  - exact Hwf.
  - exact Hother.
  - exact Htrip.
  - exact Hclock.
  - exists (modal_opened r b0 p), p2.
    split; [exact (showModal_run r b0 p Hget)|]. split; [exact Hsave|].
    split; [rewrite (getConsent_stored _ _ Hstored2 eq_refl); reflexivity|].
    split; [exact Ht2|]. split; [lia|].
    rewrite Hb2. unfold faded. rewrite map_app. apply in_or_app. right. cbn [map node_id].
    destruct (Nat.eqb_spec (next_node (browser p)) (node_id n)) as [Heq|_].
    + fold b in Heq. lia.
    + left. reflexivity.
Qed.

End MoreProperties.

(** ** The dark-mode toggle *)

Section Theme.

Lemma click_step (dark : bool) (s : Site) :
  storage_access (store s) = StorageAvailable -> toggle_listens s = true ->
  shows_theme dark s -> darkModeToggle s ≫= toggle_icon <> None ->
  exists s1,
    click_toggle s = (Returned tt, s1)
    /\ shows_theme (negb dark) s1
    /\ saved_theme s1 = Some (if negb dark then "dark" else "light")
    /\ darkModeToggle s1 ≫= toggle_icon = Some (if negb dark then SUN else MOON)
    /\ storage_access (store s1) = StorageAvailable /\ toggle_listens s1 = true.
Proof.
  destruct s as [b prefers dm tg listens]. unfold shows_theme.
  cbn [store toggle_listens darkModeToggle dark_mode].
  intros Hstorage -> [-> (icon & ->)].
  destruct icon as [icon|]; cbn; [intros _|congruence].
  unfold click_toggle, darkModeToggle_click, site_bind, on_store, localStorage_setItem,
    shows_theme, saved_theme.
  destruct dark; cbn; rewrite Hstorage; cbn;
    (eexists; split; [reflexivity|]; cbn; rewrite lookup_insert_eq;
     repeat split; try reflexivity; try assumption; eexists; reflexivity).
Qed.

Lemma clicks_follow (n : nat) : forall (dark : bool) (s : Site),
  storage_access (store s) = StorageAvailable -> toggle_listens s = true ->
  shows_theme dark s -> darkModeToggle s ≫= toggle_icon <> None ->
  exists sn,
    clicks n s = (Returned tt, sn)
    /\ shows_theme (xorb dark (Nat.odd n)) sn
    /\ (0 < n ->
        saved_theme sn = Some (if dark_mode sn then "dark" else "light")
        /\ darkModeToggle sn ≫= toggle_icon = Some (if dark_mode sn then SUN else MOON)).
Proof.
  induction n as [|n IH]; intros dark s Hstorage Hlistens Hshows Hicon.
  - exists s. split; [reflexivity|]. split; [|lia].
    cbn [Nat.odd]. rewrite xorb_false_r. exact Hshows.
  - destruct (click_step dark s Hstorage Hlistens Hshows Hicon)
      as (s1 & Hclick & Hshows1 & Hsaved1 & Hicon1 & Hstorage1 & Hlistens1).
    destruct (IH (negb dark) s1 Hstorage1 Hlistens1 Hshows1) as (sn & Hrest & Hshowsn & Hlater).
    { rewrite Hicon1. discriminate. }
    exists sn. split; [cbn [clicks]; unfold site_bind; rewrite Hclick; exact Hrest|].
    assert (xorb (negb dark) (Nat.odd n) = xorb dark (Nat.odd (S n))) as Hparity.
    { rewrite Nat.odd_succ, <- Nat.negb_odd. destruct dark, (Nat.odd n); reflexivity. }
    rewrite <- Hparity. split; [exact Hshowsn|]. intros _.
    destruct n as [|n]; [|apply Hlater; lia].
    cbn [clicks site_ret] in Hrest. injection Hrest as <-.
    destruct Hshows1 as [-> _]. split; assumption.
Qed.

Lemma setup_run (t : Toggle) (s : Site) :
  storage_access (store s) <> StorageDenied ->
  darkModeToggle s = Some t -> toggle_icon t <> None ->
  dark_mode s = false -> toggle_active t = false ->
  exists s0,
    darkMode_setup s = (Returned tt, s0)
    /\ shows_theme (theme_at_load s) s0
    /\ store s0 = store s /\ toggle_listens s0 = true
    /\ darkModeToggle s0 ≫= toggle_icon <> None.
Proof.
  destruct s as [b prefers dm tg listens]. cbn [store dark_mode darkModeToggle].
  intros Hstorage -> Hicon -> Hactive.
  destruct t as [active aria [icon|]]; [|cbn in Hicon; congruence].
  cbn in Hactive. subst active.
  unfold darkMode_setup, theme_at_load, saved_theme, site_bind, on_store, localStorage_getItem,
    shows_theme.
  cbn [darkModeToggle store prefers_dark].
  assert (match storage_access b with
          | StorageDenied => (Thrown SecurityError, b)
          | _ => (Returned (local_storage b !! "theme"), b)
          end = (Returned (local_storage b !! "theme"), b)) as ->
    by (destruct (storage_access b); [reflexivity|reflexivity|congruence]).
  cbn [matchMedia_prefers_dark with_store store prefers_dark dark_mode darkModeToggle
       toggle_listens].
  destruct (item_is (local_storage b !! "theme") "dark"
            || falsy_item (local_storage b !! "theme") && prefers);
    cbn; (eexists; split; [reflexivity|]; cbn;
          repeat split; try reflexivity; try discriminate; eexists; reflexivity).
Qed.

(** X20: After the setup on a page whose markup is in the light theme, with a
    working [localStorage]: the saved theme is applied, or the preference
    of the system when nothing is saved.  Each click then switches the
    theme, and the class of the body, the class and [aria-checked] of the
    toggle, the icon and the saved theme all agree after any number of
    clicks. *)
Theorem theme_follows_the_clicks (t : Toggle) (s : Site) (n : nat) :
  storage_access (store s) = StorageAvailable ->
  darkModeToggle s = Some t -> toggle_icon t <> None ->
  dark_mode s = false -> toggle_active t = false ->
  exists s0 sn,
    darkMode_setup s = (Returned tt, s0)
    /\ shows_theme (theme_at_load s) s0
    /\ clicks n s0 = (Returned tt, sn)
    /\ shows_theme (xorb (dark_mode s0) (Nat.odd n)) sn
    /\ (0 < n ->
        saved_theme sn = Some (if dark_mode sn then "dark" else "light")
        /\ darkModeToggle sn ≫= toggle_icon = Some (if dark_mode sn then SUN else MOON)).
Proof.
  intros Hstorage Htoggle Hicon Hlight Hinactive.
  destruct (setup_run t s) as (s0 & Hsetup & Hshows & Hstore & Hlistens & Hicon0);
    try assumption; [rewrite Hstorage; discriminate|].
  destruct (clicks_follow n (dark_mode s0) s0) as (sn & Hclicks & Hshowsn & Hsaved);
    try assumption.
  - rewrite Hstore. exact Hstorage.
  - pose proof Hshows as [Hdark _]. rewrite Hdark. exact Hshows.
  - exists s0, sn. split; [exact Hsetup|]. split; [exact Hshows|]. split; [exact Hclicks|].
    split; [exact Hshowsn|exact Hsaved].
Qed.

(** X21: A click, then the next load of the page: whatever the system
    prefers, the setup applies the theme the click chose.  [markup] is
    the document of the next load, in the light theme as the markup has
    it; of the browser the earlier page left, only [localStorage]
    matters to the setup. *)
Theorem theme_survives_reload (t t' : Toggle) (s markup : Site) :
  storage_access (store s) = StorageAvailable -> toggle_listens s = true ->
  darkModeToggle s = Some t -> toggle_icon t <> None ->
  darkModeToggle markup = Some t' -> toggle_icon t' <> None ->
  dark_mode markup = false -> toggle_active t' = false ->
  exists s1 s2,
    click_toggle s = (Returned tt, s1)
    /\ dark_mode s1 = negb (dark_mode s)
    /\ darkMode_setup (with_store (store s1) markup) = (Returned tt, s2)
    /\ shows_theme (dark_mode s1) s2.
Proof.
  intros Hstorage Hlistens Htoggle Hicon Htoggle' Hicon' Hlight Hinactive.
  destruct s as [b prefers dm tg listens]. cbn in Hstorage, Hlistens, Htoggle. subst tg listens.
  destruct t as [active aria [icon|]]; [|cbn in Hicon; congruence].
  assert (exists s1,
            click_toggle (mkSite b prefers dm (Some (mkToggle active aria (Some icon))) true)
            = (Returned tt, s1)
            /\ dark_mode s1 = negb dm
            /\ saved_theme s1 = Some (if negb dm then "dark" else "light")
            /\ storage_access (store s1) = StorageAvailable) as (s1 & Hclick & Hdm & Hsaved & Hs1).
  { unfold click_toggle, darkModeToggle_click, site_bind, on_store, localStorage_setItem,
      saved_theme.
    destruct dm; cbn; rewrite Hstorage; cbn;
      (eexists; split; [reflexivity|]; cbn; rewrite lookup_insert_eq;
       repeat split; assumption). }
  destruct (setup_run t' (with_store (store s1) markup))
    as (s2 & Hsetup & Hshows & _); try assumption.
  { cbn. rewrite Hs1. discriminate. }
  exists s1, s2. split; [exact Hclick|]. split; [exact Hdm|]. split; [exact Hsetup|].
  replace (dark_mode s1) with (theme_at_load (with_store (store s1) markup)); [exact Hshows|].
  unfold theme_at_load. change (saved_theme (with_store (store s1) markup)) with (saved_theme s1).
  rewrite Hsaved, Hdm. destruct dm; reflexivity.
Qed.

(** X22: A click when [localStorage] is full: the body and the toggle change
    their look, then the handler throws; the icon is not updated and
    nothing is saved. *)
Theorem theme_is_not_saved_when_storage_is_full (t : Toggle) (s : Site) :
  storage_access (store s) = StorageFull -> toggle_listens s = true ->
  darkModeToggle s = Some t ->
  exists s1,
    click_toggle s = (Thrown QuotaExceededError, s1)
    /\ dark_mode s1 = negb (dark_mode s)
    /\ darkModeToggle s1
       = Some (mkToggle (negb (toggle_active t))
                        (Some (if dark_mode s then "false" else "true")) (toggle_icon t))
    /\ store s1 = store s.
Proof.
  destruct s as [b prefers dm tg listens]. cbn [store toggle_listens darkModeToggle dark_mode].
  intros Hstorage -> ->.
  unfold click_toggle, darkModeToggle_click, site_bind, on_store, localStorage_setItem.
  destruct dm; cbn; rewrite Hstorage; cbn; (eexists; split; [reflexivity|]);
    cbn; repeat split; destruct b; reflexivity.
Qed.

(** X23: With [localStorage] denied the setup throws at its first statement:
    nothing of the theme is applied, the preference of the system
    included, and the click listener is never registered, so that clicks
    change nothing. *)
Theorem theme_setup_needs_storage (t : Toggle) (s : Site) (n : nat) :
  storage_access (store s) = StorageDenied -> darkModeToggle s = Some t ->
  toggle_listens s = false ->
  darkMode_setup s = (Thrown SecurityError, s) /\ clicks n s = (Returned tt, s).
Proof.
  intros Hstorage Htoggle Hlistens. split.
  - unfold darkMode_setup, site_bind, on_store, localStorage_getItem.
    rewrite Htoggle, Hstorage. destruct s as [[] ? ? ? ?]; reflexivity.
  - induction n as [|n IH]; [reflexivity|].
    cbn [clicks]. unfold site_bind, click_toggle. rewrite Hlistens. exact IH.
Qed.

Context {P : Platform}.

Lemma getConsent_ignores_the_theme (text : string) (b : Browser) :
  well_formed_jar (cookie_jar b) = true ->
  fst (getConsent (with_local_storage (<["theme" := text]> (local_storage b)) b))
  = fst (getConsent b).
Proof.
  intros Hwf. rewrite !getConsent_run by exact Hwf. cbn [fst]. apply f_equal.
  unfold stored_record, fallback_record.
  cbn [cookie_jar storage_access local_storage with_local_storage].
  rewrite lookup_insert_ne by discriminate. reflexivity.
Qed.

(** X24: The theme and the consent share [localStorage] and do not meet: a
    click on the toggle, whatever its outcome, and the setup leave the
    cookies as they are and [getConsent()] returns after them what it
    returned before. *)
Theorem theme_leaves_consent_alone (s : Site) :
  well_formed_jar (cookie_jar (store s)) = true ->
  (cookie_jar (store (snd (click_toggle s))) = cookie_jar (store s)
   /\ fst (getConsent (store (snd (click_toggle s)))) = fst (getConsent (store s)))
  /\ store (snd (darkMode_setup s)) = store s.
Proof.
  intros Hwf. destruct s as [b prefers dm tg listens]. cbn [store] in *. split.
  - assert (store (snd (click_toggle (mkSite b prefers dm tg listens))) = b
            \/ exists text,
                 store (snd (click_toggle (mkSite b prefers dm tg listens)))
                 = with_local_storage (<["theme" := text]> (local_storage b)) b) as [->| [text ->]].
    { unfold click_toggle, darkModeToggle_click, site_bind, on_store, localStorage_setItem,
        toggle_icon_set.
      destruct listens; [|left; reflexivity].
      destruct dm, (storage_access b) eqn:Hstorage, tg as [[active aria [icon|]]|];
        cbn; rewrite ?Hstorage; cbn; try (left; reflexivity); right; eexists; reflexivity. }
    + split; reflexivity.
    + split; [reflexivity|apply getConsent_ignores_the_theme, Hwf].
  - unfold darkMode_setup, site_bind, on_store, localStorage_getItem, toggle_icon_set.
    destruct tg as [[active aria [icon|]]|]; [| |reflexivity];
      cbn [darkModeToggle store]; destruct (storage_access b); cbn;
      try reflexivity;
      destruct (item_is _ _ || _); reflexivity.
Qed.

End Theme.

(** ** The further properties on concrete browsers *)

Import Visits.

Lemma handleAcceptAll_saves_and_broadcasts_witness :
  let data := consentData midnight (Some (VBool true)) (Some (VBool true)) in
  exists b',
    handleAcceptAll (P := Reference.platform) first_visit = (Returned tt, b')
    /\ fst (getConsent (P := Reference.platform) b') = Returned data
    /\ dispatched b' = [("cookieConsent:analytics", data);
                        ("cookieConsent:marketing", data);
                        ("cookieConsent:necessary", data)].
Proof.
  intros data.
  destruct (handleAcceptAll_saves_and_broadcasts (P := Reference.platform) first_visit)
    as (b' & Hrun & Hget & Hdispatched & _).
  - reflexivity.
  - reflexivity.
  - vm_compute. reflexivity.
  - split; vm_compute; reflexivity.
  - discriminate.
  - exists b'. split; [exact Hrun|]. split; [exact Hget|exact Hdispatched].
Defined.

Lemma handleReject_saves_and_broadcasts_witness :
  let data := consentData midnight (Some (VBool false)) (Some (VBool false)) in
  exists b',
    handleReject (P := Reference.platform) returning_visit = (Returned tt, b')
    /\ fst (getConsent (P := Reference.platform) b') = Returned data
    /\ fst (isCategoryAllowed (P := Reference.platform) "analytics" b') = Returned false
    /\ dispatched b' = [("cookieConsent:necessary", data)].
Proof.
  intros data.
  destruct (handleReject_saves_and_broadcasts (P := Reference.platform) returning_visit)
    as (b' & Hrun & Hget & Hanalytics & _ & Hdispatched & _).
  - reflexivity.
  - reflexivity.
  - vm_compute. reflexivity.
  - split; vm_compute; reflexivity.
  - discriminate.
  - exists b'. split; [exact Hrun|]. split; [exact Hget|].
    split; [exact Hanalytics|exact Hdispatched].
Defined.

Lemma handleSave_saves_and_broadcasts_witness :
  let data := consentData midnight (Some (VBool false)) (Some (VBool true)) in
  exists b',
    handleSave (P := Reference.platform) false true modal_open_visit = (Returned tt, b')
    /\ fst (getConsent (P := Reference.platform) b') = Returned data
    /\ dispatched b' = [("cookieConsent:marketing", data); ("cookieConsent:necessary", data)].
Proof.
  intros data.
  destruct (handleSave_saves_and_broadcasts (P := Reference.platform) false true
              modal_open_visit) as (b' & Hrun & Hget & _ & _ & Hdispatched & _).
  - reflexivity.
  - reflexivity.
  - vm_compute. reflexivity.
  - split; vm_compute; reflexivity.
  - discriminate.
  - exists b'. split; [exact Hrun|]. split; [exact Hget|exact Hdispatched].
Defined.

Lemma retry_completes_the_save_witness :
  let data := consentData midnight (Some (VBool true)) (Some (VBool false)) in
  exists b',
    run_task (P := Reference.platform) (TaskRetrySave true false) modal_open_visit
    = (Returned tt, b')
    /\ fst (getConsent (P := Reference.platform) b') = Returned data
    /\ dispatched b' = [("cookieConsent:analytics", data); ("cookieConsent:necessary", data)].
Proof.
  intros data.
  destruct (retry_completes_the_save (P := Reference.platform) (TaskRetrySave true false)
              true false modal_open_visit) as (b' & Hrun & Hget & Hdispatched & _).
  - reflexivity.
  - reflexivity.
  - reflexivity.
  - vm_compute. reflexivity.
  - split; vm_compute; reflexivity.
  - discriminate.
  - exists b'. split; [exact Hrun|]. split; [exact Hget|exact Hdispatched].
Defined.

Lemma saveConsent_builds_a_valid_record_witness :
  exists r b',
    saveConsent (P := Reference.platform)
      (VObj [("analytics", VStr "yes"); ("necessary", VBool false); ("version", VStr "0.9")])
      first_visit
    = (Returned r, b')
    /\ prop r "necessary" = Some (VBool true)
    /\ prop r "version" = Some (VStr CONSENT_VERSION)
    /\ prop r "analytics" = Some (VStr "yes")
    /\ prop r "marketing" = Some (VBool false).
Proof.
  pose proof (saveConsent_builds_a_valid_record (P := Reference.platform)
                [("analytics", VStr "yes"); ("necessary", VBool false); ("version", VStr "0.9")]
                first_visit) as Hbuilt.
  cbv zeta in Hbuilt.
  destruct Hbuilt as (r & b' & Hrun & Hnecessary & Hversion & _ & Hanalytics & Hmarketing & _).
  - discriminate.
  - exists r, b'. split; [exact Hrun|]. split; [exact Hnecessary|]. split; [exact Hversion|].
    split; [exact Hanalytics|exact Hmarketing].
Defined.

Lemma saveConsent_returns_what_it_could_not_store_witness :
  exists b',
    saveConsent (P := Reference.platform) (choice true true) storeless_visit
    = (Returned (consentData midnight (Some (VBool true)) (Some (VBool true))), b')
    /\ fst (getConsent (P := Reference.platform) b') = Returned VNull.
Proof.
  destruct (saveConsent_returns_what_it_could_not_store (P := Reference.platform)
              [("analytics", VBool true); ("marketing", VBool true)] storeless_visit)
    as (b' & Hrun & _ & Hget & _).
  - reflexivity.
  - discriminate.
  - repeat split.
  - exists b'. split; [exact Hrun|exact Hget].
Defined.

Lemma saveConsent_throws_on_an_opaque_origin_witness :
  exists b2,
    handleReject (P := Reference.platform) opaque_origin_visit = (Thrown SecurityError, b2)
    /\ dispatched b2 = [] /\ timers b2 = [] /\ body b2 = []
    /\ fst (getConsent (P := Reference.platform) b2) = Returned VNull.
Proof.
  destruct (saveConsent_throws_on_an_opaque_origin (P := Reference.platform)
              [] false false opaque_origin_visit) as [_ Hhandlers]; [reflexivity|].
  apply (Hhandlers handleReject). right. left. reflexivity.
Defined.

Lemma handleSave_retries_once_witness :
  exists b1,
    handleSave (P := Reference.platform) true false storeless_visit = (Returned tt, b1)
    /\ timers b1 = [(100, TaskRetrySave true false)]
    /\ In (Error, "Failed to save consent") (console b1)
    /\ dispatched b1 = [] /\ body b1 = [].
Proof.
  destruct (handleSave_retries_once (P := Reference.platform) true false storeless_visit)
    as (b_saved & consented & b_checked & b1 & Hsave & _ & _ & Hhas & Hhandle & Hfail & _);
    [discriminate|].
  vm_compute in Hsave. injection Hsave as <-.
  vm_compute in Hhas. injection Hhas as <- <-.
  destruct (Hfail eq_refl) as (Htimers & Hconsole & Hdispatched & Hbody).
  exists b1. split; [exact Hhandle|]. split; [exact Htimers|].
  split; [rewrite Hconsole; apply in_or_app; right; left; reflexivity|].
  split; assumption.
Defined.

Lemma CookieUtils_remove_erases_only_the_key_witness :
  exists b1,
    CookieUtils_remove CONSENT_COOKIE_NAME returning_visit = (Returned tt, b1)
    /\ In (mkCookie "theme" "dark" site "/") (cookie_jar b1)
    /\ local_storage b1 !! CONSENT_COOKIE_NAME = None.
Proof.
  destruct (CookieUtils_remove_erases_only_the_key CONSENT_COOKIE_NAME returning_visit)
    as (b1 & Hrun & _ & Hjar & Hstorage).
  exists b1. split; [exact Hrun|]. split.
  - apply (Hjar eq_refl). split; [left; reflexivity|reflexivity].
  - apply Hstorage. discriminate.
Defined.

Lemma read_after_the_cookie_is_gone_witness :
  exists b1,
    CookieUtils_get (P := Reference.platform) CONSENT_COOKIE_NAME returning_visit
    = (Returned analytics_only_record, b1)
    /\ fst (CookieUtils_get (P := Reference.platform) CONSENT_COOKIE_NAME
              (with_cookie_jar (drop_cookie CONSENT_COOKIE_NAME (cookie_jar b1)) b1))
       = Returned analytics_only_record.
Proof.
  apply (read_after_the_cookie_is_gone (P := Reference.platform) CONSENT_COOKIE_NAME
           analytics_only_record returning_visit); try reflexivity.
  split; [vm_compute; discriminate|vm_compute; reflexivity].
Defined.

Lemma showBanner_twice_leaves_a_banner_witness :
  exists b1 b2 b3 b4 b5 b6,
    showBanner (P := Reference.platform) first_visit = (Returned tt, b1)
    /\ showBanner (P := Reference.platform) b1 = (Returned tt, b2)
    /\ body b2 = [mkNode 0 BannerNode false; mkNode 1 BannerNode false]
    /\ run_task (P := Reference.platform) (TaskShowNode 0) b2 = (Returned tt, b3)
    /\ run_task (P := Reference.platform) (TaskShowNode 1) b3 = (Returned tt, b4)
    /\ hideBanner b4 = (Returned tt, b5)
    /\ timers b5 = (timers b4 ++ [(300, TaskRemoveNode 0)])%list
    /\ run_task (P := Reference.platform) (TaskRemoveNode 0) b5 = (Returned tt, b6)
    /\ body b6 = [mkNode 1 BannerNode true].
Proof.
  apply (showBanner_twice_leaves_a_banner (P := Reference.platform) first_visit).
  - repeat split.
  - reflexivity.
  - constructor.
Defined.

Lemma reset_shows_the_banner_again_witness :
  exists b',
    reset (P := Reference.platform) returning_visit = (Returned tt, b')
    /\ fst (getConsent (P := Reference.platform) b') = Returned VNull
    /\ body b' = [mkNode 0 BannerNode false]
    /\ timers b' = [(100, TaskShowNode 0)]
    /\ dispatched b' = [].
Proof.
  apply (reset_shows_the_banner_again (P := Reference.platform) returning_visit);
    vm_compute; reflexivity.
Defined.

Lemma init_on_a_first_visit_witness :
  exists p1 p2,
    init (P := Reference.platform) (page_of first_visit) = (Returned tt, p1)
    /\ later p1 = [(100, CallbackInitRecheck)]
    /\ body (browser p1) = []
    /\ run_callback (P := Reference.platform) CallbackInitRecheck p1 = (Returned tt, p2)
    /\ body (browser p2) = [mkNode 0 BannerNode false]
    /\ dispatched (browser p2) = [].
Proof.
  destruct (init_on_a_first_visit (P := Reference.platform) (page_of first_visit))
    as (p1 & p2 & Hinit & Hlater & Hbody & _ & _ & Hrun & _ & Hbanner & _ & Hdispatched).
  - repeat split.
  - exists p1, p2. split; [exact Hinit|]. split; [exact Hlater|]. split; [exact Hbody|].
    split; [exact Hrun|]. split; [exact Hbanner|exact Hdispatched].
Defined.

Lemma init_with_consent_broadcasts_witness :
  exists p',
    init (P := Reference.platform) (page_of returning_visit) = (Returned tt, p')
    /\ dispatched (browser p')
       = [("cookieConsent:analytics", analytics_only_record);
          ("cookieConsent:necessary", analytics_only_record)]
    /\ later p' = [].
Proof.
  destruct (init_with_consent_broadcasts (P := Reference.platform) analytics_only_record
              (page_of returning_visit)) as (p' & Hinit & Hdispatched & Hlater & _).
  - split; vm_compute; reflexivity.
  - reflexivity.
  - reflexivity.
  - exists p'. split; [exact Hinit|]. split; [exact Hdispatched|exact Hlater].
Defined.

Lemma init_without_timestamp_shows_the_banner_witness :
  exists p1 p2,
    init (P := Reference.platform) (page_of undated_visit) = (Returned tt, p1)
    /\ dispatched (browser p1) = []
    /\ run_callback (P := Reference.platform) CallbackInitRecheck p1 = (Returned tt, p2)
    /\ body (browser p2) = [mkNode 0 BannerNode false]
    /\ fst (getConsent (P := Reference.platform) (browser p2)) = Returned undated_record
    /\ fst (isCategoryAllowed (P := Reference.platform) "analytics" (browser p2))
       = Returned true.
Proof.
  destruct (init_without_timestamp_shows_the_banner (P := Reference.platform) undated_record
              (page_of undated_visit))
    as (p1 & p2 & Hinit & _ & Hdispatched & Hrun & Hbanner & _ & Hget & Hallowed).
  - split; vm_compute; reflexivity.
  - reflexivity.
  - reflexivity.
  - exists p1, p2. split; [exact Hinit|]. split; [exact Hdispatched|]. split; [exact Hrun|].
    split; [exact Hbanner|]. split; [exact Hget|exact (Hallowed "analytics")].
Defined.

Lemma saving_an_untouched_modal_witness :
  let data := consentData midnight (Some (VBool true)) (Some (VBool false)) in
  exists p1 p2,
    showModal (P := Reference.platform) (page_of numeric_visit) = (Returned tt, p1)
    /\ handleSave_listener (P := Reference.platform) p1 = (Returned tt, p2)
    /\ fst (getConsent (P := Reference.platform) (browser p2)) = Returned data
    /\ dispatched (browser p2)
       = [("cookieConsent:analytics", data); ("cookieConsent:necessary", data)].
Proof.
  intros data.
  destruct (saving_an_untouched_modal (P := Reference.platform) numeric_record
              (page_of numeric_visit)) as (p1 & p2 & Hshow & Hsave & Hget & Hdispatched & _).
  - split; vm_compute; reflexivity.
  - reflexivity.
  - reflexivity.
  - constructor.
  - reflexivity.
  - vm_compute. reflexivity.
  - split; vm_compute; reflexivity.
  - discriminate.
  - exists p1, p2. split; [exact Hshow|]. split; [exact Hsave|].
    split; [exact Hget|exact Hdispatched].
Defined.

Lemma manage_then_save_records_a_rejection_witness :
  let data := consentData midnight (Some (VBool false)) (Some (VBool false)) in
  exists p1 p2,
    handleManage (P := Reference.platform) (page_of banner_shown_visit) = (Returned tt, p1)
    /\ modal_inputs p1 = [(1, (false, false))]
    /\ handleSave_listener (P := Reference.platform) p1 = (Returned tt, p2)
    /\ fst (getConsent (P := Reference.platform) (browser p2)) = Returned data
    /\ dispatched (browser p2) = [("cookieConsent:necessary", data)].
Proof.
  intros data.
  destruct (manage_then_save_records_a_rejection (P := Reference.platform)
              (page_of banner_shown_visit))
    as (p1 & p2 & Hmanage & _ & Hinputs & Hsave & Hget & _ & _ & Hdispatched & _).
  - repeat split.
  - reflexivity.
  - constructor.
  - reflexivity.
  - split; vm_compute; reflexivity.
  - discriminate.
  - exists p1, p2. split; [exact Hmanage|]. split; [exact Hinputs|]. split; [exact Hsave|].
    split; [exact Hget|exact Hdispatched].
Defined.

Lemma save_with_two_modals_witness :
  exists p1 p2,
    showModal (P := Reference.platform) modal_open_page = (Returned tt, p1)
    /\ handleSave_listener (P := Reference.platform) p1 = (Returned tt, p2)
    /\ fst (getConsent (P := Reference.platform) (browser p2))
       = Returned (consentData midnight (Some (VBool true)) (Some (VBool false)))
    /\ timers (browser p2) = [(10, TaskShowNode 1); (300, TaskRemoveNode 0)]
    /\ In (mkNode 1 ModalNode false) (body (browser p2)).
Proof.
  destruct (save_with_two_modals (P := Reference.platform) (mkNode 0 ModalNode true)
              (true, false) modal_open_page)
    as (p1 & p2 & Hshow & Hsave & Hget & Htimers & _ & Hleft).
  - reflexivity.
  - reflexivity.
  - repeat constructor.
  - reflexivity.
  - reflexivity.
  - vm_compute. reflexivity.
  - split; vm_compute; reflexivity.
  - discriminate.
  - exists p1, p2. split; [exact Hshow|]. split; [exact Hsave|]. split; [exact Hget|].
    split; [exact Htimers|exact Hleft].
Defined.

Lemma theme_follows_the_clicks_witness :
  exists s0 s3,
    darkMode_setup (light_markup first_visit true) = (Returned tt, s0)
    /\ shows_theme true s0
    /\ clicks 3 s0 = (Returned tt, s3)
    /\ shows_theme false s3
    /\ saved_theme s3 = Some "light"
    /\ darkModeToggle s3 ≫= toggle_icon = Some MOON.
Proof.
  destruct (theme_follows_the_clicks (mkToggle false None (Some MOON))
              (light_markup first_visit true) 3)
    as (s0 & s3 & Hsetup & Hshows & Hclicks & Hshows3 & Hsaved); try reflexivity.
  - discriminate.
  - pose proof Hshows as [Hdark _]. pose proof Hshows3 as [Hdark3 _].
    rewrite Hdark in Hdark3, Hshows3.
    destruct (Hsaved ltac:(lia)) as [Htheme Hicon]. rewrite Hdark3 in Htheme, Hicon.
    exists s0, s3. split; [exact Hsetup|]. split; [exact Hshows|]. split; [exact Hclicks|].
    split; [exact Hshows3|]. split; [exact Htheme|exact Hicon].
Defined.

Lemma theme_survives_reload_witness :
  exists s1 s2,
    click_toggle (light_site first_visit) = (Returned tt, s1)
    /\ dark_mode s1 = true
    /\ darkMode_setup (with_store (store s1) (light_markup first_visit false))
       = (Returned tt, s2)
    /\ shows_theme true s2.
Proof.
  destruct (theme_survives_reload (mkToggle false (Some "false") (Some MOON))
              (mkToggle false None (Some MOON))
              (light_site first_visit) (light_markup first_visit false))
    as (s1 & s2 & Hclick & Hdark & Hsetup & Hshows); try reflexivity; try discriminate.
  rewrite Hdark in Hshows.
  exists s1, s2. split; [exact Hclick|]. split; [exact Hdark|]. split; [exact Hsetup|exact Hshows].
Defined.

Lemma theme_is_not_saved_when_storage_is_full_witness :
  exists s1,
    click_toggle (light_site refusing_visit) = (Thrown QuotaExceededError, s1)
    /\ dark_mode s1 = true
    /\ darkModeToggle s1 = Some (mkToggle true (Some "true") (Some MOON))
    /\ store s1 = refusing_visit.
Proof.
  apply (theme_is_not_saved_when_storage_is_full
           (mkToggle false (Some "false") (Some MOON)) (light_site refusing_visit));
    reflexivity.
Defined.

Lemma theme_setup_needs_storage_witness :
  darkMode_setup (light_markup private_visit true)
  = (Thrown SecurityError, light_markup private_visit true)
  /\ clicks 2 (light_markup private_visit true)
     = (Returned tt, light_markup private_visit true).
Proof.
  apply (theme_setup_needs_storage (mkToggle false None (Some MOON))
           (light_markup private_visit true) 2); reflexivity.
Defined.

Lemma theme_leaves_consent_alone_witness :
  cookie_jar (store (snd (click_toggle (light_site returning_visit))))
  = cookie_jar returning_visit
  /\ fst (getConsent (P := Reference.platform)
            (store (snd (click_toggle (light_site returning_visit)))))
     = fst (getConsent (P := Reference.platform) returning_visit).
Proof.
  apply (theme_leaves_consent_alone (P := Reference.platform) (light_site returning_visit)).
  reflexivity.
Defined.
